(** * vessel-dashboard: the data-processing pipeline of [data_processing.py]

    A shallow embedding of the pandas code of [src/data_processing.py]:
    the frame model (typed columns over a row count), the Cleaner
    ([clean_data]), the Timestamp Synthesizer ([create_timestamp]), the
    Merger ([merge_dataframes]) and the Query Layer ([filter_data],
    [get_time_series_data], [get_correlation_data],
    [get_column_categories]), the Source Loader ([load_excel_file]), the
    pipeline ([process_data]) and the summary ([get_summary_stats]),
    followed by the properties the specification states about them and by
    further properties of the code.

    Numbers are the machine's: a [float64] cell is a primitive IEEE-754
    binary64 value (its missing-value marker is NaN), an [int64] cell an
    integer.  What pandas computes inside its own numeric kernels (the
    Pearson coefficient, rounding, group means, date-time parsing, [repr]
    of a float, the workbook codec, the sorting order, the aggregates of a
    column) is taken as a parameter of the corresponding section. *)

From Stdlib Require Import ZArith Floats Ascii String List Bool Lia.
From Stdlib Require Import Permutation Sorted.
From stdpp Require Import base option list strings gmap.

Local Open Scope string_scope.
Local Open Scope list_scope.
Local Open Scope Z_scope.

(* ===================================================================== *)
(** * Python values and outcomes *)
(* ===================================================================== *)

Module Py.

(** The exceptions the modelled code can raise. *)
Inductive exn : Type :=
| KeyError        (* a label is not a column of the frame *)
| AttributeError  (* [.dt] on a column that is not datetime-like *)
| TypeError       (* an operation applied to a column of the wrong kind *)
| ValueError.     (* [reset_index] on a label that already exists *)

(** A call either returns a value or raises. *)
Inductive outcome (A : Type) : Type :=
| Ok (a : A)
| Raise (e : exn).
Arguments Ok {A} a.
Arguments Raise {A} e.

Definition bind {A B : Type} (m : outcome A) (k : A -> outcome B) : outcome B :=
  match m with
  | Ok a => k a
  | Raise e => Raise e
  end.

Definition returns {A : Type} (m : outcome A) : Prop := exists a, m = Ok a.

(** A Python object as it sits in a cell of a frame. *)
Inductive pyobj : Type :=
| PyNone
| PyBool (b : bool)
| PyInt (z : Z)
| PyFloat (f : float)          (* NaN included *)
| PyStr (s : string)
| PyTimestamp (ns : Z)         (* nanoseconds since the epoch *)
| PyNaT.

(** [pd.isna] on a scalar. *)
Definition isna (o : pyobj) : bool :=
  match o with
  | PyNone | PyNaT => true
  | PyFloat f => PrimFloat.is_nan f
  | _ => false
  end.

(** Truthiness, as [if values:] tests it. *)
Definition truthy (o : pyobj) : bool :=
  match o with
  | PyNone => false
  | PyBool b => b
  | PyInt z => negb (z =? 0)
  | PyFloat f => negb (PrimFloat.eqb f 0%float)
  | PyStr s => negb (String.eqb s "")
  | PyTimestamp _ => true
  | PyNaT => true
  end.

(** Conversion of a Python [int] to [float64] (round to nearest even). *)
Definition float_of_Z (z : Z) : float :=
  match z with
  | Z0 => 0%float
  | Zpos p => SF2Prim (binary_round prec emax false p 0)
  | Zneg p => SF2Prim (binary_round prec emax true p 0)
  end.

Definition float_of_bool (b : bool) : float :=
  if b then 1%float else 0%float.

(** ** Text: [in] on strings, decimal rendering of integers *)

(** [sub in s] for two [str]. *)
Fixpoint str_contains (sub s : string) : bool :=
  if String.prefix sub s then true
  else match s with
       | EmptyString => false
       | String _ t => str_contains sub t
       end.

Definition digit_of (n : nat) : ascii := ascii_of_nat (48 + n).

Fixpoint digits_fuel (fuel : nat) (n : N) (acc : string) : string :=
  match fuel with
  | O => acc
  | S k =>
      let acc' := String (digit_of (N.to_nat (n mod 10))) acc in
      if (n / 10 =? 0)%N then acc' else digits_fuel k (n / 10)%N acc'
  end.

(** [str(n)] for a Python [int]. *)
Definition str_of_Z (z : Z) : string :=
  let body := digits_fuel (S (N.to_nat (N.log2 (Z.abs_N z)))) (Z.abs_N z) "" in
  if z <? 0 then String "-" body else body.

End Py.
Export Py.

(* ===================================================================== *)
(** * Frames *)
(* ===================================================================== *)

(** The column kinds a spreadsheet load produces. *)
Inductive dtype : Type := Float64 | Int64 | BoolT | Datetime64 | Object.

Definition dtype_eqb (a b : dtype) : bool :=
  match a, b with
  | Float64, Float64 | Int64, Int64 | BoolT, BoolT
  | Datetime64, Datetime64 | Object, Object => true
  | _, _ => false
  end.

(** A column: a typed array.  [int64] and [bool] arrays hold no missing
    value; a [float64] array marks one by NaN, a [datetime64] array by NaT
    ([None] here), an [object] array by [None] or NaN. *)
Inductive series : Type :=
| SFloat64 (xs : list float)
| SInt64 (xs : list Z)
| SBool (xs : list bool)
| SDatetime (xs : list (option Z))
| SObject (xs : list pyobj).

Definition dtype_of (s : series) : dtype :=
  match s with
  | SFloat64 _ => Float64
  | SInt64 _ => Int64
  | SBool _ => BoolT
  | SDatetime _ => Datetime64
  | SObject _ => Object
  end.

Definition timestamp_obj (t : option Z) : pyobj :=
  match t with
  | Some ns => PyTimestamp ns
  | None => PyNaT
  end.

(** The cells of a column as Python objects ([Series.tolist]). *)
Definition to_objects (s : series) : list pyobj :=
  match s with
  | SFloat64 xs => map PyFloat xs
  | SInt64 xs => map PyInt xs
  | SBool xs => map PyBool xs
  | SDatetime xs => map timestamp_obj xs
  | SObject xs => xs
  end.

Definition series_len (s : series) : nat := length (to_objects s).

(** [Series.isna()]. *)
Definition series_isna (s : series) : list bool := map isna (to_objects s).

(** A frame: the number of rows of its index and its columns in order.  A
    frame keeps its rows when it has no column left. *)
Record DataFrame : Type := mkDataFrame {
  nrows : nat;
  columns : list (string * series)
}.

Definition names (df : DataFrame) : list string := map fst (columns df).

(** [label in df.columns]. *)
Definition has_column (label : string) (df : DataFrame) : bool :=
  existsb (String.eqb label) (names df).

Fixpoint assoc {A : Type} (label : string) (l : list (string * A)) : option A :=
  match l with
  | [] => None
  | (k, v) :: rest => if String.eqb label k then Some v else assoc label rest
  end.

(** [df[label]] for a label that is a column. *)
Definition get_column (label : string) (df : DataFrame) : option series :=
  assoc label (columns df).

Fixpoint assoc_set {A : Type} (label : string) (v : A) (l : list (string * A))
  : list (string * A) :=
  match l with
  | [] => [(label, v)]
  | (k, w) :: rest =>
      if String.eqb label k then (k, v) :: rest
      else (k, w) :: assoc_set label v rest
  end.

(** [df[label] = s]: replaces the column in place, or appends it. *)
Definition set_column (label : string) (s : series) (df : DataFrame) : DataFrame :=
  {| nrows := nrows df; columns := assoc_set label s (columns df) |}.

Fixpoint nodupb (l : list string) : bool :=
  match l with
  | [] => true
  | x :: rest => negb (existsb (String.eqb x) rest) && nodupb rest
  end.

(** A well-formed frame: distinct column labels, every column as long as
    the index. *)
Definition wf_frame (df : DataFrame) : bool :=
  nodupb (names df)
  && forallb (fun c => Nat.eqb (series_len (snd c)) (nrows df)) (columns df).

(** Row [i] of a frame: its cells by column label. *)
Definition row_at (df : DataFrame) (i : nat) : list (string * pyobj) :=
  map (fun c => (fst c, nth i (to_objects (snd c)) PyNone)) (columns df).

Definition rows (df : DataFrame) : list (list (string * pyobj)) :=
  map (row_at df) (seq 0 (nrows df)).

(** [pd.DataFrame()]. *)
Definition empty_frame : DataFrame := {| nrows := 0; columns := [] |}.

(* ===================================================================== *)
(** * Cleaner: [clean_data] *)
(* ===================================================================== *)

Definition is_numeric (d : dtype) : bool :=
  match d with
  | Float64 | Int64 => true
  | _ => false
  end.

(** [how='all']: every cell of the column is missing (so is every cell of a
    column of a frame without rows). *)
Definition all_na (s : series) : bool := forallb id (series_isna s).

Definition has_na (s : series) : bool := existsb id (series_isna s).

(** [df.dropna(axis=1, how='all')]. *)
Definition dropna_all_columns (df : DataFrame) : DataFrame :=
  {| nrows := nrows df;
     columns := List.filter (fun c => negb (all_na (snd c))) (columns df) |}.

(** [s.fillna(0)] on a numeric column. *)
Definition fillna_zero (s : series) : series :=
  match s with
  | SFloat64 xs =>
      SFloat64 (map (fun x => if PrimFloat.is_nan x then float_of_Z 0 else x) xs)
  | other => other
  end.

(** [s.fillna('')] on a column that is not numeric: a missing cell of an
    [object] column holds the empty string; a [datetime64] column reads the
    fill value as a timestamp, and the empty string reads as NaT, so the
    column keeps its kind and its NaT; a [bool] column holds no missing
    cell. *)
Definition fillna_empty (s : series) : series :=
  match s with
  | SObject xs => SObject (map (fun o => if isna o then PyStr "" else o) xs)
  | other => other
  end.

Definition clean_column (s : series) : series :=
  if is_numeric (dtype_of s) then fillna_zero s else fillna_empty s.

Definition clean_data (df : DataFrame) : DataFrame :=
  let df := dropna_all_columns df in
  {| nrows := nrows df;
     columns := map (fun c => (fst c, clean_column (snd c))) (columns df) |}.

(** What a missing cell of a column of kind [d] holds after the fill: zero
    in a numeric column, the empty string in a column of objects, NaT as
    before in a datetime column. *)
Definition fill_value (d : dtype) : pyobj :=
  match d with
  | Float64 | Int64 => PyFloat 0%float
  | Datetime64 => PyNaT
  | BoolT | Object => PyStr ""
  end.

(* ===================================================================== *)
(** * Timestamp Synthesizer: [create_timestamp] *)
(* ===================================================================== *)

(** ** Calendar dates: [strftime('%Y-%m-%d')] *)

Definition ns_per_day : Z := 86400000000000.

(** The day (counted from the epoch) a timestamp falls on. *)
Definition day_of (ns : Z) : Z := ns / ns_per_day.

(** Year, month and day of a day number (proleptic Gregorian calendar). *)
Definition civil_of_days (days : Z) : Z * Z * Z :=
  let z := days + 719468 in
  let era := z / 146097 in
  let doe := z - era * 146097 in
  let yoe := (doe - doe / 1460 + doe / 36524 - doe / 146096) / 365 in
  let doy := doe - (365 * yoe + yoe / 4 - yoe / 100) in
  let mp := (5 * doy + 2) / 153 in
  let d := doy - (153 * mp + 2) / 5 + 1 in
  let m := if mp <? 10 then mp + 3 else mp - 9 in
  let y := yoe + era * 400 + (if m <=? 2 then 1 else 0) in
  (y, m, d).

Fixpoint zeros (n : nat) (s : string) : string :=
  match n with
  | O => s
  | S n' => String "0" (zeros n' s)
  end.

(** Zeros before [s] up to the width. *)
Definition pad_left (width : nat) (s : string) : string :=
  zeros (width - String.length s) s.

(** [strftime('%Y-%m-%d')] of the day with number [days]. *)
Definition iso_date_of_day (days : Z) : string :=
  let '(y, m, d) := civil_of_days days in
  pad_left 4 (str_of_Z y) +:+ "-" +:+ pad_left 2 (str_of_Z m) +:+ "-"
    +:+ pad_left 2 (str_of_Z d).

Definition iso_date (ns : Z) : string := iso_date_of_day (day_of ns).

(** [df[label]]: the column, or [KeyError]. *)
Definition getitem (label : string) (df : DataFrame) : outcome series :=
  match get_column label df with
  | Some s => Ok s
  | None => Raise KeyError
  end.

(** [s.dt.strftime('%Y-%m-%d')]: only a datetime-like column has [.dt]; NaT
    formats to a missing value. *)
Definition dt_strftime (s : series) : outcome (list (option string)) :=
  match s with
  | SDatetime xs => Ok (map (option_map iso_date) xs)
  | _ => Raise AttributeError
  end.

Definition obj_text (o : pyobj) : option string :=
  match o with
  | PyStr s => Some s
  | _ => None
  end.

(** [left + ' ' + right], cell by cell; a missing operand gives a missing
    result. *)
Definition join_date_time (left : list (option string)) (right : list pyobj)
  : list (option string) :=
  map (fun p => match fst p, obj_text (snd p) with
                | Some d, Some t => Some (d +:+ " " +:+ t)
                | _, _ => None
                end)
      (combine left right).

Section Timestamp.

(** [repr] of a float and [str] of a timestamp, as Python renders them. *)
Variable repr_float : float -> string.
Variable str_timestamp : Z -> string.

(** The date-time parser behind [pd.to_datetime(..., errors='coerce')]: the
    timestamp it reads from a text, given the whole array it converts (the
    format may be guessed from it), or nothing when the text does not
    parse. *)
Variable parse_datetime : list (option string) -> string -> option Z.

(** [str(o)]. *)
Definition py_str (o : pyobj) : string :=
  match o with
  | PyNone => "None"
  | PyBool b => if b then "True" else "False"
  | PyInt z => str_of_Z z
  | PyFloat f => repr_float f
  | PyStr s => s
  | PyTimestamp ns => str_timestamp ns
  | PyNaT => "NaT"
  end.

(** [s.astype(str)]. *)
Definition astype_str (s : series) : series :=
  SObject (map (fun o => PyStr (py_str o)) (to_objects s)).

(** [pd.to_datetime(texts, errors='coerce')]. *)
Definition to_datetime (texts : list (option string)) : series :=
  SDatetime (map (fun t => match t with
                           | Some s => parse_datetime texts s
                           | None => None
                           end) texts).

(** The texts the parser is given: the ISO date of the [DATE] cell, one
    space, the text of the [TIME] cell; nothing where the date is NaT. *)
Definition date_time_texts (dates : list (option Z)) (times : list pyobj)
  : list (option string) :=
  map (fun p => option_map (fun d => iso_date d +:+ " " +:+ py_str (snd p)) (fst p))
      (combine dates times).

Definition create_timestamp (df : DataFrame) : outcome DataFrame :=
  if has_column "DATE" df && has_column "TIME" df then
    bind (getitem "TIME" df) (fun time =>
    let df := set_column "TIME" (astype_str time) df in
    bind (getitem "DATE" df) (fun date =>
    bind (dt_strftime date) (fun days =>
    bind (getitem "TIME" df) (fun time =>
    Ok (set_column "TIMESTAMP"
          (to_datetime (join_date_time days (to_objects time))) df)))))
  else Ok df.

End Timestamp.

(* ===================================================================== *)
(** * Merger: [merge_dataframes] *)
(* ===================================================================== *)

Fixpoint dedup_from (seen l : list string) : list string :=
  match l with
  | [] => []
  | x :: rest =>
      if existsb (String.eqb x) seen then dedup_from seen rest
      else x :: dedup_from (x :: seen) rest
  end.

(** The labels of all frames, each once, in order of first appearance. *)
Definition union_labels (dfs : list DataFrame) : list string :=
  dedup_from [] (flat_map names dfs).

(** The kind of a concatenated column, from the kinds of the pieces that
    have it and whether some frame lacks it: a lacking frame contributes
    missing values, which an [int64] or [bool] array cannot hold. *)
Definition common_dtype (ds : list dtype) (lacking : bool) : dtype :=
  if forallb (dtype_eqb Datetime64) ds then Datetime64
  else if forallb (dtype_eqb Int64) ds && negb lacking then Int64
  else if forallb is_numeric ds then Float64
  else if forallb (dtype_eqb BoolT) ds && negb lacking then BoolT
  else Object.

(** The missing-value marker concatenation writes: NaN. *)
Definition py_nan : pyobj := PyFloat nan.

(** A cell as a column of kind [d] stores it. *)
Definition coerce (d : dtype) (o : pyobj) : pyobj :=
  match d, o with
  | Float64, PyInt z => PyFloat (float_of_Z z)
  | Datetime64, PyFloat _ => PyNaT
  | _, _ => o
  end.

(** Packing cells into an array of kind [d]. *)
Definition of_objects (d : dtype) (os : list pyobj) : series :=
  match d with
  | Float64 =>
      SFloat64 (map (fun o => match coerce Float64 o with
                              | PyFloat f => f
                              | _ => nan
                              end) os)
  | Int64 => SInt64 (map (fun o => match o with PyInt z => z | _ => 0 end) os)
  | BoolT => SBool (map (fun o => match o with PyBool b => b | _ => false end) os)
  | Datetime64 =>
      SDatetime (map (fun o => match o with
                               | PyTimestamp ns => Some ns
                               | _ => None
                               end) os)
  | Object => SObject os
  end.

(** The cells frame [df] contributes to column [label] of a concatenation. *)
Definition piece (label : string) (df : DataFrame) : list pyobj :=
  match get_column label df with
  | Some s => to_objects s
  | None => repeat py_nan (nrows df)
  end.

Definition present_dtypes (label : string) (dfs : list DataFrame) : list dtype :=
  flat_map (fun df => match get_column label df with
                      | Some s => [dtype_of s]
                      | None => []
                      end) dfs.

Definition concat_dtype (label : string) (dfs : list DataFrame) : dtype :=
  common_dtype (present_dtypes label dfs)
               (existsb (fun df => negb (has_column label df)) dfs).

Definition concat_column (label : string) (dfs : list DataFrame) : series :=
  of_objects (concat_dtype label dfs) (flat_map (piece label) dfs).

(** [pd.concat(dfs, ignore_index=True)]: rows appended in order under a
    fresh index, columns the union of the frames' columns. *)
Definition concat (dfs : list DataFrame) : outcome DataFrame :=
  match dfs with
  | [] => Raise ValueError
  | _ =>
      Ok {| nrows := list_sum (map nrows dfs);
            columns := map (fun label => (label, concat_column label dfs))
                           (union_labels dfs) |}
  end.

Definition merge_dataframes (dfs : list DataFrame) : outcome DataFrame :=
  match dfs with
  | [] => Ok empty_frame
  | _ => concat dfs
  end.

(** The cells an array of kind [d] is built from in a concatenation. *)
Definition fits (d : dtype) (o : pyobj) : bool :=
  match d, o with
  | Float64, (PyFloat _ | PyInt _) => true
  | Int64, PyInt _ => true
  | BoolT, PyBool _ => true
  | Datetime64, (PyTimestamp _ | PyNaT | PyFloat _) => true
  | Object, _ => true
  | _, _ => false
  end.

(** The cell of a row under a label, the missing-value marker where the row
    has no such label. *)
Definition cell_or_nan (label : string) (row : list (string * pyobj)) : pyobj :=
  match assoc label row with
  | Some o => o
  | None => py_nan
  end.

(** A row of one of the frames as it reads in their concatenation: under
    the union of the labels, a cell stored as the merged column stores it,
    and the missing-value marker where the row's frame lacks the column. *)
Definition reindex_row (dfs : list DataFrame) (row : list (string * pyobj))
  : list (string * pyobj) :=
  map (fun label =>
         (label, coerce (concat_dtype label dfs) (cell_or_nan label row)))
      (union_labels dfs).

(* ===================================================================== *)
(** * Query Layer *)
(* ===================================================================== *)

(** ** Row selection by a boolean mask: [df[mask]] *)

Fixpoint mask_filter {A : Type} (mask : list bool) (l : list A) : list A :=
  match mask, l with
  | b :: mask', x :: l' =>
      if b then x :: mask_filter mask' l' else mask_filter mask' l'
  | _, _ => []
  end.

Definition series_select (mask : list bool) (s : series) : series :=
  match s with
  | SFloat64 xs => SFloat64 (mask_filter mask xs)
  | SInt64 xs => SInt64 (mask_filter mask xs)
  | SBool xs => SBool (mask_filter mask xs)
  | SDatetime xs => SDatetime (mask_filter mask xs)
  | SObject xs => SObject (mask_filter mask xs)
  end.

Definition select_rows (mask : list bool) (df : DataFrame) : DataFrame :=
  {| nrows := length (mask_filter mask (seq 0 (nrows df)));
     columns := map (fun c => (fst c, series_select mask (snd c))) (columns df) |}.

(** ** Filtering: [filter_data] *)

(** The value of a Filter Spec entry: one scalar, or a list of scalars. *)
Inductive filter_value : Type :=
| FScalar (v : pyobj)
| FList (vs : list pyobj).

(** [if ... and values:]. *)
Definition filter_truthy (values : filter_value) : bool :=
  match values with
  | FScalar v => truthy v
  | FList vs => negb (Nat.eqb (length vs) 0)
  end.

Section Filter.

(** The cell-wise comparisons of pandas: a cell of [column == value], and a
    cell of [column.isin(values)]. *)
Variable cell_eq : pyobj -> pyobj -> bool.
Variable cell_isin : pyobj -> list pyobj -> bool.

(** Whether a cell passes a filter value. *)
Definition cell_passes (values : filter_value) (o : pyobj) : bool :=
  match values with
  | FList vs => cell_isin o vs
  | FScalar v => cell_eq o v
  end.

(** One turn of the loop over [filters.items()]. *)
Definition filter_step (filtered_df : DataFrame) (item : string * filter_value)
  : DataFrame :=
  let '(column, values) := item in
  if has_column column filtered_df && filter_truthy values then
    match get_column column filtered_df with
    | Some s => select_rows (map (cell_passes values) (to_objects s)) filtered_df
    | None => filtered_df
    end
  else filtered_df.

Definition filter_data (df : DataFrame) (filters : list (string * filter_value))
  : DataFrame :=
  fold_left filter_step filters df.

(** A filter entry constrains the frame when its column is a column of the
    frame and its value is truthy. *)
Definition active (df : DataFrame) (item : string * filter_value) : bool :=
  has_column (fst item) df && filter_truthy (snd item).

(** Whether a row satisfies a filter entry. *)
Definition row_satisfies (row : list (string * pyobj)) (item : string * filter_value)
  : bool :=
  match assoc (fst item) row with
  | Some o => cell_passes (snd item) o
  | None => true
  end.

(** Whether a row of [df] satisfies every active entry of [filters]. *)
Definition row_kept (df : DataFrame) (filters : list (string * filter_value))
  (row : list (string * pyobj)) : bool :=
  forallb (fun item => negb (active df item) || row_satisfies row item) filters.

End Filter.

(** ** Column categorization: [get_column_categories] *)

Record categories : Type := mkCategories {
  metadata : list string;
  vibration : list string;
  bearing : list string;
  shaft : list string;
  other : list string
}.

Definition metadata_labels : list string :=
  ["MP_NUMBER"; "MP_NAME"; "COMP_NUMBER"; "COMP_NAME"; "VESSEL_NAME"; "DATE";
   "TIME"; "TIMESTAMP"].

Definition is_vibration (col : string) : bool :=
  str_contains "Vib" col || str_contains "Vel" col || str_contains "Acc" col
  || str_contains "Disp" col.

Definition is_bearing (col : string) : bool :=
  str_contains "Bearing" col || str_contains "Cuscinetto" col.

Definition is_shaft (col : string) : bool := str_contains "Shaft" col.

(** [col in l] for a list of strings. *)
Definition mem (col : string) (l : list string) : bool :=
  existsb (String.eqb col) l.

Definition get_column_categories (df : DataFrame) : categories :=
  let cols := names df in
  let metadata := metadata_labels in
  let vibration := List.filter is_vibration cols in
  let bearing := List.filter is_bearing cols in
  let shaft := List.filter is_shaft cols in
  let all_categorized := metadata ++ vibration ++ bearing ++ shaft ++ [] in
  {| metadata := metadata;
     vibration := vibration;
     bearing := bearing;
     shaft := shaft;
     other := List.filter (fun col => negb (mem col all_categorized)) cols |}.

(** The buckets of a categorization, in the listed order. *)
Definition buckets (c : categories) : list (list string) :=
  [metadata c; vibration c; bearing c; shaft c; other c].

(** In how many buckets a label sits. *)
Definition bucket_count (col : string) (c : categories) : nat :=
  length (List.filter (mem col) (buckets c)).

(** ** Correlation matrix: [get_correlation_data] *)

(** [df[columns]] for a list of labels: every label must be a column. *)
Definition getitem_list (labels : list string) (df : DataFrame) : outcome DataFrame :=
  if forallb (fun label => has_column label df) labels then
    Ok {| nrows := nrows df;
          columns := flat_map (fun label => match get_column label df with
                                            | Some s => [(label, s)]
                                            | None => []
                                            end) labels |}
  else Raise KeyError.

(** [df.select_dtypes(include=['float64', 'int64'])]. *)
Definition select_numeric (df : DataFrame) : DataFrame :=
  {| nrows := nrows df;
     columns := List.filter (fun c => is_numeric (dtype_of (snd c))) (columns df) |}.

(** [df.empty]: no row or no column. *)
Definition frame_empty (df : DataFrame) : bool :=
  Nat.eqb (nrows df) 0 || Nat.eqb (length (columns df)) 0.

(** The values of a numeric column as floats. *)
Definition as_floats (s : series) : list float :=
  match s with
  | SFloat64 xs => xs
  | SInt64 xs => map float_of_Z xs
  | SBool xs => map float_of_bool xs
  | _ => []
  end.

(** Nonzero variance: two values of the column that are not missing
    differ. *)
Definition varies (xs : list float) : bool :=
  let present := List.filter (fun x => negb (PrimFloat.is_nan x)) xs in
  existsb (fun x => existsb (fun y => negb (PrimFloat.eqb x y)) present) present.

(** The candidates that are numeric columns of the frame, in the order of
    the candidate list, each with its column. *)
Definition numeric_candidates (df : DataFrame) (labels : list string)
  : list (string * series) :=
  flat_map (fun label => match get_column label df with
                         | Some s => if is_numeric (dtype_of s) then [(label, s)] else []
                         | None => []
                         end) labels.

Fixpoint enumerate_from {A : Type} (i : nat) (l : list A) : list (nat * A) :=
  match l with
  | [] => []
  | x :: rest => (i, x) :: enumerate_from (S i) rest
  end.

Section Correlation.

(** The Pearson coefficient pandas computes for a pair of columns, and its
    [round(2)]. *)
Variable pearson : list float -> list float -> float.
Variable round2 : float -> float.

(** The entry of [corr()] for the columns at positions [i] and [j]: pandas
    computes each unordered pair once, from the later column and the
    earlier one, and stores it at both positions. *)
Definition corr_entry (xi : nat * list float) (xj : nat * list float) : float :=
  if Nat.leb (fst xi) (fst xj) then pearson (snd xj) (snd xi)
  else pearson (snd xi) (snd xj).

(** [numeric_df.corr().round(2)], by column: each column label with its
    entries by row label. *)
Definition corr_matrix (numeric_df : DataFrame)
  : list (string * list (string * float)) :=
  let cols := enumerate_from 0 (columns numeric_df) in
  map (fun c =>
         (fst (snd c),
          map (fun r =>
                 (fst (snd r),
                  round2 (corr_entry (fst r, as_floats (snd (snd r)))
                                     (fst c, as_floats (snd (snd c))))))
              cols))
      cols.

(** [dict(pairs)]: a later pair overwrites an earlier one with its key. *)
Definition to_dict {V : Type} (pairs : list (string * V)) : gmap string V :=
  fold_left (fun m p => <[fst p := snd p]> m) pairs ∅.

(** The entries [corr_matrix] lists under the column at position [i]. *)
Definition entries_of (numeric_df : DataFrame) (i : nat) (xa : list float)
  : list (string * float) :=
  map (fun r => (fst (snd r),
                 round2 (corr_entry (fst r, as_floats (snd (snd r))) (i, xa))))
      (enumerate_from 0 (columns numeric_df)).

(** The loop that builds [corr_data] from the matrix. *)
Definition corr_dict (numeric_df : DataFrame) : gmap string (gmap string float) :=
  fold_left (fun corr_data c => <[fst c := to_dict (snd c)]> corr_data)
            (corr_matrix numeric_df) ∅.

(** The candidate labels are meant distinct: [df[columns]] with a repeated
    label gives a frame with a repeated column, whose [corr_matrix[col]] is
    a frame and not a column; such lists are outside this model. *)
Definition get_correlation_data (df : DataFrame) (columns : list string)
  : outcome (gmap string (gmap string float)) :=
  bind (getitem_list columns df) (fun selected =>
  let numeric_df := select_numeric selected in
  if frame_empty numeric_df then Ok ∅
  else Ok (corr_dict numeric_df)).

End Correlation.

(** ** Time-series extraction: [get_time_series_data] *)

Record ts_entry : Type := mkEntry {
  timestamps : list string;
  values : list pyobj
}.

(** Equality of group labels. *)
Definition obj_eqb (a b : pyobj) : bool :=
  match a, b with
  | PyNone, PyNone | PyNaT, PyNaT => true
  | PyBool x, PyBool y => Bool.eqb x y
  | PyInt x, PyInt y => x =? y
  | PyFloat x, PyFloat y => PrimFloat.eqb x y
  | PyStr x, PyStr y => String.eqb x y
  | PyTimestamp x, PyTimestamp y => x =? y
  | _, _ => false
  end.

(** The order group labels are sorted in: numbers, then timestamps, then
    texts, each among themselves. *)
Definition obj_rank (o : pyobj) : Z :=
  match o with
  | PyBool _ | PyInt _ | PyFloat _ => 0
  | PyTimestamp _ => 1
  | PyStr _ => 2
  | PyNone | PyNaT => 3
  end.

Definition obj_number (o : pyobj) : float :=
  match o with
  | PyBool b => float_of_bool b
  | PyInt z => float_of_Z z
  | PyFloat f => f
  | _ => nan
  end.

Definition obj_leb (a b : pyobj) : bool :=
  match a, b with
  | PyStr x, PyStr y => String.leb x y
  | PyTimestamp x, PyTimestamp y => x <=? y
  | _, _ =>
      if obj_rank a =? obj_rank b
      then (if obj_rank a =? 0 then PrimFloat.leb (obj_number a) (obj_number b)
            else true)
      else obj_rank a <? obj_rank b
  end.

(** A group key: the day and the group label. *)
Definition key_eqb (k1 k2 : Z * pyobj) : bool :=
  (fst k1 =? fst k2) && obj_eqb (snd k1) (snd k2).

Definition key_leb (k1 k2 : Z * pyobj) : bool :=
  (fst k1 <? fst k2) || ((fst k1 =? fst k2) && obj_leb (snd k1) (snd k2)).

Fixpoint insert_by {A : Type} (leb : A -> A -> bool) (x : A) (l : list A) : list A :=
  match l with
  | [] => [x]
  | y :: rest => if leb x y then x :: l else y :: insert_by leb x rest
  end.

(** A stable sort. *)
Definition sort_by {A : Type} (leb : A -> A -> bool) (l : list A) : list A :=
  fold_right (insert_by leb) [] l.

(** [unique()]: each value once, in order of first appearance. *)
Fixpoint unique_by {A : Type} (eqb : A -> A -> bool) (l : list A) : list A :=
  match l with
  | [] => []
  | x :: rest => x :: List.filter (fun y => negb (eqb x y)) (unique_by eqb rest)
  end.

(** The rows a grouping by day and label sees: the day, the label and the
    target cell of every row whose timestamp is not NaT and whose label is
    not missing (a grouper drops missing keys). *)
Definition observations (ts : list (option Z)) (labels cells : list pyobj)
  : list (Z * pyobj * pyobj) :=
  flat_map (fun r => match fst r with
                     | Some ns =>
                         if isna (fst (snd r)) then []
                         else [(day_of ns, fst (snd r), snd (snd r))]
                     | None => []
                     end)
           (combine ts (combine labels cells)).

(** The rows a grouping by day alone sees. *)
Definition daily_observations (ts : list (option Z)) (cells : list pyobj)
  : list (Z * pyobj) :=
  flat_map (fun r => match fst r with
                     | Some ns => [(day_of ns, snd r)]
                     | None => []
                     end)
           (combine ts cells).

(** The days from the first to the last, every one of them. *)
Definition day_range (days : list Z) : list Z :=
  match days with
  | [] => []
  | d :: rest =>
      let lo := fold_right Z.min d rest in
      let hi := fold_right Z.max d rest in
      map (fun k => lo + Z.of_nat k) (seq 0 (Z.to_nat (hi - lo + 1)))
  end.

(** The values of a [datetime64] column; a grouper by day accepts no other
    kind of column. *)
Definition datetime_values (s : series) : outcome (list (option Z)) :=
  match s with
  | SDatetime xs => Ok xs
  | _ => Raise TypeError
  end.

(** The day bins of a grouper run from the earliest to the latest
    timestamp of the column.  A column without cells has no bin; a column
    that has cells and no timestamp among them has no earliest one, and the
    grouping raises. *)
Definition binnable (ts : list (option Z)) : bool :=
  Nat.eqb (length ts) 0 || existsb (fun t => negb (isna (timestamp_obj t))) ts.

Fixpoint sequence {A : Type} (l : list (outcome A)) : outcome (list A) :=
  match l with
  | [] => Ok []
  | m :: rest => bind m (fun a => bind (sequence rest) (fun r => Ok (a :: r)))
  end.

Section TimeSeries.

(** The mean pandas computes for a group: of floats (missing values
    skipped, NaN for a group without values), and of timestamps. *)
Variable nanmean : list float -> float.
Variable mean_datetime : list pyobj -> pyobj.

(** [.mean()] of the cells of one group of a column of kind [d]; a column
    of texts has none. *)
Definition mean_cells (d : dtype) (cells : list pyobj) : outcome pyobj :=
  match d with
  | Float64 | Int64 | BoolT => Ok (PyFloat (nanmean (map obj_number cells)))
  | Datetime64 => Ok (mean_datetime cells)
  | Object => Raise TypeError
  end.

(** [groupby([Grouper(key='TIMESTAMP', freq='D'), group_by])[column].mean()
    .reset_index()]: one row per observed day and label, sorted. *)
Definition grouped_means (d : dtype) (obs : list (Z * pyobj * pyobj))
  : outcome (list (Z * pyobj * pyobj)) :=
  let keys := unique_by key_eqb (sort_by key_leb (map fst obs)) in
  sequence
    (map (fun k =>
            bind (mean_cells d (map snd (List.filter (fun o => key_eqb k (fst o)) obs)))
                 (fun m => Ok (k, m)))
         keys).

(** [groupby(Grouper(key='TIMESTAMP', freq='D'))[column].mean()
    .reset_index()]: one row per day of the range. *)
Definition daily_means (d : dtype) (obs : list (Z * pyobj))
  : outcome (list (Z * pyobj)) :=
  sequence
    (map (fun day =>
            bind (mean_cells d (map snd (List.filter (fun o => fst o =? day) obs)))
                 (fun m => Ok (day, m)))
         (day_range (map fst obs))).

(** The result is a dict; its items are listed in insertion order. *)
Definition get_time_series_data (df : DataFrame) (column group_by : string)
  : outcome (list (pyobj * ts_entry)) :=
  if negb (has_column "TIMESTAMP" df) || negb (has_column column df) then Ok []
  else
    bind (getitem "TIMESTAMP" df) (fun stamps =>
    bind (getitem column df) (fun target =>
    bind (datetime_values stamps) (fun ts =>
    if negb (binnable ts) then Raise ValueError
    else if has_column group_by df then
      bind (getitem group_by df) (fun labels =>
      bind (grouped_means (dtype_of target)
              (observations ts (to_objects labels) (to_objects target)))
           (fun grouped =>
      if String.eqb column "TIMESTAMP" || String.eqb column group_by
         || String.eqb group_by "TIMESTAMP"
      then Raise ValueError
      else
        Ok (map (fun group =>
                   let group_data :=
                     List.filter (fun r => obj_eqb (snd (fst r)) group) grouped in
                   (group,
                    {| timestamps := map (fun r => iso_date_of_day (fst (fst r)))
                                         group_data;
                       values := map snd group_data |}))
                (unique_by obj_eqb (map (fun r => snd (fst r)) grouped)))))
    else
      bind (daily_means (dtype_of target)
              (daily_observations ts (to_objects target)))
           (fun grouped =>
      if String.eqb column "TIMESTAMP" then Raise ValueError
      else
        Ok [(PyStr "all",
             {| timestamps := map (fun r => iso_date_of_day (fst r)) grouped;
                values := map snd grouped |})])))).

(** The frame without the rows whose [TIMESTAMP] is missing. *)
Definition drop_null_timestamps (df : DataFrame) : DataFrame :=
  match get_column "TIMESTAMP" df with
  | Some stamps =>
      select_rows (map (fun o => negb (isna o)) (to_objects stamps)) df
  | None => df
  end.

End TimeSeries.

(* ===================================================================== *)
(** * Source Loader: [load_excel_file] *)
(* ===================================================================== *)

(** [os.path.basename(path)] with the POSIX separator: what follows the
    last slash. *)
Fixpoint basename (path : string) : string :=
  match path with
  | EmptyString => EmptyString
  | String c rest =>
      if str_contains "/" rest then basename rest
      else if Ascii.eqb c "/" then rest else path
  end.

(** [s.split(sep)[0]] for a separator that is not empty: what precedes the
    first occurrence of [sep], all of [s] when there is none. *)
Fixpoint before_first (sep s : string) : string :=
  if String.prefix sep s then EmptyString
  else match s with
       | EmptyString => EmptyString
       | String c rest => String c (before_first sep rest)
       end.

Definition vessel_marker : string := " CBM".

(** [os.path.basename(filename).split(' CBM')[0]]. *)
Definition vessel_name_of (filename : string) : string :=
  before_first vessel_marker (basename filename).

(** What [pd.read_excel] does with the bytes: a frame, or an exception with
    its [str]. *)
Inductive read_result : Type :=
| ReadOk (df : DataFrame)
| ReadError (cause : string).

(** What the loader does: the pair it returns, or the [Exception] it raises
    with its message. *)
Inductive load_result : Type :=
| Loaded (df : DataFrame) (vessel_name : string)
| LoadError (message : string).

(** [df[label] = value] for a scalar: the value in every row. *)
Definition set_scalar_column (label : string) (value : pyobj) (df : DataFrame)
  : DataFrame :=
  set_column label (SObject (repeat value (nrows df))) df.

Section Loader.

(** The spreadsheet codec. *)
Variable read_excel : list Byte.byte -> read_result.

Definition load_excel_file (file_content : list Byte.byte) (filename : string)
  : load_result :=
  let vessel_name := vessel_name_of filename in
  match read_excel file_content with
  | ReadOk df =>
      Loaded (set_scalar_column "VESSEL_NAME" (PyStr vessel_name) df) vessel_name
  | ReadError cause =>
      LoadError ("Error loading file " +:+ filename +:+ ": " +:+ cause)
  end.

End Loader.

(* ===================================================================== *)
(** * Pipeline: [process_data] *)
(* ===================================================================== *)

(** The cells of a column at the given positions, in that order. *)
Definition series_take (positions : list nat) (s : series) : series :=
  match s with
  | SFloat64 xs => SFloat64 (map (fun i => nth i xs nan) positions)
  | SInt64 xs => SInt64 (map (fun i => nth i xs 0) positions)
  | SBool xs => SBool (map (fun i => nth i xs false) positions)
  | SDatetime xs => SDatetime (map (fun i => nth i xs None) positions)
  | SObject xs => SObject (map (fun i => nth i xs PyNone) positions)
  end.

(** The rows of a frame at the given positions, in that order. *)
Definition take_rows (positions : list nat) (df : DataFrame) : DataFrame :=
  {| nrows := length positions;
     columns := map (fun c => (fst c, series_take positions (snd c))) (columns df) |}.

(** A label that is no column of the frame, or a column without any value:
    the Cleaner leaves no such column. *)
Definition without_values (label : string) (df : DataFrame) : bool :=
  match get_column label df with
  | Some s => all_na s
  | None => true
  end.

(** Whether a row holds NaT under a label. *)
Definition holds_nat (label : string) (row : list (string * pyobj)) : bool :=
  match assoc label row with
  | Some PyNaT => true
  | _ => false
  end.

Definition is_none {A : Type} (x : option A) : bool :=
  match x with
  | None => true
  | Some _ => false
  end.

Section Pipeline.

Variable repr_float : float -> string.
Variable str_timestamp : Z -> string.
Variable parse_datetime : list (option string) -> string -> option Z.

(** The order [sort_values] puts the positions of a column in (ascending,
    missing values last; the order among equal keys is the sorting
    kernel's), or the exception it raises on cells it cannot compare. *)
Variable argsort : series -> outcome (list nat).

(** [df.sort_values(label)]. *)
Definition sort_values (label : string) (df : DataFrame) : outcome DataFrame :=
  bind (getitem label df) (fun key =>
  bind (argsort key) (fun positions => Ok (take_rows positions df))).

Definition process_data (df : DataFrame) : outcome DataFrame :=
  let df := clean_data df in
  bind (create_timestamp repr_float str_timestamp parse_datetime df) (fun df =>
  if has_column "TIMESTAMP" df then sort_values "TIMESTAMP" df else Ok df).

End Pipeline.

(* ===================================================================== *)
(** * Summary statistics: [get_summary_stats] *)
(* ===================================================================== *)

Definition is_text (o : pyobj) : bool :=
  match o with
  | PyStr _ => true
  | _ => false
  end.

(** The cells of a list that are the text [name]. *)
Definition count_text (name : string) (os : list pyobj) : nat :=
  length (List.filter (fun o => match o with
                                | PyStr t => String.eqb t name
                                | _ => false
                                end) os).

(** The timestamps of a [datetime64] column that are not NaT. *)
Definition stamps_of (xs : list (option Z)) : list Z :=
  flat_map (fun t => match t with
                     | Some ns => [ns]
                     | None => []
                     end) xs.

(** The earliest and the latest of a list of timestamps. *)
Definition extremes (stamps : list Z) : option (Z * Z) :=
  match stamps with
  | [] => None
  | t :: rest => Some (fold_right Z.min t rest, fold_right Z.max t rest)
  end.

Record numeric_summary : Type := mkNumericSummary {
  stat_min : pyobj;
  stat_max : pyobj;
  stat_mean : pyobj;
  stat_median : pyobj
}.

(** The dict [get_summary_stats] returns: a key that the function does not
    set is [None] here. *)
Record summary : Type := mkSummary {
  vessel_counts : option (list (pyobj * nat));
  component_counts : option (list (pyobj * nat));
  mp_name_counts : option (list (pyobj * nat));
  date_range : option (option string * option string);
  numeric_stats : list (string * numeric_summary)
}.

(** [float(x) if not pd.isna(x) else 0]. *)
Definition stat_or_zero (x : float) : pyobj :=
  if PrimFloat.is_nan x then PyInt 0 else PyFloat x.

Section Summary.

(** The library: equality of the keys of a [value_counts] table;
    [Timestamp.isoformat]; what [min()], [max()] and [isoformat()] make of a
    column that is not [datetime64]; the aggregates over the values of a
    numeric column that are not missing (NaN when there is none). *)
Variable key_eq : pyobj -> pyobj -> bool.
Variable isoformat : Z -> string.
Variable other_range : series -> outcome (option string * option string).
Variable nanmin nanmax nanmean nanmedian : list float -> float.

(** [s.value_counts().to_dict()]: each value that is not missing with the
    number of cells holding it, the most frequent first. *)
Definition value_counts (s : series) : list (pyobj * nat) :=
  let present := List.filter (fun o => negb (isna o)) (to_objects s) in
  sort_by (fun a b => Nat.leb (snd b) (snd a))
          (map (fun k => (k, length (List.filter (key_eq k) present)))
               (unique_by key_eq present)).

(** [stats[key] = df[label].value_counts().to_dict()] when the label is a
    column. *)
Definition counts_of (label : string) (df : DataFrame)
  : option (list (pyobj * nat)) :=
  if has_column label df then option_map value_counts (get_column label df)
  else None.

(** The ['min'] and ['max'] of [stats['date_range']]: the ISO texts of the
    earliest and the latest timestamp, [None] for both when every timestamp
    is NaT. *)
Definition range_of (stamps : series) : outcome (option string * option string) :=
  match stamps with
  | SDatetime xs =>
      let ext := extremes (stamps_of xs) in
      Ok (option_map (fun e => isoformat (fst e)) ext,
          option_map (fun e => isoformat (snd e)) ext)
  | _ => other_range stamps
  end.

Definition date_range_of (df : DataFrame)
  : outcome (option (option string * option string)) :=
  if has_column "TIMESTAMP" df then
    bind (getitem "TIMESTAMP" df) (fun stamps =>
    bind (range_of stamps) (fun range => Ok (Some range)))
  else Ok None.

Definition numeric_summary_of (s : series) : numeric_summary :=
  let xs := as_floats s in
  {| stat_min := stat_or_zero (nanmin xs);
     stat_max := stat_or_zero (nanmax xs);
     stat_mean := stat_or_zero (nanmean xs);
     stat_median := stat_or_zero (nanmedian xs) |}.

(** For a frame with distinct labels: [df[label]] is a column. *)
Definition get_summary_stats (df : DataFrame) : outcome summary :=
  let vessels := counts_of "VESSEL_NAME" df in
  let components := counts_of "COMP_NAME" df in
  let mp_names := counts_of "MP_NAME" df in
  bind (date_range_of df) (fun range =>
  Ok {| vessel_counts := vessels;
        component_counts := components;
        mp_name_counts := mp_names;
        date_range := range;
        numeric_stats :=
          map (fun c => (fst c, numeric_summary_of (snd c)))
              (List.filter (fun c => is_numeric (dtype_of (snd c))
                                     && negb (mem (fst c) ["COMP_NUMBER"]))
                           (columns df)) |}).

End Summary.

(* ===================================================================== *)
(** * An instance of the library and sample frames *)
(* ===================================================================== *)

Module Sample.

(** ** The parameters, instantiated *)

(** Cell comparison by equality of the values; membership by it. *)
Definition cell_eq : pyobj -> pyobj -> bool := obj_eqb.
Definition cell_isin (o : pyobj) (vs : list pyobj) : bool := existsb (obj_eqb o) vs.

Definition two_digits (z : Z) : string := pad_left 2 (str_of_Z z).

(** [str] of a timestamp, to the second. *)
Definition str_timestamp (ns : Z) : string :=
  let s := (ns mod ns_per_day) / 1000000000 in
  iso_date ns +:+ " " +:+ two_digits (s / 3600) +:+ ":"
    +:+ two_digits (s / 60 mod 60) +:+ ":" +:+ two_digits (s mod 60).

(** The integer a float is, when it is one. *)
Definition integral (f : float) : option Z :=
  match Prim2SF f with
  | S754_zero _ => Some 0
  | S754_finite sign m e =>
      let v := if 0 <=? e then Z.pos m * 2 ^ e
               else Z.pos m / 2 ^ (- e) in
      if (e <? 0) && negb (Z.pos m mod 2 ^ (- e) =? 0) then None
      else Some (if sign then - v else v)
  | _ => None
  end.

(** [repr] of a float that is an integer or NaN; other floats do not occur
    in the samples. *)
Definition repr_float (f : float) : string :=
  match integral f with
  | Some z => str_of_Z z +:+ ".0"
  | None => "nan"
  end.

Definition digit_value (c : ascii) : option Z :=
  let n := Z.of_nat (nat_of_ascii c) in
  if (48 <=? n) && (n <=? 57) then Some (n - 48) else None.

Fixpoint number_of (acc : Z) (s : string) : option Z :=
  match s with
  | EmptyString => Some acc
  | String c t =>
      match digit_value c with
      | Some d => number_of (10 * acc + d) t
      | None => None
      end
  end.

(** The day number of a calendar date. *)
Definition days_of_civil (y m d : Z) : Z :=
  let y := if m <=? 2 then y - 1 else y in
  let era := y / 400 in
  let yoe := y - era * 400 in
  let doy := (153 * (if 2 <? m then m - 3 else m + 9) + 2) / 5 + d - 1 in
  let doe := yoe * 365 + yoe / 4 - yoe / 100 + doy in
  era * 146097 + doe - 719468.

(** A parser of the one format [YYYY-MM-DD HH:MM:SS]. *)
Definition parse_datetime (_ : list (option string)) (s : string) : option Z :=
  let part i n := number_of 0 (String.substring i n s) in
  let sep i c := String.eqb (String.substring i 1 s) c in
  match part 0%nat 4%nat, part 5%nat 2%nat, part 8%nat 2%nat,
        part 11%nat 2%nat, part 14%nat 2%nat, part 17%nat 2%nat with
  | Some y, Some m, Some d, Some hh, Some mm, Some ss =>
      if Nat.eqb (String.length s) 19 && sep 4%nat "-" && sep 7%nat "-"
         && sep 10%nat " " && sep 13%nat ":" && sep 16%nat ":"
         && (1 <=? m) && (m <=? 12) && (1 <=? d) && (d <=? 31)
         && (hh <? 24) && (mm <? 60) && (ss <? 60)
      then Some (days_of_civil y m d * ns_per_day
                 + ((hh * 60 + mm) * 60 + ss) * 1000000000)
      else None
  | _, _, _, _, _, _ => None
  end.

(** The mean of the values that are not NaN. *)
Definition nanmean (xs : list float) : float :=
  let present := List.filter (fun x => negb (PrimFloat.is_nan x)) xs in
  (fold_left PrimFloat.add present 0 / float_of_Z (Z.of_nat (length present)))%float.

Definition mean_datetime (cells : list pyobj) : pyobj :=
  let stamps := flat_map (fun o => match o with
                                   | PyTimestamp ns => [ns]
                                   | _ => []
                                   end) cells in
  match stamps with
  | [] => PyNaT
  | _ => PyTimestamp (fold_left Z.add stamps 0 / Z.of_nat (length stamps))
  end.

(** The Pearson coefficient over the rows where both values are present. *)
Definition pearson (xs ys : list float) : float :=
  let pairs := List.filter (fun p => negb (PrimFloat.is_nan (fst p))
                                     && negb (PrimFloat.is_nan (snd p)))
                           (combine xs ys) in
  let n := float_of_Z (Z.of_nat (length pairs)) in
  let mx := (fold_left PrimFloat.add (map fst pairs) 0 / n)%float in
  let my := (fold_left PrimFloat.add (map snd pairs) 0 / n)%float in
  let sum f := fold_left PrimFloat.add (map f pairs) 0%float in
  let cov := sum (fun p => (fst p - mx) * (snd p - my))%float in
  let vx := sum (fun p => (fst p - mx) * (fst p - mx))%float in
  let vy := sum (fun p => (snd p - my) * (snd p - my))%float in
  (cov / PrimFloat.sqrt (vx * vy))%float.

(** Rounding to two decimals, halves to even. *)
Definition round2 (x : float) : float :=
  let y := (x * 100)%float in
  let big := 4503599627370496%float in
  let r := if PrimFloat.ltb y 0 then (y - big + big)%float
           else (y + big - big)%float in
  (r / 100)%float.

(** A reader that knows one workbook: an empty upload is no workbook. *)
Definition workbook : DataFrame :=
  {| nrows := 2;
     columns := [("COMP_NAME", SObject [PyStr "pump"; PyStr "fan"]);
                 ("TEMP", SFloat64 [10; 20]%float)] |}.

Definition read_excel (file_content : list Byte.byte) : read_result :=
  match file_content with
  | [] => ReadError "File is not a zip file"
  | _ => ReadOk workbook
  end.

(** The order of a column of timestamps, NaT last, and of a column of
    integers; the sample frames are sorted by no other kind. *)
Definition stamp_leb (a b : nat * option Z) : bool :=
  match snd a, snd b with
  | Some x, Some y => x <=? y
  | Some _, None => true
  | None, Some _ => false
  | None, None => true
  end.

Definition argsort (s : series) : outcome (list nat) :=
  match s with
  | SDatetime xs => Ok (map fst (sort_by stamp_leb (combine (seq 0 (length xs)) xs)))
  | SInt64 xs =>
      Ok (map fst (sort_by (fun a b => snd a <=? snd b)
                           (combine (seq 0 (length xs)) xs)))
  | _ => Raise TypeError
  end.

Definition key_eq : pyobj -> pyobj -> bool := obj_eqb.

(** [isoformat] of a timestamp, to the second. *)
Definition isoformat (ns : Z) : string :=
  let s := (ns mod ns_per_day) / 1000000000 in
  iso_date ns +:+ "T" +:+ two_digits (s / 3600) +:+ ":"
    +:+ two_digits (s / 60 mod 60) +:+ ":" +:+ two_digits (s mod 60).

(** No column of another kind than [datetime64] has an [isoformat] of its
    values. *)
Definition other_range (s : series) : outcome (option string * option string) :=
  Raise AttributeError.

Definition present_floats (xs : list float) : list float :=
  List.filter (fun x => negb (PrimFloat.is_nan x)) xs.

Definition nanmin (xs : list float) : float :=
  match present_floats xs with
  | [] => nan
  | x :: rest =>
      fold_left (fun a b => if PrimFloat.ltb b a then b else a) rest x
  end.

Definition nanmax (xs : list float) : float :=
  match present_floats xs with
  | [] => nan
  | x :: rest =>
      fold_left (fun a b => if PrimFloat.ltb a b then b else a) rest x
  end.

(** The median: the middle of the sorted values, the mean of the two middle
    ones when their number is even. *)
Definition nanmedian (xs : list float) : float :=
  let sorted := sort_by PrimFloat.leb (present_floats xs) in
  let n := length sorted in
  match n with
  | O => nan
  | _ =>
      if Nat.even n
      then ((nth (n / 2 - 1) sorted nan + nth (n / 2) sorted nan) / 2)%float
      else nth (n / 2) sorted nan
  end.

(** ** Frames *)

(** 2024-01-01 00:00:00 and 2024-01-02 00:00:00. *)
Definition jan1 : Z := 1704067200000000000.
Definition jan2 : Z := jan1 + ns_per_day.

(** A source as loaded: a column without any value, missing cells in a
    numeric and in a text column. *)
Definition loaded : DataFrame :=
  {| nrows := 3;
     columns :=
       [("VESSEL_NAME", SObject [PyStr "A"; PyStr "A"; PyStr "B"]);
        ("TEMP", SFloat64 [10; nan; 30]%float);
        ("REMARK", SObject [PyNone; PyStr "ok"; PyFloat nan]);
        ("UNUSED", SFloat64 [nan; nan; nan]%float);
        ("COMP_NUMBER", SInt64 [1; 2; 3])] |}.

(** Dates as a datetime column, times as texts. *)
Definition dated : DataFrame :=
  {| nrows := 3;
     columns :=
       [("DATE", SDatetime [Some jan1; None; Some jan2]);
        ("TIME", SObject [PyStr "08:00:00"; PyStr "09:30:00"; PyStr "noon"]);
        ("TEMP", SFloat64 [10; 20; 30]%float)] |}.

(** Dates as texts. *)
Definition text_dated : DataFrame :=
  {| nrows := 1;
     columns :=
       [("DATE", SObject [PyStr "2024-01-01"]);
        ("TIME", SObject [PyStr "08:00:00"])] |}.

(** Times as integers. *)
Definition int_timed : DataFrame :=
  {| nrows := 1;
     columns :=
       [("DATE", SDatetime [Some jan1]);
        ("TIME", SInt64 [8])] |}.

(** Two cleaned sources with different columns. *)
Definition source_a : DataFrame :=
  {| nrows := 2;
     columns := [("VESSEL_NAME", SObject [PyStr "A"; PyStr "A"]);
                 ("TEMP", SInt64 [10; 20])] |}.

Definition source_b : DataFrame :=
  {| nrows := 1;
     columns := [("VESSEL_NAME", SObject [PyStr "B"]);
                 ("REMARK", SObject [PyStr "ok"])] |}.

(** A unified dataset with timestamps, one of them NaT. *)
Definition unified : DataFrame :=
  {| nrows := 4;
     columns :=
       [("TIMESTAMP", SDatetime [Some (jan1 + 5); Some (jan1 + 7); None; Some jan2]);
        ("VESSEL_NAME", SObject [PyStr "A"; PyStr "A"; PyStr "A"; PyStr "B"]);
        ("TEMP", SFloat64 [10; 20; 1000; 7]%float);
        ("LOAD", SInt64 [1; 2; 3; 5])] |}.

(** The same columns and no row: a filtered view nothing passed. *)
Definition no_rows : DataFrame :=
  {| nrows := 0;
     columns :=
       [("VESSEL_NAME", SObject []);
        ("TEMP", SFloat64 [])] |}.

(** A frame whose one sensor column bears two patterns. *)
Definition sensors : DataFrame :=
  {| nrows := 1;
     columns :=
       [("MP_NAME", SObject [PyStr "pump"]);
        ("Bearing Vib", SFloat64 [1]%float);
        ("Oil Temp", SFloat64 [60]%float)] |}.

(** Rows on two days with a day between them, and no vessel column. *)
Definition gapped : DataFrame :=
  {| nrows := 2;
     columns :=
       [("TIMESTAMP", SDatetime [Some jan1; Some (jan1 + 2 * ns_per_day)]);
        ("TEMP", SFloat64 [10; 30]%float)] |}.

(** Rows none of which has a timestamp. *)
Definition undated : DataFrame :=
  {| nrows := 2;
     columns :=
       [("TIMESTAMP", SDatetime [None; None]);
        ("TEMP", SFloat64 [10; 30]%float)] |}.

(** Timestamps as texts, one of them missing. *)
Definition text_stamped : DataFrame :=
  {| nrows := 2;
     columns :=
       [("TIMESTAMP", SObject [PyStr "2024-01-01 08:00:00"; PyNone]);
        ("TEMP", SFloat64 [10; 30]%float)] |}.

(** A log whose rows are not in the order of time. *)
Definition logged : DataFrame :=
  {| nrows := 3;
     columns :=
       [("DATE", SDatetime [Some jan2; Some jan1; Some jan1]);
        ("TIME", SObject [PyStr "08:00:00"; PyStr "09:30:00"; PyStr "07:15:00"]);
        ("VESSEL_NAME", SObject [PyStr "B"; PyStr "A"; PyStr "A"]);
        ("TEMP", SFloat64 [30; nan; 10]%float);
        ("COMP_NUMBER", SInt64 [1; 2; 3])] |}.

Definition filters : list (string * filter_value) :=
  [("VESSEL_NAME", FList [PyStr "A"; PyStr "C"]);
   ("LOAD", FScalar (PyInt 2));
   ("DEPTH", FScalar (PyInt 3));
   ("TEMP", FScalar (PyInt 0))].

End Sample.

(* ===================================================================== *)
(** * Properties *)
(* ===================================================================== *)

(** ** Labels and association lists *)

Lemma mem_In (x : string) (l : list string) : mem x l = true <-> In x l.
Proof.
  unfold mem. rewrite existsb_exists. split.
  - intros [y [Hy Heq]]. apply String.eqb_eq in Heq. now subst.
  - intros H. exists x. split; [exact H | apply String.eqb_refl].
Qed.

Lemma has_column_In (label : string) (df : DataFrame) :
  has_column label df = true <-> In label (names df).
Proof. apply mem_In. Qed.

Lemma assoc_In {A : Type} (label : string) (l : list (string * A)) (v : A) :
  assoc label l = Some v -> In (label, v) l.
Proof.
  induction l as [|[k w] rest IH]; simpl; [discriminate|].
  destruct (String.eqb label k) eqn:E.
  - apply String.eqb_eq in E. intros [= ->]. subst. now left.
  - intros H. right. now apply IH.
Qed.

Lemma assoc_None {A : Type} (label : string) (l : list (string * A)) :
  assoc label l = None <-> ~ In label (map fst l).
Proof.
  induction l as [|[k w] rest IH]; simpl.
  - tauto.
  - destruct (String.eqb label k) eqn:E.
    + apply String.eqb_eq in E. subst. split; [discriminate | tauto].
    + apply String.eqb_neq in E. rewrite IH. split.
      * intros H [H1 | H1]; [now subst | tauto].
      * tauto.
Qed.

Lemma assoc_Some_In {A : Type} (label : string) (l : list (string * A)) :
  In label (map fst l) -> exists v, assoc label l = Some v.
Proof.
  intros H. destruct (assoc label l) as [v|] eqn:E; [now exists v|].
  apply assoc_None in E. contradiction.
Qed.

Lemma nodupb_NoDup (l : list string) : nodupb l = true <-> List.NoDup l.
Proof.
  induction l as [|x rest IH]; simpl.
  - split; [constructor | reflexivity].
  - rewrite andb_true_iff, negb_true_iff, IH. split.
    + intros [H1 H2]. constructor; [|exact H2].
      intros Hin. apply mem_In in Hin. unfold mem in Hin. congruence.
    + intros H. inversion H as [|? ? Hnin Hnd]; subst. split; [|exact Hnd].
      destruct (existsb (String.eqb x) rest) eqn:E; [|reflexivity].
      exfalso. apply Hnin. now apply mem_In.
Qed.

(** Looking a label up after filtering and mapping the columns of a frame
    with distinct labels. *)
Lemma assoc_map_filter {A B : Type} (p : A -> bool) (g : A -> B) (label : string)
  (l : list (string * A)) :
  List.NoDup (map fst l) ->
  assoc label (map (fun c => (fst c, g (snd c)))
                   (List.filter (fun c => p (snd c)) l))
  = match assoc label l with
    | Some v => if p v then Some (g v) else None
    | None => None
    end.
Proof.
  induction l as [|[k w] rest IH]; simpl; [reflexivity|].
  intros Hnd. inversion Hnd as [|? ? Hnin Hnd']; subst.
  destruct (String.eqb label k) eqn:E.
  - apply String.eqb_eq in E. subst k.
    destruct (p w) eqn:Hp; simpl.
    + now rewrite String.eqb_refl.
    + apply assoc_None. rewrite map_map. simpl. intros Hin.
      apply Hnin. apply in_map_iff in Hin. destruct Hin as [c [Hc Hin]].
      apply filter_In in Hin. subst. apply in_map. tauto.
  - destruct (p w); simpl; [rewrite E|]; now apply IH.
Qed.

(** ** Cleaner *)

Lemma fill_value_not_na (d : dtype) :
  d <> Datetime64 -> isna (fill_value d) = false.
Proof. destruct d; try reflexivity. now intros H. Qed.

Lemma existsb_map_false {A : Type} (f : A -> bool) (l : list A) :
  existsb id (map f l) = false -> forall x, In x l -> f x = false.
Proof.
  induction l as [|y rest IH]; simpl; [tauto|].
  intros H x [->|Hin]; apply orb_false_iff in H; unfold id in H at 1; [tauto|].
  apply IH; tauto.
Qed.

(** The cells of a cleaned column: a missing cell holds what the fill
    leaves in a column of its kind, every other cell is the cell it was. *)
Lemma clean_column_objects (s : series) :
  to_objects (clean_column s)
  = map (fun o => if isna o then fill_value (dtype_of s) else o) (to_objects s).
Proof.
  destruct s as [xs|xs|xs|xs|xs]; unfold clean_column, fill_value; simpl.
  - rewrite !map_map. apply map_ext. intros x. simpl.
    now destruct (PrimFloat.is_nan x).
  - rewrite map_map. now apply map_ext.
  - rewrite map_map. now apply map_ext.
  - rewrite map_map. apply map_ext. now intros [t|].
  - reflexivity.
Qed.

(** The fill does nothing to a datetime column. *)
Lemma clean_column_datetime (xs : list (option Z)) :
  clean_column (SDatetime xs) = SDatetime xs.
Proof. reflexivity. Qed.

Lemma clean_column_no_na (s : series) :
  dtype_of s <> Datetime64 -> has_na (clean_column s) = false.
Proof.
  intros Hk. unfold has_na, series_isna. rewrite clean_column_objects, map_map.
  induction (to_objects s) as [|o rest IH]; simpl; [reflexivity|].
  rewrite IH, orb_false_r. unfold id.
  destruct (isna o) eqn:E; [now apply fill_value_not_na | exact E].
Qed.

Lemma map_id_in {A : Type} (f : A -> A) (l : list A) :
  (forall x, In x l -> f x = x) -> map f l = l.
Proof.
  intros H. rewrite <- (map_id l) at 2. now apply map_ext_in.
Qed.

(** A column without a missing value is left as it is. *)
Lemma clean_column_fixed (s : series) : has_na s = false -> clean_column s = s.
Proof.
  intros H. unfold has_na, series_isna in H.
  pose proof (existsb_map_false _ _ H) as Hall. clear H.
  destruct s as [xs|xs|xs|xs|xs]; unfold clean_column; simpl in *;
    try reflexivity.
  - f_equal. apply map_id_in. intros x Hx.
    specialize (Hall (PyFloat x) (in_map _ _ _ Hx)). simpl in Hall.
    now rewrite Hall.
  - f_equal. apply map_id_in. intros o Ho. now rewrite (Hall o Ho).
Qed.

(** Cleaning a cleaned column changes nothing. *)
Lemma clean_column_twice (s : series) :
  clean_column (clean_column s) = clean_column s.
Proof.
  destruct s as [xs|xs|xs|xs|xs]; try reflexivity;
    apply clean_column_fixed, clean_column_no_na; discriminate.
Qed.

Lemma all_na_clean_column (s : series) :
  all_na s = false -> all_na (clean_column s) = false.
Proof.
  assert (Hk : (exists xs, s = SDatetime xs) \/ dtype_of s <> Datetime64)
    by (destruct s; (left; now eexists) || (right; discriminate)).
  destruct Hk as [[xs ->]|Hk]; [now rewrite clean_column_datetime|].
  unfold all_na, series_isna. rewrite clean_column_objects, map_map.
  induction (to_objects s) as [|o rest IH]; simpl; [discriminate|].
  destruct (isna o) eqn:E; unfold id at 1; simpl.
  - intros _. unfold id at 1. now rewrite fill_value_not_na.
  - intros _. unfold id at 1. now rewrite E.
Qed.

Lemma map_filter_map_stable {A : Type} (p : A -> bool) (g : A -> A) (l : list A) :
  (forall x, In x l -> p (g x) = true /\ g (g x) = g x) ->
  map g (List.filter p (map g l)) = map g l.
Proof.
  induction l as [|x rest IH]; simpl; [reflexivity|].
  intros H. destruct (H x (or_introl eq_refl)) as [Hp Hg].
  rewrite Hp. simpl. rewrite Hg. f_equal. apply IH. intros y Hy.
  apply H. now right.
Qed.

(** C7. Cleaning is idempotent: cleaning a cleaned frame gives the cleaned
    frame back, for every frame. *)
Theorem clean_data_idempotent (df : DataFrame) :
  clean_data (clean_data df) = clean_data df.
Proof.
  unfold clean_data, dropna_all_columns. simpl. f_equal.
  apply (map_filter_map_stable
           (fun c => negb (all_na (snd c)))
           (fun c => (fst c, clean_column (snd c)))).
  intros [label s] Hin. apply filter_In in Hin. destruct Hin as [_ Hp].
  simpl in *. apply negb_true_iff in Hp. split.
  - apply negb_true_iff. now apply all_na_clean_column.
  - f_equal. apply clean_column_twice.
Qed.

(** ** Row selection *)

Lemma mask_filter_map {A B : Type} (f : A -> B) (mask : list bool) (l : list A) :
  mask_filter mask (map f l) = map f (mask_filter mask l).
Proof.
  revert l. induction mask as [|b mask IH]; intros [|x l]; simpl; try reflexivity.
  destruct b; simpl; now rewrite IH.
Qed.

Lemma mask_filter_self {A : Type} (f : A -> bool) (l : list A) :
  mask_filter (map f l) l = List.filter f l.
Proof.
  induction l as [|x l IH]; simpl; [reflexivity|].
  destruct (f x); now rewrite IH.
Qed.

Lemma mask_filter_In {A : Type} (mask : list bool) (l : list A) (x : A) :
  In x (mask_filter mask l) -> In x l.
Proof.
  revert l. induction mask as [|b mask IH]; intros [|y l]; simpl; try tauto.
  destruct b; simpl; intros H.
  - destruct H as [H|H]; [now left | right; now apply IH].
  - right. now apply IH.
Qed.

(** Selecting by a mask is reading the selected positions. *)
Lemma mask_filter_positions {A : Type} (d : A) (mask : list bool) (l : list A)
  (a : nat) :
  mask_filter mask l
  = map (fun i => nth (i - a) l d) (mask_filter mask (seq a (length l))).
Proof.
  revert l a. induction mask as [|b mask IH]; intros [|x l] a;
    try reflexivity.
  assert (Hrest : map (fun i => nth (i - a) (x :: l) d)
                      (mask_filter mask (seq (S a) (length l)))
                  = mask_filter mask l).
  { rewrite (IH l (S a)). apply map_ext_in. intros i Hi.
    apply mask_filter_In, in_seq in Hi.
    replace (i - a)%nat with (S (i - S a)) by lia. reflexivity. }
  cbn [length seq mask_filter]. destruct b.
  - cbn [map]. rewrite Hrest, Nat.sub_diag. reflexivity.
  - now rewrite Hrest.
Qed.

Lemma mask_filter_length {A B : Type} (mask : list bool) (l : list A) (l' : list B) :
  length l = length l' ->
  length (mask_filter mask l) = length (mask_filter mask l').
Proof.
  revert l l'. induction mask as [|b mask IH]; intros [|x l] [|y l'] H; simpl in *;
    try reflexivity; try discriminate.
  injection H as H. destruct b; simpl; now rewrite (IH l l' H).
Qed.

Lemma mask_filter_all {A : Type} (mask : list bool) (l : list A) :
  forallb id mask = true -> (length l <= length mask)%nat -> mask_filter mask l = l.
Proof.
  revert l. induction mask as [|b mask IH]; intros [|x l] Hall Hlen; simpl in *;
    try reflexivity; try lia.
  apply andb_true_iff in Hall. destruct Hall as [Hb Hall]. unfold id in Hb.
  subst b. f_equal. apply IH; [exact Hall | lia].
Qed.

Lemma to_objects_select (mask : list bool) (s : series) :
  to_objects (series_select mask s) = mask_filter mask (to_objects s).
Proof. destruct s; simpl; now rewrite ?mask_filter_map. Qed.

Lemma dtype_of_select (mask : list bool) (s : series) :
  dtype_of (series_select mask s) = dtype_of s.
Proof. now destruct s. Qed.

Lemma series_select_all (mask : list bool) (s : series) :
  forallb id mask = true -> (series_len s <= length mask)%nat ->
  series_select mask s = s.
Proof.
  unfold series_len. intros Hall Hlen.
  destruct s; simpl in *; rewrite List.length_map in Hlen || idtac;
    f_equal; now apply mask_filter_all.
Qed.

Lemma names_select (mask : list bool) (df : DataFrame) :
  names (select_rows mask df) = names df.
Proof. unfold names, select_rows. simpl. rewrite map_map. now apply map_ext. Qed.

Lemma has_column_select (mask : list bool) (label : string) (df : DataFrame) :
  has_column label (select_rows mask df) = has_column label df.
Proof. unfold has_column. now rewrite names_select. Qed.

Lemma assoc_map_snd {A B : Type} (g : A -> B) (label : string)
  (l : list (string * A)) :
  assoc label (map (fun c => (fst c, g (snd c))) l) = option_map g (assoc label l).
Proof.
  induction l as [|[k w] rest IH]; simpl; [reflexivity|].
  now destruct (String.eqb label k).
Qed.

Lemma get_column_select (mask : list bool) (label : string) (df : DataFrame) :
  get_column label (select_rows mask df)
  = option_map (series_select mask) (get_column label df).
Proof. unfold get_column, select_rows. simpl. apply assoc_map_snd. Qed.

Lemma wf_frame_columns (df : DataFrame) :
  wf_frame df = true ->
  forall c, In c (columns df) -> length (to_objects (snd c)) = nrows df.
Proof.
  unfold wf_frame. intros H c Hc. apply andb_true_iff in H. destruct H as [_ H].
  rewrite forallb_forall in H. specialize (H c Hc). now apply Nat.eqb_eq in H.
Qed.

Lemma wf_frame_get (df : DataFrame) (label : string) (s : series) :
  wf_frame df = true -> get_column label df = Some s ->
  length (to_objects s) = nrows df.
Proof.
  intros Hwf Hs. apply assoc_In in Hs. exact (wf_frame_columns df Hwf _ Hs).
Qed.

Lemma wf_frame_select (mask : list bool) (df : DataFrame) :
  wf_frame df = true -> wf_frame (select_rows mask df) = true.
Proof.
  intros Hwf. pose proof (wf_frame_columns df Hwf) as Hlen.
  unfold wf_frame in *. rewrite names_select.
  apply andb_true_iff in Hwf. destruct Hwf as [Hnd _].
  rewrite Hnd. simpl. apply forallb_forall. intros c Hc.
  apply in_map_iff in Hc. destruct Hc as [c0 [<- Hc0]]. simpl.
  apply Nat.eqb_eq. unfold series_len. rewrite to_objects_select.
  apply mask_filter_length. rewrite List.length_seq. now apply Hlen.
Qed.

Lemma nth_map_in {A B : Type} (f : A -> B) (l : list A) (n : nat) (a : A) (b : B) :
  (n < length l)%nat -> nth n (map f l) b = f (nth n l a).
Proof.
  revert n. induction l as [|x l IH]; intros [|n] H; simpl in *; try lia;
    [reflexivity | apply IH; lia].
Qed.

Lemma seq_positions (l : list nat) :
  l = map (fun j => nth j l O) (seq 0 (length l)).
Proof.
  apply (nth_ext _ _ O O).
  - now rewrite List.length_map, List.length_seq.
  - intros n Hn.
    rewrite (nth_map_in _ _ _ O) by now rewrite List.length_seq.
    now rewrite seq_nth.
Qed.

(** The rows of a selection are the selected rows, in order. *)
Lemma rows_select (mask : list bool) (df : DataFrame) :
  wf_frame df = true ->
  rows (select_rows mask df) = mask_filter mask (rows df).
Proof.
  intros Hwf. pose proof (wf_frame_columns df Hwf) as Hlen.
  unfold rows at 2. rewrite mask_filter_map.
  set (sel := mask_filter mask (seq 0 (nrows df))).
  unfold rows. simpl. fold sel.
  rewrite (seq_positions sel) at 2. rewrite map_map.
  apply map_ext_in. intros j Hj. apply in_seq in Hj.
  unfold row_at, select_rows. simpl. rewrite map_map.
  apply map_ext_in. intros c Hc. simpl. f_equal.
  rewrite to_objects_select.
  rewrite (mask_filter_positions PyNone mask (to_objects (snd c)) 0).
  rewrite (Hlen c Hc). fold sel.
  rewrite (nth_map_in _ _ _ O) by lia.
  now rewrite Nat.sub_0_r.
Qed.

Lemma rows_length (df : DataFrame) : length (rows df) = nrows df.
Proof. unfold rows. now rewrite List.length_map, List.length_seq. Qed.

Lemma select_rows_all (mask : list bool) (df : DataFrame) :
  wf_frame df = true -> forallb id mask = true -> length mask = nrows df ->
  select_rows mask df = df.
Proof.
  intros Hwf Hall Hlen. pose proof (wf_frame_columns df Hwf) as Hcols.
  destruct df as [n cols]. unfold select_rows. simpl in *. f_equal.
  - rewrite mask_filter_all; [apply List.length_seq | exact Hall |].
    rewrite List.length_seq. lia.
  - apply map_id_in. intros [k s] Hc. simpl. f_equal.
    apply series_select_all; [exact Hall|]. unfold series_len.
    pose proof (Hcols _ Hc) as Hk. simpl in Hk. lia.
Qed.


Lemma mask_filter_nil {A : Type} (mask : list bool) :
  mask_filter mask (@nil A) = [].
Proof. now destruct mask as [|[|] mask]. Qed.

(** Selecting twice is selecting once by the conjunction of the tests. *)
Lemma mask_filter_twice {A R : Type} (g f : R -> bool) (rs : list R) (l : list A) :
  mask_filter (map f (List.filter g rs)) (mask_filter (map g rs) l)
  = mask_filter (map (fun r => g r && f r) rs) l.
Proof.
  revert l. induction rs as [|r rs IH]; intros l; simpl.
  - reflexivity.
  - destruct l as [|x l].
    + now rewrite mask_filter_nil.
    + destruct (g r); simpl; [destruct (f r); now rewrite IH | apply IH].
Qed.

Lemma series_select_twice {R : Type} (g f : R -> bool) (rs : list R) (s : series) :
  series_select (map f (List.filter g rs)) (series_select (map g rs) s)
  = series_select (map (fun r => g r && f r) rs) s.
Proof. destruct s; simpl; now rewrite mask_filter_twice. Qed.

Lemma select_rows_twice (g f : list (string * pyobj) -> bool) (df : DataFrame) :
  select_rows (map f (List.filter g (rows df))) (select_rows (map g (rows df)) df)
  = select_rows (map (fun r => g r && f r) (rows df)) df.
Proof.
  unfold select_rows. simpl. f_equal.
  - rewrite <- (mask_filter_twice g f (rows df) (seq 0 (nrows df))).
    apply mask_filter_length. now rewrite List.length_seq.
  - rewrite map_map. apply map_ext. intros c. simpl.
    now rewrite series_select_twice.
Qed.

Lemma list_positions {A : Type} (d : A) (l : list A) :
  l = map (fun i => nth i l d) (seq 0 (length l)).
Proof.
  apply (nth_ext _ _ d d).
  - now rewrite List.length_map, List.length_seq.
  - intros n Hn.
    rewrite (nth_map_in _ _ _ O) by now rewrite List.length_seq.
    now rewrite seq_nth.
Qed.

Lemma assoc_row_at (df : DataFrame) (label : string) (i : nat) :
  assoc label (row_at df i)
  = option_map (fun s => nth i (to_objects s) PyNone) (get_column label df).
Proof.
  unfold row_at, get_column.
  apply (assoc_map_snd (fun s => nth i (to_objects s) PyNone)).
Qed.

Lemma forallb_true_map {A : Type} (l : list A) :
  forallb id (map (fun _ => true) l) = true.
Proof. now induction l. Qed.

Lemma forallb_Permutation {A : Type} (p : A -> bool) (l l' : list A) :
  Permutation l l' -> forallb p l = forallb p l'.
Proof.
  induction 1 as [|x l l' _ IH|x y l|l l' l'' _ IH1 _ IH2]; simpl.
  - reflexivity.
  - now rewrite IH.
  - now destruct (p x), (p y).
  - congruence.
Qed.

Lemma forallb_ext_all {A : Type} (p q : A -> bool) (l : list A) :
  (forall x, p x = q x) -> forallb p l = forallb q l.
Proof. intros H. induction l as [|x l IH]; simpl; [reflexivity|]. now rewrite H, IH. Qed.

(** ** Filtering *)

Section FilterProperties.

Variable cell_eq : pyobj -> pyobj -> bool.
Variable cell_isin : pyobj -> list pyobj -> bool.

Local Abbreviation filter_step := (filter_step cell_eq cell_isin).
Local Abbreviation filter_data := (filter_data cell_eq cell_isin).
Local Abbreviation row_satisfies := (row_satisfies cell_eq cell_isin).
Local Abbreviation row_kept := (row_kept cell_eq cell_isin).
Local Abbreviation cell_passes := (cell_passes cell_eq cell_isin).

Lemma filter_data_cons (df : DataFrame) (item : string * filter_value)
  (rest : list (string * filter_value)) :
  filter_data df (item :: rest) = filter_data (filter_step df item) rest.
Proof. reflexivity. Qed.

(** One turn of the loop keeps the rows that satisfy the entry, when the
    entry is active, and all rows otherwise. *)
Lemma filter_step_select (df : DataFrame) (item : string * filter_value) :
  wf_frame df = true ->
  filter_step df item
  = select_rows (map (fun r => negb (active df item) || row_satisfies r item)
                     (rows df)) df.
Proof.
  intros Hwf. destruct item as [column values]. unfold filter_step, active.
  simpl. destruct (has_column column df && filter_truthy values) eqn:Hact; simpl.
  - apply andb_true_iff in Hact. destruct Hact as [Hcol _].
    apply has_column_In in Hcol. unfold names in Hcol.
    destruct (assoc_Some_In _ _ Hcol) as [s Hs]. unfold get_column at 1.
    rewrite Hs. f_equal.
    rewrite (list_positions PyNone (to_objects s)) at 1.
    rewrite (wf_frame_get df column s Hwf Hs). unfold rows.
    rewrite !map_map. apply map_ext. intros i.
    unfold row_satisfies. simpl. rewrite assoc_row_at.
    unfold get_column. now rewrite Hs.
  - symmetry. apply select_rows_all; [exact Hwf | |].
    + apply forallb_true_map.
    + now rewrite List.length_map, rows_length.
Qed.

Lemma row_kept_select (mask : list bool) (df : DataFrame)
  (filters : list (string * filter_value)) (r : list (string * pyobj)) :
  row_kept (select_rows mask df) filters r = row_kept df filters r.
Proof.
  unfold row_kept, active. apply forallb_ext_all. intros item.
  now rewrite has_column_select.
Qed.

(** The loop as one selection. *)
Lemma filter_data_select (filters : list (string * filter_value)) (df : DataFrame) :
  wf_frame df = true ->
  filter_data df filters = select_rows (map (row_kept df filters) (rows df)) df.
Proof.
  revert df. induction filters as [|item rest IH]; intros df Hwf.
  - simpl. symmetry. apply select_rows_all; [exact Hwf | |].
    + apply forallb_true_map.
    + now rewrite List.length_map, rows_length.
  - rewrite filter_data_cons.
    rewrite (filter_step_select df item Hwf).
    set (g := fun r => negb (active df item) || row_satisfies r item).
    rewrite IH by now apply wf_frame_select.
    rewrite (rows_select _ df Hwf), mask_filter_self.
    rewrite (map_ext _ (row_kept df rest))
      by (intros r; apply row_kept_select).
    apply select_rows_twice.
Qed.

(** What it means for a row to be kept: every entry whose column is a
    column of the frame and whose value is truthy is passed by the row's
    cell in that column. *)
Lemma row_kept_iff (df : DataFrame) (filters : list (string * filter_value))
  (r : list (string * pyobj)) :
  row_kept df filters r = true <->
  forall column values, In (column, values) filters ->
    has_column column df = true -> filter_truthy values = true ->
    forall o, assoc column r = Some o ->
      match values with
      | FList vs => cell_isin o vs = true
      | FScalar v => cell_eq o v = true
      end.
Proof.
  unfold row_kept. rewrite forallb_forall. split.
  - intros H column values Hin Hcol Htr o Ho.
    specialize (H _ Hin). unfold active, row_satisfies in H. simpl in H.
    rewrite Hcol, Htr, Ho in H. simpl in H. now destruct values.
  - intros H [column values] Hin. unfold active, row_satisfies. simpl.
    destruct (has_column column df) eqn:Hcol; [|reflexivity].
    destruct (filter_truthy values) eqn:Htr; [|reflexivity]. simpl.
    destruct (assoc column r) as [o|] eqn:Ho; [|reflexivity].
    specialize (H column values Hin Hcol Htr o Ho). now destruct values.
Qed.

(** C8. Filtering a well-formed frame returns exactly its rows that satisfy
    every active entry of the Filter Spec, in their order and under the same
    columns: equality with the scalar for a scalar value, membership for a
    list; an entry whose column is not a column of the frame or whose value
    is falsy constrains nothing.  The result is the same for every order of
    the entries. *)
Theorem filter_data_spec (df : DataFrame) (filters : list (string * filter_value)) :
  wf_frame df = true ->
  rows (filter_data df filters) = List.filter (row_kept df filters) (rows df)
  /\ names (filter_data df filters) = names df
  /\ (forall r, row_kept df filters r = true <->
        forall column values, In (column, values) filters ->
          has_column column df = true -> filter_truthy values = true ->
          forall o, assoc column r = Some o ->
            match values with
            | FList vs => cell_isin o vs = true
            | FScalar v => cell_eq o v = true
            end)
  /\ (forall filters', Permutation filters filters' ->
        filter_data df filters' = filter_data df filters).
Proof.
  intros Hwf. rewrite (filter_data_select filters df Hwf). repeat split.
  - now rewrite (rows_select _ df Hwf), mask_filter_self.
  - apply names_select.
  - apply row_kept_iff.
  - apply row_kept_iff.
  - intros filters' Hperm. rewrite (filter_data_select filters' df Hwf).
    f_equal. apply map_ext. intros r. unfold row_kept. symmetry.
    now apply forallb_Permutation.
Qed.

End FilterProperties.

(** ** Substrings *)

Lemma prefix_spec (sub s : string) :
  String.prefix sub s = true <-> exists post, s = sub +:+ post.
Proof.
  revert s. induction sub as [|a sub IH]; intros s.
  - split; [intros _; now exists s | now destruct s].
  - destruct s as [|b s]; simpl.
    + split; [discriminate | intros [post H]; discriminate].
    + destruct (ascii_dec a b) as [->|Hne].
      * rewrite IH. split; intros [post H]; exists post.
        -- now rewrite H.
        -- now injection H.
      * split; [discriminate|]. intros [post H]. injection H as H1 _.
        now elim Hne.
Qed.

(** [str_contains sub s] holds exactly when [sub] occurs in [s]. *)
Lemma str_contains_spec (sub s : string) :
  str_contains sub s = true <-> exists pre post, s = pre +:+ sub +:+ post.
Proof.
  induction s as [|c t IH].
  - cbn [str_contains]. split.
    + destruct (String.prefix sub "") eqn:E; [|discriminate]. intros _.
      apply prefix_spec in E. destruct E as [post E]. now exists "", post.
    + intros [pre [post H]]. destruct pre; [|discriminate]. simpl in H.
      replace (String.prefix sub "") with true; [reflexivity|].
      symmetry. apply prefix_spec. now exists post.
  - cbn [str_contains]. destruct (String.prefix sub (String c t)) eqn:E.
    + split; [intros _|reflexivity]. apply prefix_spec in E.
      destruct E as [post E]. now exists "", post.
    + rewrite IH. split.
      * intros [pre [post H]]. exists (String c pre), post. simpl. now rewrite H.
      * intros [pre [post H]]. destruct pre as [|c' pre].
        -- simpl in H. assert (String.prefix sub (String c t) = true) as E'
             by (apply prefix_spec; now exists post).
           congruence.
        -- simpl in H. injection H as _ H. now exists pre, post.
Qed.

(** Matching is sensitive to case. *)
Example str_contains_case : str_contains "Vib" "vibration" = false.
Proof. reflexivity. Qed.

(** ** Column categorization *)

Lemma mem_app (x : string) (l l' : list string) :
  mem x (l ++ l') = mem x l || mem x l'.
Proof. unfold mem. apply existsb_app. Qed.

Lemma mem_filter (x : string) (p : string -> bool) (l : list string) :
  mem x (List.filter p l) = mem x l && p x.
Proof.
  destruct (mem x (List.filter p l)) eqn:E.
  - apply mem_In, filter_In in E. destruct E as [E1 E2].
    apply mem_In in E1. now rewrite E1, E2.
  - destruct (mem x l) eqn:E1; [|reflexivity].
    destruct (p x) eqn:E2; [|reflexivity].
    assert (mem x (List.filter p l) = true)
      by (apply mem_In, filter_In; split; [now apply mem_In | exact E2]).
    congruence.
Qed.

Lemma is_vibration_spec (col : string) :
  is_vibration col = true <->
  exists sub pre post,
    In sub ["Vib"; "Vel"; "Acc"; "Disp"] /\ col = pre +:+ sub +:+ post.
Proof.
  unfold is_vibration. rewrite !orb_true_iff, !str_contains_spec. split.
  - intros [[[H|H]|H]|H]; destruct H as [pre [post H]];
      eexists _, pre, post; (split; [|exact H]); simpl; tauto.
  - intros [sub [pre [post [Hin H]]]]. simpl in Hin.
    destruct Hin as [<-|[<-|[<-|[<-|[]]]]]; eauto 6.
Qed.

Lemma is_bearing_spec (col : string) :
  is_bearing col = true <->
  exists sub pre post,
    In sub ["Bearing"; "Cuscinetto"] /\ col = pre +:+ sub +:+ post.
Proof.
  unfold is_bearing. rewrite !orb_true_iff, !str_contains_spec. split.
  - intros [H|H]; destruct H as [pre [post H]];
      eexists _, pre, post; (split; [|exact H]); simpl; tauto.
  - intros [sub [pre [post [Hin H]]]]. simpl in Hin.
    destruct Hin as [<-|[<-|[]]]; eauto 6.
Qed.

Lemma is_shaft_spec (col : string) :
  is_shaft col = true <-> exists pre post, col = pre +:+ "Shaft" +:+ post.
Proof. apply str_contains_spec. Qed.

(** The number of buckets a column of the frame sits in: one per bucket
    whose test it passes, and [other] when it passes none. *)
Lemma bucket_count_formula (df : DataFrame) (col : string) :
  In col (names df) ->
  bucket_count col (get_column_categories df)
  = Nat.max 1 (Nat.b2n (mem col metadata_labels) + Nat.b2n (is_vibration col)
               + Nat.b2n (is_bearing col) + Nat.b2n (is_shaft col)).
Proof.
  intros Hin. apply mem_In in Hin.
  unfold bucket_count, buckets, get_column_categories.
  cbn [metadata vibration bearing shaft other List.filter].
  rewrite !mem_filter, !mem_app, !mem_filter, Hin.
  replace (mem col []) with false by reflexivity.
  destruct (mem col metadata_labels), (is_vibration col), (is_bearing col),
    (is_shaft col); reflexivity.
Qed.

(** C2, as the code has it.  Every column of the frame is in at least one
    bucket.  [metadata] is the fixed list of eight labels, whatever the
    frame holds; [vibration], [bearing] and [shaft] each take every column
    in whose label one of the bucket's patterns occurs (an occurrence as a
    substring, case-sensitive), whatever the other buckets take; [other]
    takes the columns that are in none of these four.  So a column is in
    exactly one bucket precisely when at most one of the four tests holds
    for it. *)
Theorem column_categories_spec (df : DataFrame) :
  metadata (get_column_categories df) = metadata_labels
  /\ (forall col, In col (vibration (get_column_categories df)) <->
        In col (names df)
        /\ exists sub pre post,
             In sub ["Vib"; "Vel"; "Acc"; "Disp"] /\ col = pre +:+ sub +:+ post)
  /\ (forall col, In col (bearing (get_column_categories df)) <->
        In col (names df)
        /\ exists sub pre post,
             In sub ["Bearing"; "Cuscinetto"] /\ col = pre +:+ sub +:+ post)
  /\ (forall col, In col (shaft (get_column_categories df)) <->
        In col (names df) /\ exists pre post, col = pre +:+ "Shaft" +:+ post)
  /\ (forall col, In col (other (get_column_categories df)) <->
        In col (names df) /\ ~ In col metadata_labels
        /\ is_vibration col = false /\ is_bearing col = false
        /\ is_shaft col = false)
  /\ (forall col, In col (names df) ->
        (1 <= bucket_count col (get_column_categories df))%nat
        /\ (bucket_count col (get_column_categories df) = 1%nat <->
            (Nat.b2n (mem col metadata_labels) + Nat.b2n (is_vibration col)
             + Nat.b2n (is_bearing col) + Nat.b2n (is_shaft col) <= 1)%nat)).
Proof.
  split; [reflexivity|].
  split; [intros col; cbn [get_column_categories vibration];
          now rewrite filter_In, is_vibration_spec|].
  split; [intros col; cbn [get_column_categories bearing];
          now rewrite filter_In, is_bearing_spec|].
  split; [intros col; cbn [get_column_categories shaft];
          now rewrite filter_In, is_shaft_spec|].
  split.
  - intros col. cbn [get_column_categories other].
    rewrite filter_In, negb_true_iff, !mem_app, !mem_filter.
    replace (mem col []) with false by reflexivity.
    rewrite <- (mem_In col metadata_labels).
    split.
    + intros [Hin H]. pose proof Hin as Hmem. apply mem_In in Hmem.
      rewrite Hmem in H.
      destruct (mem col metadata_labels), (is_vibration col),
        (is_bearing col), (is_shaft col); simpl in H; try discriminate.
      repeat split; easy.
    + intros [Hin [Hm [Hv [Hb Hs]]]]. split; [exact Hin|].
      rewrite Hv, Hb, Hs.
      destruct (mem col metadata_labels); [now elim Hm|].
      now rewrite !andb_false_r.
  - intros col Hin. rewrite (bucket_count_formula df col Hin). lia.
Qed.

(** ** Timestamp Synthesizer *)

Lemma assoc_set_same {A : Type} (label : string) (v : A) (l : list (string * A)) :
  assoc label (assoc_set label v l) = Some v.
Proof.
  induction l as [|[k w] rest IH]; simpl.
  - now rewrite String.eqb_refl.
  - destruct (String.eqb label k) eqn:E; simpl; now rewrite E.
Qed.

Lemma assoc_set_other {A : Type} (label k : string) (v : A) (l : list (string * A)) :
  label <> k -> assoc label (assoc_set k v l) = assoc label l.
Proof.
  intros Hne. induction l as [|[k' w] rest IH]; simpl.
  - apply String.eqb_neq in Hne. now rewrite Hne.
  - destruct (String.eqb k k') eqn:E; simpl.
    + apply String.eqb_eq in E. subst k'. apply String.eqb_neq in Hne.
      now rewrite Hne.
    + now rewrite IH.
Qed.

Lemma names_assoc_set {A : Type} (k : string) (v : A) (l : list (string * A)) :
  map fst (assoc_set k v l)
  = if mem k (map fst l) then map fst l else map fst l ++ [k].
Proof.
  induction l as [|[k' w] rest IH]; simpl; [reflexivity|].
  destruct (String.eqb k k') eqn:E; simpl; [reflexivity|].
  rewrite IH. unfold mem. now destruct (existsb (String.eqb k) (map fst rest)).
Qed.

Lemma get_set_same (label : string) (s : series) (df : DataFrame) :
  get_column label (set_column label s df) = Some s.
Proof. apply assoc_set_same. Qed.

Lemma get_set_other (label k : string) (s : series) (df : DataFrame) :
  label <> k -> get_column label (set_column k s df) = get_column label df.
Proof. apply assoc_set_other. Qed.

Lemma has_column_get (label : string) (df : DataFrame) :
  has_column label df = true -> exists s, get_column label df = Some s.
Proof. intros H. apply has_column_In in H. now apply assoc_Some_In. Qed.

Lemma get_has_column (label : string) (df : DataFrame) (s : series) :
  get_column label df = Some s -> has_column label df = true.
Proof.
  intros H. apply has_column_In. apply assoc_In in H.
  now apply (in_map fst) in H.
Qed.

Section TimestampProperties.

Variable repr_float : float -> string.
Variable str_timestamp : Z -> string.
Variable parse_datetime : list (option string) -> string -> option Z.

Local Abbreviation py_str := (py_str repr_float str_timestamp).
Local Abbreviation astype_str := (astype_str repr_float str_timestamp).
Local Abbreviation to_datetime := (to_datetime parse_datetime).
Local Abbreviation create_timestamp :=
  (create_timestamp repr_float str_timestamp parse_datetime).
Local Abbreviation date_time_texts := (date_time_texts repr_float str_timestamp).

Lemma join_date_time_texts (dates : list (option Z)) (times : list pyobj) :
  join_date_time (map (option_map iso_date) dates)
                 (to_objects (astype_str (SObject times)))
  = date_time_texts dates times.
Proof.
  unfold join_date_time, date_time_texts. simpl.
  revert times. induction dates as [|d dates IH]; intros [|t times]; simpl;
    try reflexivity.
  rewrite IH. now destruct d.
Qed.

Lemma astype_str_objects (s : series) :
  astype_str s = astype_str (SObject (to_objects s)).
Proof. reflexivity. Qed.

(** What the synthesizer computes when both columns are there and [DATE] is
    a datetime column. *)
Lemma create_timestamp_runs (df : DataFrame) (dates : list (option Z))
  (time : series) :
  get_column "DATE" df = Some (SDatetime dates) ->
  get_column "TIME" df = Some time ->
  create_timestamp df
  = Ok (set_column "TIMESTAMP"
          (to_datetime (date_time_texts dates (to_objects time)))
          (set_column "TIME" (astype_str time) df)).
Proof.
  intros Hd Ht. unfold create_timestamp.
  rewrite (get_has_column _ _ _ Hd), (get_has_column _ _ _ Ht).
  cbn [andb]. unfold getitem. rewrite Ht. cbn [bind].
  rewrite get_set_other by discriminate. rewrite Hd. cbn [bind dt_strftime].
  rewrite get_set_same. cbn [bind].
  now rewrite astype_str_objects, join_date_time_texts.
Qed.

Lemma create_timestamp_skips (df : DataFrame) :
  has_column "DATE" df && has_column "TIME" df = false ->
  create_timestamp df = Ok df.
Proof. intros H. unfold create_timestamp. now rewrite H. Qed.

Lemma date_time_texts_length (dates : list (option Z)) (times : list pyobj) :
  length dates = length times ->
  length (date_time_texts dates times) = length dates.
Proof.
  intros H. unfold date_time_texts.
  rewrite List.length_map, List.length_combine. lia.
Qed.

Lemma nth_map_default {A B : Type} (f : A -> B) (l : list A) (n : nat) (a : A)
  (b : B) :
  f a = b -> nth n (map f l) b = f (nth n l a).
Proof. intros <-. apply map_nth. Qed.

(** The cell of the [TIMESTAMP] column in row [i]. *)
Lemma to_datetime_nth (dates : list (option Z)) (times : list pyobj) (i : nat) :
  length dates = length times ->
  nth i (map (fun text => match text with
                          | Some s => parse_datetime (date_time_texts dates times) s
                          | None => None
                          end)
             (date_time_texts dates times)) None
  = match nth i dates None with
    | Some d =>
        parse_datetime (date_time_texts dates times)
          (iso_date d +:+ " " +:+ py_str (nth i times PyNone))
    | None => None
    end.
Proof.
  intros Hlen.
  set (g := fun text : option string =>
              match text with
              | Some s => parse_datetime (date_time_texts dates times) s
              | None => None
              end).
  rewrite (nth_map_default g _ i None None eq_refl).
  unfold date_time_texts at 1.
  rewrite (nth_map_default _ _ i (None, PyNone) None eq_refl).
  rewrite combine_nth by exact Hlen.
  unfold g. simpl. now destruct (nth i dates None).
Qed.

(** C3, as the code has it.  On a well-formed frame whose [DATE] column, when
    it stands beside a [TIME] column, is a datetime column, the synthesizer
    returns.  With both columns present the result has a [TIMESTAMP] column
    of datetime kind, as long as the frame has rows: the cell of a row is
    what the parser reads from the ISO date of [DATE], one space and the
    text of [TIME], and is NaT where [DATE] is NaT or the text does not
    parse.  With [DATE] or [TIME] absent the frame is returned as it is. *)
Theorem create_timestamp_spec (df : DataFrame) :
  wf_frame df = true ->
  (forall date, get_column "DATE" df = Some date ->
     has_column "TIME" df = true -> dtype_of date = Datetime64) ->
  exists df',
    create_timestamp df = Ok df'
    /\ (has_column "DATE" df && has_column "TIME" df = false -> df' = df)
    /\ (has_column "DATE" df && has_column "TIME" df = true ->
        exists dates time stamps,
          get_column "DATE" df = Some (SDatetime dates)
          /\ get_column "TIME" df = Some time
          /\ get_column "TIMESTAMP" df' = Some (SDatetime stamps)
          /\ length stamps = nrows df
          /\ forall i, (i < nrows df)%nat ->
               nth i stamps None
               = match nth i dates None with
                 | Some d =>
                     parse_datetime (date_time_texts dates (to_objects time))
                       (iso_date d +:+ " " +:+ py_str (nth i (to_objects time) PyNone))
                 | None => None
                 end).
Proof.
  intros Hwf Hkind.
  destruct (has_column "DATE" df && has_column "TIME" df) eqn:Hboth.
  - apply andb_true_iff in Hboth. destruct Hboth as [Hd Ht].
    destruct (has_column_get _ _ Hd) as [date Hdate].
    destruct (has_column_get _ _ Ht) as [time Htime].
    specialize (Hkind date Hdate Ht).
    destruct date as [xs|xs|xs|dates|xs]; try discriminate.
    assert (Hlen : length dates = nrows df).
    { apply (wf_frame_get df "DATE" _ Hwf) in Hdate. simpl in Hdate.
      now rewrite List.length_map in Hdate. }
    assert (Hlen' : length dates = length (to_objects time)).
    { apply (wf_frame_get df "TIME" _ Hwf) in Htime. congruence. }
    eexists. split; [apply (create_timestamp_runs df dates time Hdate Htime)|].
    split; [discriminate|]. intros _. exists dates, time. eexists.
    split; [exact Hdate|]. split; [exact Htime|].
    split; [now rewrite get_set_same|]. split.
    + rewrite List.length_map, date_time_texts_length; assumption.
    + intros i _. now apply to_datetime_nth.
  - exists df. split; [now apply create_timestamp_skips|].
    split; [reflexivity | discriminate].
Qed.

(** C4, as the code has it.  When the synthesizer returns, every column of
    the input other than [TIME] and [TIMESTAMP] is in the result as it was,
    and the rows are as many.  When it ran (both [DATE] and [TIME] are
    there), [TIME] holds the texts of its former cells, so it is unchanged
    exactly when it was a column of texts already, and the labels are those
    of the input, followed by [TIMESTAMP] when the input had none. *)
Theorem create_timestamp_frame (df df' : DataFrame) :
  create_timestamp df = Ok df' ->
  (forall label, label <> "TIME" -> label <> "TIMESTAMP" ->
     get_column label df' = get_column label df)
  /\ nrows df' = nrows df
  /\ (has_column "DATE" df && has_column "TIME" df = true ->
      (forall time, get_column "TIME" df = Some time ->
         get_column "TIME" df'
         = Some (SObject (map (fun o => PyStr (py_str o)) (to_objects time))))
      /\ (get_column "TIME" df' = get_column "TIME" df <->
          exists texts, get_column "TIME" df = Some (SObject (map PyStr texts)))
      /\ names df' = (if has_column "TIMESTAMP" df then names df
                      else names df ++ ["TIMESTAMP"])).
Proof.
  intros Hrun.
  destruct (has_column "DATE" df && has_column "TIME" df) eqn:Hboth.
  - pose proof Hboth as Hb. apply andb_true_iff in Hb. destruct Hb as [Hd Ht].
    destruct (has_column_get _ _ Hd) as [date Hdate].
    destruct (has_column_get _ _ Ht) as [time Htime].
    assert (Hkind : exists dates, date = SDatetime dates).
    { unfold create_timestamp in Hrun. rewrite Hboth in Hrun.
      unfold getitem in Hrun. rewrite Htime in Hrun. simpl in Hrun.
      rewrite get_set_other, Hdate in Hrun by discriminate. simpl in Hrun.
      destruct date; try discriminate. now eexists. }
    destruct Hkind as [dates ->].
    rewrite (create_timestamp_runs df dates time Hdate Htime) in Hrun.
    injection Hrun as <-.
    assert (HT : get_column "TIME"
                   (set_column "TIMESTAMP"
                      (to_datetime (date_time_texts dates (to_objects time)))
                      (set_column "TIME" (astype_str time) df))
                 = Some (astype_str time)).
    { rewrite get_set_other by discriminate. apply get_set_same. }
    split; [|split; [reflexivity|intros _; split; [|split]]].
    + intros label H1 H2. now rewrite !get_set_other.
    + intros time' Htime'. rewrite HT.
      assert (time' = time) as -> by congruence. reflexivity.
    + rewrite HT, Htime. split.
      * intros [= H]. exists (map py_str (to_objects time)).
        rewrite <- H at 1. unfold astype_str. now rewrite map_map.
      * intros [texts [= ->]]. unfold astype_str. simpl.
        now rewrite map_map.
    + unfold names, set_column. simpl. rewrite !names_assoc_set.
      fold (names df). unfold has_column in *. unfold mem.
      rewrite Ht. reflexivity.
  - rewrite create_timestamp_skips in Hrun by exact Hboth.
    injection Hrun as <-. split; [reflexivity|]. split; [reflexivity|].
    discriminate.
Qed.

End TimestampProperties.

(** ** Merger *)

Lemma dedup_from_In (seen l : list string) (x : string) :
  In x (dedup_from seen l) <-> In x l /\ ~ In x seen.
Proof.
  revert seen. induction l as [|y l IH]; intros seen; simpl; [tauto|].
  destruct (existsb (String.eqb y) seen) eqn:E.
  - rewrite IH. fold (mem y seen) in E. apply mem_In in E. split.
    + tauto.
    + intros [[->|H] Hn]; tauto.
  - assert (Hy : ~ In y seen).
    { intros H. apply mem_In in H. unfold mem in H. congruence. }
    simpl. rewrite IH. simpl. split.
    + intros [->|[H1 H2]]; tauto.
    + intros [[->|H] Hn]; [now left|].
      destruct (string_dec y x) as [->|Hne]; [now left | right; tauto].
Qed.

Lemma dedup_from_NoDup (seen l : list string) : List.NoDup (dedup_from seen l).
Proof.
  revert seen. induction l as [|y l IH]; intros seen; simpl; [constructor|].
  destruct (existsb (String.eqb y) seen); [apply IH|].
  constructor; [|apply IH]. rewrite dedup_from_In. simpl. tauto.
Qed.

Lemma union_labels_In (dfs : list DataFrame) (label : string) :
  In label (union_labels dfs) <-> exists df, In df dfs /\ In label (names df).
Proof.
  unfold union_labels. rewrite dedup_from_In, in_flat_map. simpl. tauto.
Qed.

Lemma isna_coerce_nan (d : dtype) : isna (coerce d py_nan) = true.
Proof. now destruct d. Qed.

(** Storing a cell changes it only in these ways: an integer is stored as
    a float in a float column, NaN as NaT in a datetime column. *)
Lemma coerce_cases (d : dtype) (o : pyobj) :
  coerce d o = o
  \/ (exists z, d = Float64 /\ o = PyInt z /\ coerce d o = PyFloat (float_of_Z z))
  \/ (exists f, d = Datetime64 /\ o = PyFloat f /\ coerce d o = PyNaT).
Proof.
  destruct d, o; simpl; try (now left).
  - right. left. now eexists.
  - right. right. now eexists.
Qed.

Lemma of_objects_coerce (d : dtype) (os : list pyobj) :
  (forall o, In o os -> fits d o = true) ->
  to_objects (of_objects d os) = map (coerce d) os.
Proof.
  intros H. destruct d; simpl; rewrite ?map_map; try reflexivity;
    try (symmetry; apply map_id_in; intros o Ho; now destruct o);
    apply map_ext_in; intros o Ho; specialize (H o Ho);
    destruct o; simpl in *; try reflexivity; try discriminate.
Qed.

Lemma forallb_dtype (p : dtype -> bool) (ds : list dtype) (d : dtype) :
  forallb p ds = true -> In d ds -> p d = true.
Proof. intros H Hin. rewrite forallb_forall in H. now apply H. Qed.

(** Every cell of a column fits the kind of the concatenated column. *)
Lemma common_dtype_fits (ds : list dtype) (lacking : bool) (s : series) (o : pyobj) :
  In (dtype_of s) ds -> In o (to_objects s) ->
  fits (common_dtype ds lacking) o = true.
Proof.
  intros Hd Ho. unfold common_dtype.
  destruct (forallb (dtype_eqb Datetime64) ds) eqn:E1.
  { pose proof (forallb_dtype _ _ _ E1 Hd) as H.
    destruct s; try discriminate. simpl in Ho.
    apply in_map_iff in Ho. destruct Ho as [[t|] [<- _]]; reflexivity. }
  destruct (forallb (dtype_eqb Int64) ds && negb lacking) eqn:E2.
  { apply andb_true_iff in E2. destruct E2 as [E2 _].
    pose proof (forallb_dtype _ _ _ E2 Hd) as H.
    destruct s; try discriminate. simpl in Ho.
    apply in_map_iff in Ho. destruct Ho as [z [<- _]]. reflexivity. }
  destruct (forallb is_numeric ds) eqn:E3.
  { pose proof (forallb_dtype _ _ _ E3 Hd) as H.
    destruct s; try discriminate; simpl in Ho;
      apply in_map_iff in Ho; destruct Ho as [z [<- _]]; reflexivity. }
  destruct (forallb (dtype_eqb BoolT) ds && negb lacking) eqn:E4.
  { apply andb_true_iff in E4. destruct E4 as [E4 _].
    pose proof (forallb_dtype _ _ _ E4 Hd) as H.
    destruct s; try discriminate. simpl in Ho.
    apply in_map_iff in Ho. destruct Ho as [z [<- _]]. reflexivity. }
  reflexivity.
Qed.

Lemma common_dtype_fits_nan (ds : list dtype) :
  fits (common_dtype ds true) py_nan = true.
Proof.
  unfold common_dtype. rewrite !andb_false_r.
  destruct (forallb (dtype_eqb Datetime64) ds); [reflexivity|].
  now destruct (forallb is_numeric ds).
Qed.

Lemma piece_fits (label : string) (dfs : list DataFrame) (df : DataFrame) (o : pyobj) :
  In df dfs -> In o (piece label df) -> fits (concat_dtype label dfs) o = true.
Proof.
  intros Hdf Ho. unfold concat_dtype, piece in *.
  destruct (get_column label df) as [s|] eqn:Hs.
  - apply common_dtype_fits with (s := s); [|exact Ho].
    unfold present_dtypes. apply in_flat_map. exists df. split; [exact Hdf|].
    rewrite Hs. now left.
  - apply repeat_spec in Ho. subst o.
    replace (existsb (fun df0 => negb (has_column label df0)) dfs) with true.
    + apply common_dtype_fits_nan.
    + symmetry. apply existsb_exists. exists df. split; [exact Hdf|].
      apply negb_true_iff. destruct (has_column label df) eqn:E; [|reflexivity].
      apply has_column_get in E. destruct E as [s E]. congruence.
Qed.

Lemma concat_column_objects (label : string) (dfs : list DataFrame) :
  to_objects (concat_column label dfs)
  = map (coerce (concat_dtype label dfs)) (flat_map (piece label) dfs).
Proof.
  unfold concat_column. apply of_objects_coerce. intros o Ho.
  apply in_flat_map in Ho. destruct Ho as [df [Hdf Ho]].
  now apply piece_fits with (df := df).
Qed.

Lemma nth_repeat_lt {A : Type} (a d : A) (n i : nat) :
  (i < n)%nat -> nth i (repeat a n) d = a.
Proof.
  revert i. induction n as [|n IH]; intros [|i] H; simpl; try lia;
    [reflexivity | apply IH; lia].
Qed.

Lemma map_flat_map_rows {A B C : Type} (f : B -> C) (g : A -> list B) (l : list A) :
  map f (flat_map g l) = flat_map (fun x => map f (g x)) l.
Proof.
  induction l as [|x l IH]; simpl; [reflexivity|].
  now rewrite List.map_app, IH.
Qed.

Lemma flat_map_ext_in {A B : Type} (f g : A -> list B) (l : list A) :
  (forall x, In x l -> f x = g x) -> flat_map f l = flat_map g l.
Proof.
  induction l as [|x l IH]; intros H; simpl; [reflexivity|].
  rewrite (H x) by now left. f_equal. apply IH. intros y Hy. apply H. now right.
Qed.

Lemma length_flat_map_rows (dfs : list DataFrame) :
  length (flat_map rows dfs) = list_sum (map nrows dfs).
Proof.
  induction dfs as [|df dfs IH]; simpl; [reflexivity|].
  now rewrite List.length_app, rows_length, IH.
Qed.

Lemma piece_rows (label : string) (df : DataFrame) :
  wf_frame df = true ->
  piece label df = map (cell_or_nan label) (rows df).
Proof.
  intros Hwf.
  assert (Hlen : length (piece label df) = nrows df).
  { unfold piece. destruct (get_column label df) as [s|] eqn:Hs.
    - exact (wf_frame_get df label s Hwf Hs).
    - apply repeat_length. }
  rewrite (list_positions PyNone (piece label df)), Hlen.
  unfold rows. rewrite map_map. apply map_ext_in. intros i Hi.
  apply in_seq in Hi. unfold cell_or_nan. rewrite assoc_row_at.
  unfold piece. destruct (get_column label df) as [s|]; simpl.
  - reflexivity.
  - apply nth_repeat_lt. lia.
Qed.

(** The rows of a frame whose columns are given row by row. *)
Lemma rows_of_columns {X : Type} (R : list X) (cell : string -> X -> pyobj)
  (labels : list string) (col : string -> series) :
  (forall label, In label labels -> to_objects (col label) = map (cell label) R) ->
  rows {| nrows := length R;
          columns := map (fun label => (label, col label)) labels |}
  = map (fun r => map (fun label => (label, cell label r)) labels) R.
Proof.
  intros H. destruct R as [|d R'] eqn:HR; [reflexivity|]. rewrite <- HR in *.
  assert (Hne : R <> []) by (rewrite HR; discriminate). clear HR R'.
  unfold rows. cbn [nrows].
  rewrite (list_positions d R) at 3. rewrite map_map.
  apply map_ext_in. intros i Hi. apply in_seq in Hi.
  unfold row_at. cbn [columns]. rewrite map_map. apply map_ext_in.
  intros label Hlabel. cbn [fst snd]. f_equal.
  rewrite (H label Hlabel). apply nth_map_in. lia.
Qed.

Lemma merge_dataframes_nonempty (dfs : list DataFrame) :
  dfs <> [] ->
  merge_dataframes dfs
  = Ok {| nrows := list_sum (map nrows dfs);
          columns := map (fun label => (label, concat_column label dfs))
                         (union_labels dfs) |}.
Proof. destruct dfs; [congruence | reflexivity]. Qed.

(** C5, as the code has it.  Merging well-formed frames returns a frame
    whose rows are as many as those of the inputs together, whose labels
    are the labels of the inputs, each once, and whose rows are the rows of
    the inputs, frame after frame and in each frame's order, read under the
    union of the labels: a cell is the input's cell as the merged column
    stores it (an integer as a float in a float column), and a missing value
    where the row's frame has no such column.  Merging fills no missing
    value.  Merging no frame gives the empty frame. *)
Theorem merge_dataframes_spec (dfs : list DataFrame) :
  Forall (fun df => wf_frame df = true) dfs ->
  exists merged,
    merge_dataframes dfs = Ok merged
    /\ nrows merged = list_sum (map nrows dfs)
    /\ List.NoDup (names merged)
    /\ (forall label, In label (names merged) <->
          exists df, In df dfs /\ In label (names df))
    /\ rows merged = flat_map (fun df => map (reindex_row dfs) (rows df)) dfs
    /\ (forall row label, assoc label row = None ->
          In label (names merged) ->
          exists o, assoc label (reindex_row dfs row) = Some o /\ isna o = true)
    /\ (forall d o,
          coerce d o = o
          \/ (exists z, d = Float64 /\ o = PyInt z
                        /\ coerce d o = PyFloat (float_of_Z z))
          \/ (exists f, d = Datetime64 /\ o = PyFloat f /\ coerce d o = PyNaT))
    /\ (dfs = [] -> merged = empty_frame).
Proof.
  intros Hwf. destruct dfs as [|df0 dfs0] eqn:Hdfs.
  { exists empty_frame.
    split; [reflexivity|]. split; [reflexivity|]. split; [constructor|].
    split; [intros label; split; [intros [] | intros [df [[] _]]]|].
    split; [reflexivity|]. split; [intros row label _ []|].
    split; [apply coerce_cases | reflexivity]. }
  rewrite <- Hdfs in *.
  set (merged := {| nrows := list_sum (map nrows dfs);
                    columns := map (fun label => (label, concat_column label dfs))
                                   (union_labels dfs) |}).
  assert (Hnames : names merged = union_labels dfs).
  { unfold names, merged. cbn [columns]. rewrite map_map. apply map_id. }
  assert (Hne : dfs <> []) by (rewrite Hdfs; discriminate).
  exists merged. split; [now apply merge_dataframes_nonempty|].
  split; [reflexivity|].
  split; [rewrite Hnames; apply dedup_from_NoDup|].
  split; [intros label; rewrite Hnames; apply union_labels_In|].
  split; [|split; [|split; [apply coerce_cases|]]].
  - unfold merged. rewrite <- length_flat_map_rows.
    rewrite (rows_of_columns (flat_map rows dfs)
               (fun label r => coerce (concat_dtype label dfs) (cell_or_nan label r))).
    + rewrite map_flat_map_rows. reflexivity.
    + intros label _. rewrite concat_column_objects.
      rewrite (flat_map_ext_in (piece label)
                 (fun df => map (cell_or_nan label) (rows df))).
      * now rewrite <- map_flat_map_rows, map_map.
      * intros df Hdf. apply piece_rows. rewrite List.Forall_forall in Hwf.
        now apply Hwf.
  - intros row label Hnone Hin. rewrite Hnames in Hin.
    exists (coerce (concat_dtype label dfs) py_nan).
    split; [|apply isna_coerce_nan].
    unfold reindex_row.
    assert (Hgen : forall labels, In label labels ->
              assoc label
                (map (fun l => (l, coerce (concat_dtype l dfs) (cell_or_nan l row)))
                     labels)
              = Some (coerce (concat_dtype label dfs) py_nan)).
    { induction labels as [|l labels IH]; simpl; [tauto|].
      unfold cell_or_nan at 1. intros [->|Hl].
      - now rewrite String.eqb_refl, Hnone.
      - destruct (String.eqb label l) eqn:E; [|now apply IH].
        apply String.eqb_eq in E. subst l. now rewrite Hnone. }
    now apply Hgen.
  - intros H. contradiction.
Qed.

(** ** Time-series extraction *)

Lemma combine_nil_r {A B : Type} (l : list A) : combine l (@nil B) = [].
Proof. now destruct l. Qed.

Lemma mask_filter_combine {A B : Type} (mask : list bool) (l : list A) (l' : list B) :
  mask_filter mask (combine l l') = combine (mask_filter mask l) (mask_filter mask l').
Proof.
  revert l l'. induction mask as [|b mask IH]; intros [|x l] [|y l']; simpl;
    try reflexivity.
  - now rewrite combine_nil_r.
  - destruct b; simpl; now rewrite IH.
Qed.

(** Dropping the elements on which [f] gives nothing changes no
    [flat_map f]. *)
Lemma flat_map_mask_filter {A B C : Type} (g : A -> bool) (f : A * B -> list C)
  (l : list A) (l' : list B) :
  (forall x y, g x = false -> f (x, y) = []) ->
  flat_map f (mask_filter (map g l) (combine l l')) = flat_map f (combine l l').
Proof.
  intros H. revert l'. induction l as [|x l IH]; intros [|y l']; simpl;
    try reflexivity.
  destruct (g x) eqn:E; simpl; [now rewrite IH|].
  now rewrite (H x y E), IH.
Qed.

Lemma observations_select (ts : list (option Z)) (labels cells : list pyobj) :
  let mask := map (fun t => negb (isna (timestamp_obj t))) ts in
  observations (mask_filter mask ts) (mask_filter mask labels)
               (mask_filter mask cells)
  = observations ts labels cells.
Proof.
  intros mask. unfold observations.
  rewrite <- !mask_filter_combine. unfold mask.
  apply (flat_map_mask_filter (fun t => negb (isna (timestamp_obj t)))).
  now intros [ns|] y.
Qed.

Lemma daily_observations_select (ts : list (option Z)) (cells : list pyobj) :
  let mask := map (fun t => negb (isna (timestamp_obj t))) ts in
  daily_observations (mask_filter mask ts) (mask_filter mask cells)
  = daily_observations ts cells.
Proof.
  intros mask. unfold daily_observations.
  rewrite <- !mask_filter_combine. unfold mask.
  apply (flat_map_mask_filter (fun t => negb (isna (timestamp_obj t)))).
  now intros [ns|] y.
Qed.

(** The timestamps that are left of a column with bins have bins. *)
Lemma binnable_valid (ts : list (option Z)) :
  binnable ts = true ->
  binnable (mask_filter (map (fun t => negb (isna (timestamp_obj t))) ts) ts)
  = true.
Proof.
  unfold binnable. rewrite mask_filter_self. intros H.
  apply orb_true_iff in H. apply orb_true_iff. destruct H as [H|H].
  - left. apply Nat.eqb_eq in H. now destruct ts.
  - right. apply existsb_exists in H. destruct H as [t [Hin Ht]].
    apply existsb_exists. exists t. split; [|exact Ht].
    apply filter_In. now split.
Qed.

Section TimeSeriesProperties.

Variable nanmean : list float -> float.
Variable mean_datetime : list pyobj -> pyobj.

Local Abbreviation get_time_series_data :=
  (get_time_series_data nanmean mean_datetime).

Lemma time_series_drop (df : DataFrame) (column group_by : string)
  (ts : list (option Z)) :
  get_column "TIMESTAMP" df = Some (SDatetime ts) ->
  binnable ts = true ->
  get_time_series_data df column group_by
  = get_time_series_data (drop_null_timestamps df) column group_by.
Proof.
  intros Hts Hbin. unfold drop_null_timestamps. rewrite Hts.
  cbn [to_objects]. rewrite map_map.
  set (mask := map (fun t => negb (isna (timestamp_obj t))) ts).
  unfold get_time_series_data.
  rewrite !has_column_select.
  destruct (negb (has_column "TIMESTAMP" df) || negb (has_column column df));
    [reflexivity|].
  unfold getitem. rewrite !get_column_select, Hts. cbn [option_map bind].
  destruct (get_column column df) as [target|]; [|reflexivity].
  cbn [option_map bind series_select datetime_values].
  pose proof (binnable_valid ts Hbin) as Hleft. fold mask in Hleft.
  rewrite Hbin, Hleft. cbn [negb].
  rewrite dtype_of_select, !to_objects_select.
  destruct (has_column group_by df).
  - destruct (get_column group_by df) as [labels|]; [|reflexivity].
    cbn [option_map bind]. rewrite to_objects_select.
    unfold mask. now rewrite observations_select.
  - unfold mask. now rewrite daily_observations_select.
Qed.

(** C10, as the code has it.  In a frame whose [TIMESTAMP] is a datetime
    column that holds a timestamp (or that has no row), the rows whose
    [TIMESTAMP] is NaT take no part in the extraction: the result is the
    result for the frame without these rows, for every target column and
    grouping column; so two such frames that differ only in such rows have
    the same result. *)
Theorem time_series_ignores_null_timestamps (df : DataFrame)
  (column group_by : string) (ts : list (option Z)) :
  get_column "TIMESTAMP" df = Some (SDatetime ts) ->
  binnable ts = true ->
  get_time_series_data df column group_by
  = get_time_series_data (drop_null_timestamps df) column group_by
  /\ forall df2 ts2,
       get_column "TIMESTAMP" df2 = Some (SDatetime ts2) ->
       binnable ts2 = true ->
       drop_null_timestamps df2 = drop_null_timestamps df ->
       get_time_series_data df2 column group_by
       = get_time_series_data df column group_by.
Proof.
  intros Hts Hbin. split; [now apply (time_series_drop df _ _ ts)|].
  intros df2 ts2 Hts2 Hbin2 H.
  rewrite (time_series_drop df2 _ _ ts2 Hts2 Hbin2).
  rewrite (time_series_drop df _ _ ts Hts Hbin). now rewrite H.
Qed.

End TimeSeriesProperties.

(** ** Correlation matrix *)

Lemma fold_insert_notin {X V : Type} (key : X -> string) (val : X -> V)
  (l : list X) (m0 : gmap string V) (k : string) :
  ~ In k (map key l) ->
  fold_left (fun m c => <[key c := val c]> m) l m0 !! k = m0 !! k.
Proof.
  revert m0. induction l as [|c l IH]; intros m0 H; simpl in *; [reflexivity|].
  rewrite IH by tauto. apply lookup_insert_ne. tauto.
Qed.

Lemma fold_insert_lookup {X V : Type} (key : X -> string) (val : X -> V)
  (l : list X) (m0 : gmap string V) (x : X) :
  List.NoDup (map key l) -> In x l ->
  fold_left (fun m c => <[key c := val c]> m) l m0 !! key x = Some (val x).
Proof.
  revert m0. induction l as [|c l IH]; intros m0 Hnd Hin; simpl in *; [tauto|].
  inversion Hnd as [|? ? Hnin Hnd']; subst. destruct Hin as [->|Hin].
  - rewrite fold_insert_notin by exact Hnin. apply lookup_insert_eq.
  - now apply IH.
Qed.

Lemma enumerate_from_In {A : Type} (l : list A) (k i : nat) (x : A) :
  nth_error l i = Some x -> In ((k + i)%nat, x) (enumerate_from k l).
Proof.
  revert k i. induction l as [|y l IH]; intros k [|i] H; simpl in *;
    try discriminate.
  - injection H as ->. left. f_equal. lia.
  - right. replace (k + S i)%nat with (S k + i)%nat by lia. now apply IH.
Qed.

Lemma enumerate_from_snd {A : Type} (l : list A) (k : nat) :
  map snd (enumerate_from k l) = l.
Proof.
  revert k. induction l as [|y l IH]; intros k; simpl; [reflexivity|].
  now rewrite IH.
Qed.

Lemma numeric_candidates_names (df : DataFrame) (labels : list string) (a : string) :
  In a (map fst (numeric_candidates df labels)) -> In a labels.
Proof.
  induction labels as [|l labels IH]; simpl; [tauto|].
  rewrite List.map_app, in_app_iff. intros [H|H]; [left | right; now apply IH].
  destruct (get_column l df) as [s|]; [|destruct H].
  destruct (is_numeric (dtype_of s)); simpl in H; [|destruct H].
  now destruct H.
Qed.

Lemma numeric_candidates_NoDup (df : DataFrame) (labels : list string) :
  List.NoDup labels -> List.NoDup (map fst (numeric_candidates df labels)).
Proof.
  induction labels as [|l labels IH]; simpl; [constructor|].
  intros Hnd. inversion Hnd as [|? ? Hnin Hnd']; subst.
  rewrite List.map_app.
  destruct (get_column l df) as [s|]; [|now apply IH].
  destruct (is_numeric (dtype_of s)); [|now apply IH].
  simpl. constructor; [|now apply IH].
  intros H. apply Hnin. now apply numeric_candidates_names in H.
Qed.

Lemma numeric_candidates_spec (df : DataFrame) (labels : list string)
  (a : string) (s : series) :
  In (a, s) (numeric_candidates df labels) <->
  In a labels /\ get_column a df = Some s /\ is_numeric (dtype_of s) = true.
Proof.
  unfold numeric_candidates. rewrite in_flat_map. split.
  - intros [l [Hl H]]. destruct (get_column l df) as [s'|] eqn:E; [|destruct H].
    destruct (is_numeric (dtype_of s')) eqn:En; [|destruct H].
    destruct H as [[= -> ->]|[]]. tauto.
  - intros [Hl [Hs Hn]]. exists a. split; [exact Hl|]. rewrite Hs, Hn. now left.
Qed.

Lemma select_numeric_getitem (df : DataFrame) (labels : list string) :
  forallb (fun label => has_column label df) labels = true ->
  exists selected,
    getitem_list labels df = Ok selected
    /\ nrows (select_numeric selected) = nrows df
    /\ columns (select_numeric selected) = numeric_candidates df labels.
Proof.
  intros H. unfold getitem_list. rewrite H. eexists. split; [reflexivity|].
  split; [reflexivity|]. unfold select_numeric, numeric_candidates. simpl.
  clear H. induction labels as [|l labels IH]; simpl; [reflexivity|].
  rewrite List.filter_app, IH. f_equal.
  destruct (get_column l df) as [s|]; [|reflexivity]. simpl.
  now destruct (is_numeric (dtype_of s)).
Qed.

Section CorrelationProperties.

Variable pearson : list float -> list float -> float.
Variable round2 : float -> float.

Local Abbreviation corr_entry := (corr_entry pearson).
Local Abbreviation corr_matrix := (corr_matrix pearson round2).
Local Abbreviation get_correlation_data := (get_correlation_data pearson round2).
Local Abbreviation entries_of := (entries_of pearson round2).
Local Abbreviation corr_dict := (corr_dict pearson round2).

(** The entry for two columns does not depend on which of them is the row
    and which the column. *)
Lemma corr_entry_sym (i j : nat) (x y : list float) :
  (i = j -> x = y) -> corr_entry (i, x) (j, y) = corr_entry (j, y) (i, x).
Proof.
  intros H. unfold corr_entry. simpl.
  destruct (Nat.leb i j) eqn:E1, (Nat.leb j i) eqn:E2; try reflexivity.
  - apply Nat.leb_le in E1, E2. rewrite H by lia. reflexivity.
  - apply Nat.leb_gt in E1, E2. lia.
Qed.

Lemma entries_of_keys (numeric_df : DataFrame) (i : nat) (xa : list float) :
  map fst (entries_of numeric_df i xa) = names numeric_df.
Proof.
  unfold entries_of, names. rewrite map_map. simpl.
  rewrite <- (enumerate_from_snd (columns numeric_df) 0) at 2.
  now rewrite map_map.
Qed.

Lemma corr_matrix_keys (numeric_df : DataFrame) :
  map fst (corr_matrix numeric_df) = names numeric_df.
Proof.
  unfold corr_matrix, names. rewrite map_map. simpl.
  rewrite <- (enumerate_from_snd (columns numeric_df) 0) at 2.
  now rewrite map_map.
Qed.

Lemma corr_dict_outer (numeric_df : DataFrame) (i : nat) (a : string) (sa : series) :
  List.NoDup (names numeric_df) ->
  nth_error (columns numeric_df) i = Some (a, sa) ->
  corr_dict numeric_df !! a
  = Some (to_dict (entries_of numeric_df i (as_floats sa))).
Proof.
  intros Hnd Hi. unfold corr_dict.
  apply (fold_insert_lookup fst (fun c => to_dict (snd c)) _ ∅
           (a, entries_of numeric_df i (as_floats sa))).
  - now rewrite corr_matrix_keys.
  - unfold corr_matrix. apply in_map_iff. exists (i, (a, sa)).
    split; [reflexivity|]. now apply (enumerate_from_In _ 0 i).
Qed.

Lemma corr_dict_absent (numeric_df : DataFrame) (a : string) :
  ~ In a (names numeric_df) -> corr_dict numeric_df !! a = None.
Proof.
  intros H. unfold corr_dict.
  rewrite (fold_insert_notin fst (fun c => to_dict (snd c))).
  - apply lookup_empty.
  - now rewrite corr_matrix_keys.
Qed.

Lemma entries_of_lookup (numeric_df : DataFrame) (i j : nat) (xa : list float)
  (b : string) (sb : series) :
  List.NoDup (names numeric_df) ->
  nth_error (columns numeric_df) j = Some (b, sb) ->
  to_dict (entries_of numeric_df i xa) !! b
  = Some (round2 (corr_entry (j, as_floats sb) (i, xa))).
Proof.
  intros Hnd Hj. unfold to_dict.
  apply (fold_insert_lookup fst snd _ ∅
           (b, round2 (corr_entry (j, as_floats sb) (i, xa)))).
  - now rewrite entries_of_keys.
  - unfold entries_of. apply in_map_iff. exists (j, (b, sb)).
    split; [reflexivity|]. now apply (enumerate_from_In _ 0 j).
Qed.

Lemma entries_of_absent (numeric_df : DataFrame) (i : nat) (xa : list float)
  (b : string) :
  ~ In b (names numeric_df) -> to_dict (entries_of numeric_df i xa) !! b = None.
Proof.
  intros H. unfold to_dict. rewrite (fold_insert_notin fst snd).
  - apply lookup_empty.
  - now rewrite entries_of_keys.
Qed.

Lemma In_names_nth (numeric_df : DataFrame) (a : string) :
  In a (names numeric_df) ->
  exists i sa, nth_error (columns numeric_df) i = Some (a, sa).
Proof.
  unfold names. intros H. apply in_map_iff in H. destruct H as [[a' sa] [<- H]].
  apply In_nth_error in H. destruct H as [i H]. now exists i, sa.
Qed.


End CorrelationProperties.

(** A candidate that is not a column of the frame makes the call raise:
    [df[columns]] is evaluated before the numeric columns are selected. *)
Lemma get_correlation_data_absent (pearson : list float -> list float -> float)
  (round2 : float -> float) (df : DataFrame) (columns : list string)
  (label : string) :
  In label columns -> has_column label df = false ->
  get_correlation_data pearson round2 df columns = Raise KeyError.
Proof.
  intros Hin Habs. unfold get_correlation_data, getitem_list.
  replace (forallb (fun l => has_column l df) columns) with false; [reflexivity|].
  symmetry. apply not_true_iff_false. intros H.
  rewrite forallb_forall in H. specialize (H label Hin). congruence.
Qed.

(** C1, at the failing input.  No candidate is a numeric column of the
    frame, so an empty result is due; one candidate is not a column of the
    frame, and the call raises [KeyError], whatever the coefficient and the
    rounding are. *)
Theorem correlation_raises_on_absent_candidate
  (pearson : list float -> list float -> float) (round2 : float -> float) :
  numeric_candidates Sample.unified ["VESSEL_NAME"; "DEPTH"] = []
  /\ get_correlation_data pearson round2 Sample.unified ["VESSEL_NAME"; "DEPTH"]
     = Raise KeyError.
Proof.
  split; [reflexivity|].
  apply (get_correlation_data_absent _ _ _ _ "DEPTH"); [simpl; tauto | reflexivity].
Qed.

(** ** The samples *)

(** C2 fails as stated: a column whose label bears the patterns of two
    buckets is put in both. *)
Lemma sensor_column_in_two_buckets :
  In "Bearing Vib" (names Sample.sensors)
  /\ In "Bearing Vib" (vibration (get_column_categories Sample.sensors))
  /\ In "Bearing Vib" (bearing (get_column_categories Sample.sensors))
  /\ bucket_count "Bearing Vib" (get_column_categories Sample.sensors) = 2%nat.
Proof. simpl. tauto. Qed.

(** C3 fails as stated: on a [DATE] column of texts the synthesizer raises,
    whatever the renderers and the parser are. *)
Lemma create_timestamp_raises_on_text_dates :
  wf_frame Sample.text_dated = true
  /\ forall repr_float str_timestamp parse_datetime,
       create_timestamp repr_float str_timestamp parse_datetime Sample.text_dated
       = Raise AttributeError.
Proof. split; reflexivity. Qed.

(** C4 fails as stated: a [TIME] column of integers comes out as a column
    of texts, whatever the renderers and the parser are. *)
Lemma create_timestamp_rewrites_time :
  get_column "TIME" Sample.int_timed = Some (SInt64 [8])
  /\ forall repr_float str_timestamp parse_datetime,
       exists df',
         create_timestamp repr_float str_timestamp parse_datetime Sample.int_timed
         = Ok df'
         /\ get_column "TIME" df' = Some (SObject [PyStr "8"]).
Proof.
  split; [reflexivity|]. intros repr_float str_timestamp parse_datetime.
  eexists. split; reflexivity.
Qed.

(** C5 fails as stated: merging two cleaned sources of different columns
    gives missing values, not zeros or empty strings. *)
Lemma merge_leaves_missing_values :
  clean_data Sample.source_a = Sample.source_a
  /\ clean_data Sample.source_b = Sample.source_b
  /\ merge_dataframes [Sample.source_a; Sample.source_b]
     = Ok {| nrows := 3;
             columns :=
               [("VESSEL_NAME", SObject [PyStr "A"; PyStr "A"; PyStr "B"]);
                ("TEMP", SFloat64 [10; 20; nan]%float);
                ("REMARK", SObject [PyFloat nan; PyFloat nan; PyStr "ok"])] |}.
Proof. repeat split. Qed.

(** C10 fails as stated: on rows none of which has a timestamp the
    extraction raises, while it returns an empty series for the frame
    without these rows; and it raises on a column of timestamps as texts,
    one of which is missing. *)
Lemma time_series_raises_without_timestamps :
  get_time_series_data Sample.nanmean Sample.mean_datetime Sample.undated
    "TEMP" "VESSEL_NAME" = Raise ValueError
  /\ get_time_series_data Sample.nanmean Sample.mean_datetime
       (drop_null_timestamps Sample.undated) "TEMP" "VESSEL_NAME"
     = Ok [(PyStr "all", {| timestamps := []; values := [] |})]
  /\ get_time_series_data Sample.nanmean Sample.mean_datetime
       Sample.text_stamped "TEMP" "VESSEL_NAME" = Raise TypeError.
Proof. repeat split. Qed.


(** The synthesizer on dated rows: 2024-01-01 and 08:00:00 give
    2024-01-01T08:00:00; a NaT date and a time that does not parse give
    NaT. *)
Lemma create_timestamp_spec_witness :
  wf_frame Sample.dated = true
  /\ exists df',
       create_timestamp Sample.repr_float Sample.str_timestamp
         Sample.parse_datetime Sample.dated = Ok df'
       /\ get_column "TIMESTAMP" df'
          = Some (SDatetime [Some (Sample.jan1 + 8 * 3600 * 1000000000); None; None]).
Proof.
  split; [reflexivity|].
  destruct (create_timestamp_spec Sample.repr_float Sample.str_timestamp
              Sample.parse_datetime Sample.dated eq_refl)
    as [df' [Hrun [_ Hboth]]].
  - intros date Hdate _. injection Hdate as <-. reflexivity.
  - exists df'. split; [exact Hrun|].
    destruct (Hboth eq_refl) as [dates [time [stamps [Hd [Ht [Hstamp [Hlen Hrow]]]]]]].
    injection Hd as <-. injection Ht as <-. rewrite Hstamp. do 2 f_equal.
    destruct stamps as [|s0 [|s1 [|s2 [|s3 rest]]]]; try discriminate Hlen.
    pose proof (Hrow 0%nat ltac:(simpl; lia)) as H0.
    pose proof (Hrow 1%nat ltac:(simpl; lia)) as H1.
    pose proof (Hrow 2%nat ltac:(simpl; lia)) as H2.
    simpl in H0, H1, H2. rewrite H0, H1, H2. reflexivity.
Defined.

(** The synthesizer on dated rows leaves [TEMP] and [DATE] alone, and
    [TIME] too, which holds texts. *)
Lemma create_timestamp_frame_witness :
  exists df',
    create_timestamp Sample.repr_float Sample.str_timestamp
      Sample.parse_datetime Sample.dated = Ok df'
    /\ get_column "TEMP" df' = get_column "TEMP" Sample.dated
    /\ get_column "DATE" df' = get_column "DATE" Sample.dated
    /\ get_column "TIME" df' = get_column "TIME" Sample.dated
    /\ names df' = ["DATE"; "TIME"; "TEMP"; "TIMESTAMP"].
Proof.
  destruct (create_timestamp Sample.repr_float Sample.str_timestamp
              Sample.parse_datetime Sample.dated) as [df'|e] eqn:Hrun;
    [|discriminate Hrun].
  exists df'. split; [reflexivity|].
  destruct (create_timestamp_frame _ _ _ _ _ Hrun) as [Hother [_ Hran]].
  destruct (Hran eq_refl) as [_ [Htime Hnames]].
  split; [apply Hother; discriminate|].
  split; [apply Hother; discriminate|].
  split; [apply Htime; now exists ["08:00:00"; "09:30:00"; "noon"]|].
  exact Hnames.
Defined.

(** Merging the two sources: three rows, those of the first source first. *)
Lemma merge_dataframes_spec_witness :
  Forall (fun df => wf_frame df = true) [Sample.source_a; Sample.source_b]
  /\ exists merged,
       merge_dataframes [Sample.source_a; Sample.source_b] = Ok merged
       /\ nrows merged = 3%nat
       /\ rows merged
          = [[("VESSEL_NAME", PyStr "A"); ("TEMP", PyFloat 10); ("REMARK", py_nan)];
             [("VESSEL_NAME", PyStr "A"); ("TEMP", PyFloat 20); ("REMARK", py_nan)];
             [("VESSEL_NAME", PyStr "B"); ("TEMP", py_nan); ("REMARK", PyStr "ok")]].
Proof.
  assert (Hwf : Forall (fun df => wf_frame df = true)
                       [Sample.source_a; Sample.source_b])
    by (repeat constructor).
  split; [exact Hwf|].
  destruct (merge_dataframes_spec _ Hwf) as [merged [Hrun [Hn [_ [_ [Hrows _]]]]]].
  exists merged. split; [exact Hrun|]. split; [exact Hn | exact Hrows].
Defined.

(** Filtering the unified dataset: the entries on [VESSEL_NAME] and [LOAD]
    constrain, the entry on a column that is not there and the entry with a
    falsy value do not; the order of the entries does not matter. *)
Lemma filter_data_spec_witness :
  wf_frame Sample.unified = true
  /\ rows (filter_data Sample.cell_eq Sample.cell_isin Sample.unified Sample.filters)
     = [[("TIMESTAMP", PyTimestamp (Sample.jan1 + 7)); ("VESSEL_NAME", PyStr "A");
         ("TEMP", PyFloat 20); ("LOAD", PyInt 2)]]
  /\ filter_data Sample.cell_eq Sample.cell_isin Sample.unified (rev Sample.filters)
     = filter_data Sample.cell_eq Sample.cell_isin Sample.unified Sample.filters.
Proof.
  split; [reflexivity|].
  destruct (filter_data_spec Sample.cell_eq Sample.cell_isin Sample.unified
              Sample.filters eq_refl) as [Hrows [_ [_ Hperm]]].
  split; [exact Hrows|]. apply Hperm, Permutation_rev.
Defined.


(** The example of the specification: two rows of one day for vessel A with
    10 and 20 give the mean 15.0; the row without timestamp takes no part. *)
Example time_series_example :
  get_time_series_data Sample.nanmean Sample.mean_datetime Sample.unified
    "TEMP" "VESSEL_NAME"
  = Ok [(PyStr "A", {| timestamps := ["2024-01-01"]; values := [PyFloat 15] |});
        (PyStr "B", {| timestamps := ["2024-01-02"]; values := [PyFloat 7] |})].
Proof. reflexivity. Qed.

(* ===================================================================== *)
(** * Further properties: loader, pipeline, composition, summary *)
(* ===================================================================== *)

(** ** Source Loader *)

Lemma string_cons_app (c : ascii) (a b : string) :
  String c a +:+ b = String c (a +:+ b).
Proof. reflexivity. Qed.

Lemma string_app_empty_r (a : string) : a +:+ "" = a.
Proof.
  induction a as [|x a IH]; [reflexivity|].
  rewrite string_cons_app. now rewrite IH.
Qed.

Lemma string_app_assoc (a b c : string) : (a +:+ b) +:+ c = a +:+ (b +:+ c).
Proof.
  induction a as [|x a IH]; [reflexivity|].
  change (String x ((a +:+ b) +:+ c) = String x (a +:+ (b +:+ c))).
  now rewrite IH.
Qed.

Lemma prefix_single (c d : ascii) (s : string) :
  String.prefix (String c EmptyString) (String d s) = Ascii.eqb c d.
Proof.
  simpl. destruct (ascii_dec c d) as [->|Hne].
  - rewrite Ascii.eqb_refl. now destruct s.
  - symmetry. now apply Ascii.eqb_neq.
Qed.

Lemma basename_no_slash (path : string) : str_contains "/" (basename path) = false.
Proof.
  induction path as [|c rest IH]; [reflexivity|]. cbn [basename].
  destruct (str_contains "/" rest) eqn:E; [exact IH|].
  destruct (Ascii.eqb c "/") eqn:Ec; [exact E|].
  cbn [str_contains]. rewrite prefix_single, Ascii.eqb_sym, Ec. exact E.
Qed.

Lemma basename_suffix (path : string) : exists dir, path = dir +:+ basename path.
Proof.
  induction path as [|c rest IH]; [now exists ""|]. cbn [basename].
  destruct (str_contains "/" rest).
  - destruct IH as [dir IH]. exists (String c dir).
    rewrite string_cons_app. now rewrite <- IH.
  - destruct (Ascii.eqb c "/"); [now exists (String c "") | now exists ""].
Qed.

(** What precedes the first occurrence, and what follows. *)
Lemma before_first_split (sep s : string) :
  (str_contains sep s = true ->
   exists rest, s = before_first sep s +:+ sep +:+ rest)
  /\ (str_contains sep s = false -> before_first sep s = s).
Proof.
  induction s as [|c t [IH1 IH2]].
  - cbn [str_contains before_first].
    destruct (String.prefix sep "") eqn:E.
    + split; [intros _|discriminate]. apply prefix_spec in E.
      destruct E as [post E]. now exists post.
    + split; [discriminate | reflexivity].
  - cbn [str_contains before_first].
    destruct (String.prefix sep (String c t)) eqn:E.
    + split; [intros _|discriminate]. apply prefix_spec in E.
      destruct E as [post E]. now exists post.
    + split.
      * intros H. destruct (IH1 H) as [rest Hrest]. exists rest.
        rewrite string_cons_app. now rewrite <- Hrest.
      * intros H. now rewrite (IH2 H).
Qed.

Lemma before_first_prefix (sep s : string) :
  exists rest, s = before_first sep s +:+ rest.
Proof.
  destruct (before_first_split sep s) as [H1 H2].
  destruct (str_contains sep s).
  - destruct (H1 eq_refl) as [rest H]. now exists (sep +:+ rest).
  - exists "". now rewrite (H2 eq_refl), string_app_empty_r.
Qed.

(** What precedes the first occurrence holds no occurrence. *)
Lemma before_first_free (sep s : string) :
  sep <> "" -> str_contains sep (before_first sep s) = false.
Proof.
  intros Hsep.
  assert (Hnil : String.prefix sep "" = false) by (destruct sep; [congruence | reflexivity]).
  induction s as [|c t IH]; cbn [before_first].
  - rewrite Hnil. cbn [str_contains]. now rewrite Hnil.
  - destruct (String.prefix sep (String c t)) eqn:E.
    + cbn [str_contains]. now rewrite Hnil.
    + cbn [str_contains]. rewrite IH.
      destruct (String.prefix sep (String c (before_first sep t))) eqn:E';
        [|reflexivity].
      apply prefix_spec in E'. destruct E' as [post E'].
      destruct (before_first_prefix sep t) as [rest Hrest].
      assert (String.prefix sep (String c t) = true); [|congruence].
      apply prefix_spec. exists (post +:+ rest).
      rewrite <- string_app_assoc, <- E', string_cons_app. now rewrite <- Hrest.
Qed.


Lemma NoDup_snoc (l : list string) (k : string) :
  List.NoDup l -> ~ In k l -> List.NoDup (l ++ [k]).
Proof.
  intros Hnd Hk. apply (Permutation_NoDup (l := k :: l)).
  - apply Permutation_cons_append.
  - now constructor.
Qed.

Lemma In_assoc_set {A : Type} (k : string) (v : A) (l : list (string * A))
  (c : string * A) :
  In c (assoc_set k v l) -> In c l \/ c = (k, v).
Proof.
  induction l as [|[k' w] rest IH]; simpl.
  - intros [<-|[]]. now right.
  - destruct (String.eqb k k') eqn:E; simpl.
    + apply String.eqb_eq in E. subst k'. intros [<-|H]; [now right | tauto].
    + intros [<-|H]; [tauto|]. destruct (IH H); tauto.
Qed.

(** Setting a column of the frame's length keeps the frame well-formed. *)
Lemma wf_set_column (label : string) (s : series) (df : DataFrame) :
  wf_frame df = true -> series_len s = nrows df ->
  wf_frame (set_column label s df) = true.
Proof.
  intros Hwf Hlen. pose proof (wf_frame_columns df Hwf) as Hcols.
  unfold wf_frame in *. apply andb_true_iff in Hwf. destruct Hwf as [Hnd _].
  apply andb_true_iff. split.
  - apply nodupb_NoDup. apply nodupb_NoDup in Hnd.
    unfold names, set_column. cbn [columns]. rewrite names_assoc_set.
    fold (names df). destruct (mem label (names df)) eqn:E; [exact Hnd|].
    apply NoDup_snoc; [exact Hnd|]. intros H. apply mem_In in H. congruence.
  - apply forallb_forall. intros c Hc. apply Nat.eqb_eq.
    unfold set_column in Hc. cbn [columns nrows] in *.
    destruct (In_assoc_set _ _ _ _ Hc) as [H| ->].
    + now apply Hcols.
    + exact Hlen.
Qed.

Section LoaderProperties.

Variable read_excel : list Byte.byte -> read_result.

Local Abbreviation load_excel_file := (load_excel_file read_excel).

(** X2. The loader.  When the codec reads the bytes, the loader returns the
    frame read with a column [VESSEL_NAME] that holds the vessel identifier
    of the file name in every row: the rows are as many, every other column
    is as read, and a well-formed frame stays well-formed.  When the codec
    fails, the loader raises with a message that bears the file name and
    the cause. *)
Theorem load_excel_file_spec (file_content : list Byte.byte) (filename : string) :
  match load_excel_file file_content filename with
  | Loaded df vessel_name =>
      vessel_name = vessel_name_of filename
      /\ exists raw,
           read_excel file_content = ReadOk raw
           /\ nrows df = nrows raw
           /\ get_column "VESSEL_NAME" df
              = Some (SObject (repeat (PyStr vessel_name) (nrows raw)))
           /\ (forall i, (i < nrows df)%nat ->
                 assoc "VESSEL_NAME" (row_at df i) = Some (PyStr vessel_name))
           /\ (forall label, label <> "VESSEL_NAME" ->
                 get_column label df = get_column label raw)
           /\ (wf_frame raw = true -> wf_frame df = true)
  | LoadError message =>
      exists cause,
        read_excel file_content = ReadError cause
        /\ str_contains filename message = true
        /\ str_contains cause message = true
  end.
Proof.
  unfold load_excel_file. destruct (read_excel file_content) as [raw|cause].
  - split; [reflexivity|]. exists raw. split; [reflexivity|].
    split; [reflexivity|]. split; [apply get_set_same|].
    split; [|split].
    + intros i Hi. rewrite assoc_row_at. unfold set_scalar_column.
      rewrite get_set_same. cbn [option_map to_objects]. f_equal.
      apply nth_repeat_lt. exact Hi.
    + intros label Hne. now apply get_set_other.
    + intros Hwf. apply wf_set_column; [exact Hwf|].
      unfold series_len. cbn [to_objects]. apply repeat_length.
  - exists cause. split; [reflexivity|]. split; apply str_contains_spec.
    + now exists "Error loading file ", (": " +:+ cause).
    + exists ("Error loading file " +:+ filename +:+ ": "), "".
      now rewrite string_app_empty_r, !string_app_assoc.
Qed.

End LoaderProperties.

(** ** Cleaner: kinds and well-formedness *)

Lemma has_column_assoc (label : string) (df : DataFrame) :
  has_column label df
  = match get_column label df with Some _ => true | None => false end.
Proof.
  destruct (get_column label df) as [s|] eqn:E.
  - now apply get_has_column in E.
  - destruct (has_column label df) eqn:H; [|reflexivity].
    apply has_column_get in H. destruct H as [s H]. congruence.
Qed.

Lemma get_column_clean (label : string) (df : DataFrame) :
  nodupb (names df) = true ->
  get_column label (clean_data df)
  = match get_column label df with
    | Some s => if negb (all_na s) then Some (clean_column s) else None
    | None => None
    end.
Proof.
  intros Hnd. apply nodupb_NoDup in Hnd.
  unfold get_column, clean_data, dropna_all_columns. cbn [columns].
  now apply (assoc_map_filter (fun s => negb (all_na s)) clean_column).
Qed.

Lemma has_column_clean (label : string) (df : DataFrame) :
  nodupb (names df) = true ->
  has_column label (clean_data df) = negb (without_values label df).
Proof.
  intros Hnd. rewrite has_column_assoc, (get_column_clean label df Hnd).
  unfold without_values. destruct (get_column label df) as [s|]; [|reflexivity].
  now destruct (all_na s).
Qed.

Lemma NoDup_map_filter {A : Type} (p : string * A -> bool) (l : list (string * A)) :
  List.NoDup (map fst l) -> List.NoDup (map fst (List.filter p l)).
Proof.
  induction l as [|c l IH]; simpl; [constructor|].
  intros H. inversion H as [|? ? Hnin Hnd]; subst.
  destruct (p c); simpl; [|now apply IH].
  constructor; [|now apply IH]. intros Hin. apply Hnin.
  apply in_map_iff in Hin. destruct Hin as [c' [<- Hc']].
  apply in_map. apply filter_In in Hc'. tauto.
Qed.

Lemma names_clean (df : DataFrame) :
  names (clean_data df)
  = map fst (List.filter (fun c => negb (all_na (snd c))) (columns df)).
Proof.
  unfold names, clean_data, dropna_all_columns. cbn [columns].
  rewrite map_map. now apply map_ext.
Qed.

Lemma clean_column_len (s : series) :
  series_len (clean_column s) = series_len s.
Proof.
  unfold series_len. now rewrite clean_column_objects, List.length_map.
Qed.

Lemma clean_column_dtype (s : series) : dtype_of (clean_column s) = dtype_of s.
Proof. now destruct s. Qed.

Lemma wf_clean_data (df : DataFrame) :
  wf_frame df = true -> wf_frame (clean_data df) = true.
Proof.
  intros Hwf. pose proof (wf_frame_columns df Hwf) as Hcols.
  pose proof Hwf as Hnd. unfold wf_frame in Hnd.
  apply andb_true_iff in Hnd. destruct Hnd as [Hnd _].
  unfold wf_frame. apply andb_true_iff. split.
  - apply nodupb_NoDup. rewrite names_clean. apply NoDup_map_filter.
    now apply nodupb_NoDup.
  - apply forallb_forall. intros c Hc. apply Nat.eqb_eq.
    unfold clean_data, dropna_all_columns in Hc. cbn [columns nrows] in *.
    apply in_map_iff in Hc. destruct Hc as [c0 [<- Hc0]].
    apply filter_In in Hc0. destruct Hc0 as [Hc0 _]. cbn [snd].
    rewrite clean_column_len. unfold series_len. now apply Hcols.
Qed.

(** X3. The Cleaner keeps a well-formed frame well-formed, and every column
    it keeps is a column of the input with the same number of cells and of
    the same kind: a numeric column stays numeric, a datetime column stays
    a datetime column, so what was eligible for the statistics, the
    correlation and the date accessor still is. *)
Theorem clean_data_keeps_kinds (df : DataFrame) :
  wf_frame df = true ->
  wf_frame (clean_data df) = true
  /\ forall label s',
       get_column label (clean_data df) = Some s' ->
       exists s,
         get_column label df = Some s
         /\ all_na s = false
         /\ series_len s' = series_len s
         /\ dtype_of s' = dtype_of s.
Proof.
  intros Hwf. pose proof Hwf as Hnd. unfold wf_frame in Hnd.
  apply andb_true_iff in Hnd. destruct Hnd as [Hnd _]. split.
  - now apply wf_clean_data.
  - intros label s' Hs'. rewrite (get_column_clean label df Hnd) in Hs'.
    destruct (get_column label df) as [s|]; [|discriminate].
    destruct (all_na s) eqn:Hall; [discriminate|]. injection Hs' as <-.
    exists s. split; [reflexivity|]. split; [exact Hall|].
    split; [apply clean_column_len | apply clean_column_dtype].
Qed.

(** A datetime column that holds a timestamp comes out of the Cleaner as
    it went in, NaT included. *)
Lemma clean_data_datetime (df : DataFrame) (label : string)
  (xs : list (option Z)) :
  nodupb (names df) = true ->
  get_column label df = Some (SDatetime xs) ->
  all_na (SDatetime xs) = false ->
  get_column label (clean_data df) = Some (SDatetime xs).
Proof.
  intros Hnd Hs Hall. now rewrite (get_column_clean _ _ Hnd), Hs, Hall.
Qed.

(** C6, at the failing input.  The [DATE] column of the dated rows is not
    numeric and has a missing cell, so the empty string is due there; after
    cleaning the cell is still missing: the fill does nothing to a datetime
    column. *)
Theorem clean_data_leaves_missing_dates :
  is_numeric Datetime64 = false
  /\ get_column "DATE" Sample.dated
     = Some (SDatetime [Some Sample.jan1; None; Some Sample.jan2])
  /\ get_column "DATE" (clean_data Sample.dated)
     = Some (SDatetime [Some Sample.jan1; None; Some Sample.jan2])
  /\ has_na (SDatetime [Some Sample.jan1; None; Some Sample.jan2]) = true
  /\ nth_error (to_objects (SDatetime [Some Sample.jan1; None; Some Sample.jan2])) 1
     = Some PyNaT.
Proof.
  split; [reflexivity|]. split; [reflexivity|].
  split; [now apply clean_data_datetime|]. split; reflexivity.
Qed.

(** X18. The Cleaner on a frame with distinct labels: a column all of whose
    cells were missing is absent; every other column is still there, of its
    kind, and its cells that were not missing are the cells they were; in a
    column that is not a datetime column no cell is missing afterwards: a
    missing cell holds zero in a numeric column and the empty string in a
    column of objects; no column is new, and the rows are as many as
    before. *)
Theorem clean_data_spec (df : DataFrame) :
  nodupb (names df) = true ->
  (forall label s, get_column label df = Some s -> all_na s = true ->
     get_column label (clean_data df) = None)
  /\ (forall label s, get_column label df = Some s -> all_na s = false ->
        exists s', get_column label (clean_data df) = Some s'
                   /\ dtype_of s' = dtype_of s
                   /\ (forall i o, nth_error (to_objects s) i = Some o ->
                         isna o = false ->
                         nth_error (to_objects s') i = Some o)
                   /\ (dtype_of s <> Datetime64 ->
                       has_na s' = false
                       /\ to_objects s'
                          = map (fun o => if isna o
                                          then (if is_numeric (dtype_of s)
                                                then PyFloat 0%float
                                                else PyStr "")
                                          else o)
                                (to_objects s)))
  /\ (forall label, get_column label df = None ->
        get_column label (clean_data df) = None)
  /\ nrows (clean_data df) = nrows df.
Proof.
  intros Hnd. pose proof (fun label => get_column_clean label df Hnd) as Hget.
  split; [|split; [|split]].
  - intros label s Hs Hall. now rewrite Hget, Hs, Hall.
  - intros label s Hs Hall. exists (clean_column s).
    rewrite Hget, Hs, Hall. split; [reflexivity|].
    split; [apply clean_column_dtype|]. split.
    + intros i o Hi Hna. rewrite clean_column_objects, nth_error_map, Hi.
      cbn [option_map]. now rewrite Hna.
    + intros Hk. split; [now apply clean_column_no_na|].
      rewrite clean_column_objects. apply map_ext. intros o.
      destruct (dtype_of s); try reflexivity. now contradiction Hk.
  - intros label Hs. now rewrite Hget, Hs.
  - reflexivity.
Qed.

(** ** Timestamp Synthesizer: running it again *)

Lemma assoc_set_known {A : Type} (k : string) (v : A) (l : list (string * A)) :
  assoc k l = Some v -> assoc_set k v l = l.
Proof.
  induction l as [|[k' w] rest IH]; simpl; [discriminate|].
  destruct (String.eqb k k'); [now intros [= ->] | intros H; now rewrite IH].
Qed.

Lemma set_column_known (label : string) (s : series) (df : DataFrame) :
  get_column label df = Some s -> set_column label s df = df.
Proof.
  intros H. destruct df as [n cols]. unfold set_column. cbn [nrows columns].
  f_equal. now apply assoc_set_known.
Qed.

Lemma filter_length_Permutation {A : Type} (f : A -> bool) (l l' : list A) :
  Permutation l l' -> length (List.filter f l) = length (List.filter f l').
Proof.
  induction 1 as [|x l l' _ IH|x y l|l l' l'' _ IH1 _ IH2]; cbn [List.filter].
  - reflexivity.
  - destruct (f x); cbn [length]; now rewrite IH.
  - now destruct (f x), (f y).
  - now rewrite IH1.
Qed.

Lemma filter_length_map {A B : Type} (f : B -> bool) (g : A -> B) (l : list A) :
  length (List.filter f (map g l)) = length (List.filter (fun x => f (g x)) l).
Proof.
  induction l as [|x l IH]; [reflexivity|]. cbn [map List.filter].
  destruct (f (g x)); cbn [length]; now rewrite IH.
Qed.

Section PipelineProperties.

Variable repr_float : float -> string.
Variable str_timestamp : Z -> string.
Variable parse_datetime : list (option string) -> string -> option Z.
Variable argsort : series -> outcome (list nat).

Local Abbreviation py_str := (py_str repr_float str_timestamp).
Local Abbreviation astype_str := (astype_str repr_float str_timestamp).
Local Abbreviation to_datetime := (to_datetime parse_datetime).
Local Abbreviation date_time_texts := (date_time_texts repr_float str_timestamp).
Local Abbreviation create_timestamp :=
  (create_timestamp repr_float str_timestamp parse_datetime).
Local Abbreviation process_data :=
  (process_data repr_float str_timestamp parse_datetime argsort).

Lemma astype_str_twice (s : series) : astype_str (astype_str s) = astype_str s.
Proof.
  unfold astype_str. cbn [to_objects]. now rewrite map_map.
Qed.

Lemma date_time_texts_astype (dates : list (option Z)) (s : series) :
  date_time_texts dates (to_objects (astype_str s))
  = date_time_texts dates (to_objects s).
Proof.
  unfold date_time_texts, astype_str. cbn [to_objects].
  generalize (to_objects s). intros os. revert os.
  induction dates as [|d dates IH]; intros [|o os]; simpl; try reflexivity.
  now rewrite IH.
Qed.

(** When the synthesizer has run, [DATE] was a datetime column. *)
Lemma create_timestamp_ran (df df' : DataFrame) :
  has_column "DATE" df && has_column "TIME" df = true ->
  create_timestamp df = Ok df' ->
  exists dates time,
    get_column "DATE" df = Some (SDatetime dates)
    /\ get_column "TIME" df = Some time
    /\ df' = set_column "TIMESTAMP"
               (to_datetime (date_time_texts dates (to_objects time)))
               (set_column "TIME" (astype_str time) df).
Proof.
  intros Hboth Hrun. pose proof Hboth as Hb.
  apply andb_true_iff in Hb. destruct Hb as [Hd Ht].
  destruct (has_column_get _ _ Hd) as [date Hdate].
  destruct (has_column_get _ _ Ht) as [time Htime].
  assert (Hkind : exists dates, date = SDatetime dates).
  { unfold create_timestamp in Hrun. rewrite Hboth in Hrun.
    unfold getitem in Hrun. rewrite Htime in Hrun. cbn [bind] in Hrun.
    rewrite get_set_other, Hdate in Hrun by discriminate. cbn [bind] in Hrun.
    destruct date; try discriminate. now eexists. }
  destruct Hkind as [dates ->]. exists dates, time.
  split; [exact Hdate|]. split; [exact Htime|].
  rewrite (create_timestamp_runs _ _ _ df dates time Hdate Htime) in Hrun.
  now injection Hrun as <-.
Qed.

(** X4. Running the synthesizer on its own result changes nothing: the texts of
    [TIME] are their own texts, and the timestamps are parsed from the same
    texts. *)
Theorem create_timestamp_idempotent (df df' : DataFrame) :
  create_timestamp df = Ok df' -> create_timestamp df' = Ok df'.
Proof.
  intros Hrun.
  destruct (has_column "DATE" df && has_column "TIME" df) eqn:Hboth.
  - destruct (create_timestamp_ran df df' Hboth Hrun)
      as [dates [time [Hdate [Htime ->]]]].
    set (df1 := set_column "TIME" (astype_str time) df).
    set (stamps := to_datetime (date_time_texts dates (to_objects time))).
    assert (HD : get_column "DATE" (set_column "TIMESTAMP" stamps df1)
                 = Some (SDatetime dates)).
    { unfold df1. now rewrite !get_set_other by discriminate. }
    assert (HT : get_column "TIME" (set_column "TIMESTAMP" stamps df1)
                 = Some (astype_str time)).
    { unfold df1. rewrite get_set_other by discriminate. apply get_set_same. }
    rewrite (create_timestamp_runs _ _ _ _ dates (astype_str time) HD HT).
    f_equal. rewrite astype_str_twice, date_time_texts_astype. fold stamps.
    rewrite (set_column_known "TIME" _ _ HT).
    apply set_column_known, get_set_same.
  - rewrite create_timestamp_skips in Hrun by exact Hboth.
    injection Hrun as <-. now apply create_timestamp_skips.
Qed.

(** The synthesizer keeps a well-formed frame well-formed. *)
Lemma wf_create_timestamp (df df' : DataFrame) :
  wf_frame df = true -> create_timestamp df = Ok df' -> wf_frame df' = true.
Proof.
  intros Hwf Hrun.
  destruct (has_column "DATE" df && has_column "TIME" df) eqn:Hboth.
  - destruct (create_timestamp_ran df df' Hboth Hrun)
      as [dates [time [Hdate [Htime ->]]]].
    pose proof (wf_frame_get df _ _ Hwf Hdate) as Hld.
    pose proof (wf_frame_get df _ _ Hwf Htime) as Hlt.
    cbn [to_objects] in Hld. rewrite List.length_map in Hld.
    apply wf_set_column.
    + apply wf_set_column; [exact Hwf|]. unfold series_len, astype_str.
      cbn [to_objects]. now rewrite List.length_map.
    + unfold series_len, to_datetime. cbn [to_objects set_column nrows].
      rewrite !List.length_map, date_time_texts_length; congruence.
  - rewrite create_timestamp_skips in Hrun by exact Hboth. congruence.
Qed.

(** ** Pipeline *)

(** X6. Without values in [DATE] or in [TIME], and without a [TIMESTAMP] column
    that has values, the pipeline is the Cleaner: no timestamp is built and
    nothing is sorted. *)
Theorem process_data_without_dates (df : DataFrame) :
  nodupb (names df) = true ->
  without_values "DATE" df || without_values "TIME" df = true ->
  without_values "TIMESTAMP" df = true ->
  process_data df = Ok (clean_data df).
Proof.
  intros Hnd Hdt Hts. unfold process_data. cbn zeta.
  rewrite create_timestamp_skips.
  - cbn [bind]. now rewrite (has_column_clean _ _ Hnd), Hts.
  - rewrite !(has_column_clean _ _ Hnd).
    now destruct (without_values "DATE" df), (without_values "TIME" df).
Qed.

Lemma to_objects_take (positions : list nat) (s : series) :
  (forall i, In i positions -> (i < series_len s)%nat) ->
  to_objects (series_take positions s)
  = map (fun i => nth i (to_objects s) PyNone) positions.
Proof.
  unfold series_len. intros H.
  destruct s as [xs|xs|xs|xs|xs]; cbn [series_take to_objects] in *;
    rewrite ?map_map; try reflexivity;
    apply map_ext_in; intros i Hi; specialize (H i Hi);
    rewrite List.length_map in H; symmetry; now apply nth_map_in.
Qed.

(** The rows at the given positions are the rows of the taken frame. *)
Lemma rows_take (positions : list nat) (df : DataFrame) :
  wf_frame df = true ->
  (forall i, In i positions -> (i < nrows df)%nat) ->
  rows (take_rows positions df) = map (row_at df) positions.
Proof.
  intros Hwf Hpos. pose proof (wf_frame_columns df Hwf) as Hcols.
  unfold rows. cbn [take_rows nrows].
  rewrite (seq_positions positions) at 3. rewrite map_map.
  apply map_ext_in. intros j Hj. apply in_seq in Hj.
  unfold row_at, take_rows. cbn [columns]. rewrite map_map.
  apply map_ext_in. intros c Hc. cbn [fst snd]. f_equal.
  rewrite to_objects_take.
  - now rewrite (nth_map_in _ _ _ O) by lia.
  - intros i Hi. unfold series_len. rewrite (Hcols c Hc). now apply Hpos.
Qed.

Lemma names_take (positions : list nat) (df : DataFrame) :
  names (take_rows positions df) = names df.
Proof. unfold names, take_rows. cbn [columns]. rewrite map_map. now apply map_ext. Qed.

(** What the theorem below asks of the sorting kernel: the order it returns
    is an arrangement of the positions of the column. *)
Hypothesis argsort_arranges :
  forall key positions,
    argsort key = Ok positions -> Permutation positions (seq 0 (series_len key)).

(** X7. Sorting loses no row, repeats none and changes none: when the pipeline
    returns, the rows of its result are the rows of the cleaned and
    timestamped frame in some order, under the same labels. *)
Theorem process_data_arranges_rows (df out : DataFrame) :
  wf_frame df = true ->
  process_data df = Ok out ->
  exists mid,
    create_timestamp (clean_data df) = Ok mid
    /\ names out = names mid
    /\ nrows out = nrows mid
    /\ Permutation (rows out) (rows mid).
Proof.
  intros Hwf Hrun. unfold process_data in Hrun. cbn zeta in Hrun.
  destruct (create_timestamp (clean_data df)) as [mid|e] eqn:Hmid;
    [|discriminate].
  cbn [bind] in Hrun. exists mid. split; [reflexivity|].
  assert (Hwfm : wf_frame mid = true).
  { apply (wf_create_timestamp (clean_data df)); [|exact Hmid].
    now apply wf_clean_data. }
  destruct (has_column "TIMESTAMP" mid).
  - unfold sort_values, getitem in Hrun.
    destruct (get_column "TIMESTAMP" mid) as [key|] eqn:Hkey; [|discriminate].
    cbn [bind] in Hrun.
    destruct (argsort key) as [positions|e] eqn:Hsort; [|discriminate].
    cbn [bind] in Hrun. injection Hrun as <-.
    pose proof (argsort_arranges key positions Hsort) as Hperm.
    unfold series_len in Hperm. rewrite (wf_frame_get mid _ _ Hwfm Hkey) in Hperm.
    split; [apply names_take|]. split.
    + cbn [take_rows nrows]. rewrite (Permutation_length Hperm).
      apply List.length_seq.
    + rewrite rows_take; [|exact Hwfm|].
      * unfold rows. now apply Permutation_map.
      * intros i Hi. apply (Permutation_in _ Hperm) in Hi.
        apply in_seq in Hi. lia.
  - injection Hrun as <-. repeat split. apply Permutation_refl.
Qed.

(** X5. A row without a date stays in the pipeline: for a well-formed frame
    whose [DATE] is a datetime column that holds a date and whose [TIME]
    holds a value, when the pipeline returns its result has the rows of the
    frame, as many of them without a date as the frame has, and every row
    without a date has no timestamp either. *)
Theorem process_data_keeps_rows_without_date (df out : DataFrame)
  (dates : list (option Z)) (time : series) :
  wf_frame df = true ->
  get_column "DATE" df = Some (SDatetime dates) ->
  all_na (SDatetime dates) = false ->
  get_column "TIME" df = Some time ->
  all_na time = false ->
  process_data df = Ok out ->
  nrows out = nrows df
  /\ (forall row, In row (rows out) ->
        holds_nat "DATE" row = true -> holds_nat "TIMESTAMP" row = true)
  /\ length (List.filter (holds_nat "DATE") (rows out))
     = length (List.filter is_none dates).
Proof.
  intros Hwf Hdate Hall Htime Hallt Hrun.
  pose proof Hwf as Hnd. unfold wf_frame in Hnd.
  apply andb_true_iff in Hnd. destruct Hnd as [Hnd _].
  pose proof (wf_clean_data df Hwf) as Hwfc.
  assert (HD : get_column "DATE" (clean_data df) = Some (SDatetime dates))
    by now apply clean_data_datetime.
  assert (HT : get_column "TIME" (clean_data df) = Some (clean_column time))
    by (now rewrite (get_column_clean _ _ Hnd), Htime, Hallt).
  pose proof (create_timestamp_runs repr_float str_timestamp parse_datetime
                (clean_data df) dates (clean_column time) HD HT) as Hmid.
  unfold process_data in Hrun. cbn zeta in Hrun.
  rewrite Hmid in Hrun. cbn [bind] in Hrun.
  set (times := to_objects (clean_column time)) in *.
  set (stamps := to_datetime (date_time_texts dates times)) in *.
  set (mid := set_column "TIMESTAMP" stamps
                (set_column "TIME" (astype_str (clean_column time)) (clean_data df)))
    in *.
  assert (Hwfm : wf_frame mid = true)
    by exact (wf_create_timestamp (clean_data df) mid Hwfc Hmid).
  assert (Hkey : get_column "TIMESTAMP" mid = Some stamps) by apply get_set_same.
  assert (Hmd : get_column "DATE" mid = Some (SDatetime dates)).
  { unfold mid. now rewrite !get_set_other by discriminate. }
  assert (Hn : nrows mid = nrows df) by reflexivity.
  assert (Hld : length dates = nrows df).
  { pose proof (wf_frame_get df _ _ Hwf Hdate) as H.
    cbn [to_objects] in H. now rewrite List.length_map in H. }
  assert (Hlt : length times = nrows df)
    by exact (wf_frame_get (clean_data df) _ _ Hwfc HT).
  rewrite (get_has_column _ _ _ Hkey) in Hrun.
  unfold sort_values, getitem in Hrun. rewrite Hkey in Hrun. cbn [bind] in Hrun.
  destruct (argsort stamps) as [positions|e] eqn:Hsort; [|discriminate].
  cbn [bind] in Hrun. injection Hrun as <-.
  pose proof (argsort_arranges stamps positions Hsort) as Hperm.
  unfold series_len in Hperm.
  rewrite (wf_frame_get mid _ _ Hwfm Hkey), Hn in Hperm.
  assert (Hpos : forall i, In i positions -> (i < nrows df)%nat).
  { intros i Hi. apply (Permutation_in _ Hperm) in Hi.
    apply in_seq in Hi. lia. }
  assert (Hrows : rows (take_rows positions mid) = map (row_at mid) positions)
    by (apply rows_take; [exact Hwfm | now rewrite Hn]).
  assert (Hdate_at : forall i, (i < nrows df)%nat ->
             holds_nat "DATE" (row_at mid i) = is_none (nth i dates None)).
  { intros i Hi. unfold holds_nat. rewrite assoc_row_at, Hmd.
    cbn [option_map to_objects].
    rewrite (nth_map_in _ _ _ None) by lia. now destruct (nth i dates None). }
  assert (Hstamp_at : forall i, (i < nrows df)%nat ->
             nth i dates None = None ->
             holds_nat "TIMESTAMP" (row_at mid i) = true).
  { intros i Hi Hnone. unfold holds_nat. rewrite assoc_row_at, Hkey.
    unfold stamps, to_datetime. cbn [option_map to_objects].
    rewrite (nth_map_in _ _ _ None)
      by (rewrite List.length_map, date_time_texts_length; lia).
    rewrite (to_datetime_nth repr_float str_timestamp parse_datetime)
      by lia.
    now rewrite Hnone. }
  split; [|split].
  - cbn [take_rows nrows]. rewrite (Permutation_length Hperm).
    apply List.length_seq.
  - intros row Hrow Hd. rewrite Hrows in Hrow. apply in_map_iff in Hrow.
    destruct Hrow as [i [<- Hi]]. pose proof (Hpos i Hi) as Hlt'.
    rewrite (Hdate_at i Hlt') in Hd. apply (Hstamp_at i Hlt').
    now destruct (nth i dates None).
  - rewrite Hrows.
    rewrite (filter_length_Permutation _ _ _
               (Permutation_map (row_at mid) Hperm)).
    rewrite filter_length_map.
    rewrite (List.filter_ext_in _ (fun i => is_none (nth i dates None)))
      by (intros i Hi; apply in_seq in Hi; apply Hdate_at; lia).
    rewrite <- (filter_length_map is_none (fun i => nth i dates None)).
    rewrite <- Hld. now rewrite <- (list_positions None dates).
Qed.

End PipelineProperties.

(** ** Merger: a single frame *)

Lemma dedup_from_fresh (seen l : list string) :
  List.NoDup l -> (forall x, In x l -> ~ In x seen) -> dedup_from seen l = l.
Proof.
  revert seen. induction l as [|y l IH]; intros seen Hnd Hfresh; simpl;
    [reflexivity|].
  inversion Hnd as [|? ? Hnin Hnd']; subst.
  destruct (existsb (String.eqb y) seen) eqn:E.
  - exfalso. apply (Hfresh y); [now left|]. now apply mem_In.
  - f_equal. apply IH; [exact Hnd'|].
    intros x Hx [<-|Hs]; [contradiction|]. apply (Hfresh x); [now right | exact Hs].
Qed.

Lemma In_assoc {A : Type} (label : string) (v : A) (l : list (string * A)) :
  List.NoDup (map fst l) -> In (label, v) l -> assoc label l = Some v.
Proof.
  induction l as [|[k w] rest IH]; simpl; [tauto|].
  intros Hnd Hin. inversion Hnd as [|? ? Hnin Hnd']; subst.
  destruct Hin as [[= -> ->]|Hin]; [now rewrite String.eqb_refl|].
  destruct (String.eqb label k) eqn:E; [|now apply IH].
  apply String.eqb_eq in E. subst. exfalso. apply Hnin.
  apply in_map_iff. now exists (k, v).
Qed.

(** Packing the cells of a column into an array of its own kind gives the
    column back. *)
Lemma of_objects_to_objects (s : series) : of_objects (dtype_of s) (to_objects s) = s.
Proof.
  destruct s as [xs|xs|xs|xs|xs]; cbn [dtype_of to_objects of_objects];
    try reflexivity; f_equal; rewrite map_map; apply map_id_in;
    intros x _; try reflexivity.
  now destruct x.
Qed.

Lemma common_dtype_single (d : dtype) : common_dtype [d] false = d.
Proof. now destruct d. Qed.

(** X8. Merging one well-formed frame gives the frame back: labels, kinds,
    cells and row count. *)
Theorem merge_single_frame (df : DataFrame) :
  wf_frame df = true -> merge_dataframes [df] = Ok df.
Proof.
  intros Hwf. pose proof Hwf as Hnd. unfold wf_frame in Hnd.
  apply andb_true_iff in Hnd. destruct Hnd as [Hnd _].
  apply nodupb_NoDup in Hnd.
  unfold merge_dataframes, concat. destruct df as [n cols].
  unfold names in Hnd. cbn [columns] in Hnd. f_equal.
  cbn [map nrows list_sum fold_right]. rewrite Nat.add_0_r. f_equal.
  unfold union_labels. cbn [flat_map]. rewrite app_nil_r.
  rewrite dedup_from_fresh by (exact Hnd || (intros x _ [])).
  unfold names. cbn [columns]. rewrite map_map. apply map_id_in.
  intros [k s] Hin. cbn [fst]. f_equal.
  pose proof (In_assoc k s cols Hnd Hin) as Hget.
  unfold concat_column, concat_dtype, present_dtypes, piece, has_column,
    get_column, names. cbn [flat_map existsb columns]. rewrite Hget.
  assert (Hmem : existsb (String.eqb k) (map fst cols) = true).
  { apply (mem_In k (map fst cols)). apply in_map_iff. now exists (k, s). }
  rewrite Hmem. cbn [negb orb app]. rewrite app_nil_r, common_dtype_single.
  apply of_objects_to_objects.
Qed.

(** ** Filtering: applying a Filter Spec again *)

Section FilterAgain.

Variable cell_eq : pyobj -> pyobj -> bool.
Variable cell_isin : pyobj -> list pyobj -> bool.

Local Abbreviation filter_data := (filter_data cell_eq cell_isin).
Local Abbreviation row_kept := (row_kept cell_eq cell_isin).

(** X9. Filtering the filtered frame by the same Filter Spec removes no further
    row; and filtering by one Filter Spec and then by another is filtering
    by the two together. *)
Theorem filter_data_idempotent (df : DataFrame)
  (filters : list (string * filter_value)) :
  wf_frame df = true ->
  filter_data (filter_data df filters) filters = filter_data df filters
  /\ forall more,
       filter_data (filter_data df filters) more
       = filter_data df (filters ++ more).
Proof.
  intros Hwf. split.
  - rewrite (filter_data_select _ _ filters df Hwf).
    set (mask := map (row_kept df filters) (rows df)).
    assert (Hwfs : wf_frame (select_rows mask df) = true)
      by now apply wf_frame_select.
    rewrite (filter_data_select _ _ filters _ Hwfs).
    apply select_rows_all; [exact Hwfs | |].
    + rewrite (rows_select _ df Hwf). unfold mask. rewrite mask_filter_self.
      apply forallb_forall. intros b Hb. apply in_map_iff in Hb.
      destruct Hb as [r [<- Hr]]. apply filter_In in Hr.
      unfold id. rewrite row_kept_select. tauto.
    + now rewrite List.length_map, rows_length.
  - intros more. unfold filter_data. now rewrite fold_left_app.
Qed.

(** X10. Filtering changes the rows only: the result is well-formed, has no more
    rows than the frame, and has the columns of the frame, each of its
    kind. *)
Theorem filter_data_keeps_columns (df : DataFrame)
  (filters : list (string * filter_value)) :
  wf_frame df = true ->
  wf_frame (filter_data df filters) = true
  /\ (nrows (filter_data df filters) <= nrows df)%nat
  /\ names (filter_data df filters) = names df
  /\ forall label s,
       get_column label df = Some s ->
       exists s',
         get_column label (filter_data df filters) = Some s'
         /\ dtype_of s' = dtype_of s
         /\ series_len s' = nrows (filter_data df filters).
Proof.
  intros Hwf. rewrite (filter_data_select _ _ filters df Hwf).
  set (mask := map (row_kept df filters) (rows df)).
  assert (Hwfs : wf_frame (select_rows mask df) = true)
    by now apply wf_frame_select.
  split; [exact Hwfs|]. split; [|split].
  - rewrite <- (rows_length (select_rows mask df)), (rows_select _ df Hwf).
    unfold mask. rewrite mask_filter_self, <- (rows_length df).
    apply List.filter_length_le.
  - apply names_select.
  - intros label s Hs. exists (series_select mask s). split; [|split].
    + rewrite get_column_select. now rewrite Hs.
    + apply dtype_of_select.
    + apply (wf_frame_get _ label); [exact Hwfs|].
      rewrite get_column_select. now rewrite Hs.
Qed.

End FilterAgain.

(** ** Correlation: candidates that are not numeric *)

Lemma numeric_candidates_again (df : DataFrame) (labels : list string) :
  numeric_candidates df (map fst (numeric_candidates df labels))
  = numeric_candidates df labels.
Proof.
  induction labels as [|l labels IH]; [reflexivity|].
  unfold numeric_candidates in *. cbn [flat_map].
  rewrite List.map_app, flat_map_app, IH. f_equal.
  destruct (get_column l df) as [s|] eqn:Hs; [|reflexivity].
  destruct (is_numeric (dtype_of s)) eqn:Hn; [|reflexivity].
  cbn [map fst flat_map]. now rewrite Hs, Hn.
Qed.

(** X11. Candidates that are columns of another kind than float64 and int64 have
    no part in the result: it is the result for the numeric candidates
    alone. *)
Theorem correlation_ignores_other_kinds
  (pearson : list float -> list float -> float) (round2 : float -> float)
  (df : DataFrame) (columns : list string) :
  forallb (fun label => has_column label df) columns = true ->
  get_correlation_data pearson round2 df columns
  = get_correlation_data pearson round2 df
      (map fst (numeric_candidates df columns)).
Proof.
  intros Hall.
  assert (Hall' : forallb (fun label => has_column label df)
                          (map fst (numeric_candidates df columns)) = true).
  { apply forallb_forall. intros l Hl.
    apply numeric_candidates_names in Hl.
    rewrite forallb_forall in Hall. now apply Hall. }
  destruct (select_numeric_getitem df columns Hall) as [sel [Hsel [Hn Hc]]].
  destruct (select_numeric_getitem df _ Hall') as [sel' [Hsel' [Hn' Hc']]].
  rewrite numeric_candidates_again in Hc'.
  unfold get_correlation_data. rewrite Hsel, Hsel'. cbn [bind].
  assert (Heq : select_numeric sel = select_numeric sel').
  { destruct (select_numeric sel), (select_numeric sel').
    cbn [nrows] in Hn, Hn'. cbn in Hc, Hc'. congruence. }
  now rewrite Heq.
Qed.

(** ** Summary statistics *)

Lemma insert_by_Permutation {A : Type} (leb : A -> A -> bool) (x : A) (l : list A) :
  Permutation (insert_by leb x l) (x :: l).
Proof.
  induction l as [|y l IH]; simpl; [reflexivity|].
  destruct (leb x y); [reflexivity|].
  apply Permutation_trans with (y :: x :: l); [now constructor | apply perm_swap].
Qed.

Lemma sort_by_Permutation {A : Type} (leb : A -> A -> bool) (l : list A) :
  Permutation (sort_by leb l) l.
Proof.
  induction l as [|x l IH]; [reflexivity|].
  unfold sort_by in *. cbn [fold_right].
  apply Permutation_trans with (x :: fold_right (insert_by leb) [] l);
    [apply insert_by_Permutation | now constructor].
Qed.

Lemma sort_by_sorted {A : Type} (leb : A -> A -> bool) (l : list A) :
  (forall a b, leb a b = false -> leb b a = true) ->
  (forall a b c, leb a b = true -> leb b c = true -> leb a c = true) ->
  StronglySorted (fun a b => leb a b = true) (sort_by leb l).
Proof.
  intros Htotal Htrans.
  assert (Hins : forall x l', StronglySorted (fun a b => leb a b = true) l' ->
                   StronglySorted (fun a b => leb a b = true) (insert_by leb x l')).
  { intros x l'. induction l' as [|y l' IH]; intros Hs; simpl.
    - constructor; constructor.
    - inversion Hs as [|? ? Hs' Hall]; subst. destruct (leb x y) eqn:E.
      + constructor; [exact Hs|]. constructor; [exact E|].
        eapply List.Forall_impl; [|exact Hall]. intros z Hz.
        now apply (Htrans x y z).
      + constructor; [now apply IH|].
        apply (Permutation_Forall (Permutation_sym (insert_by_Permutation leb x l'))).
        constructor; [now apply Htotal | exact Hall]. }
  induction l as [|x l IH]; [constructor|].
  unfold sort_by in *. cbn [fold_right]. now apply Hins.
Qed.

Lemma StronglySorted_weaken {A : Type} (R R' : A -> A -> Prop) (l : list A) :
  (forall a b, R a b -> R' a b) -> StronglySorted R l -> StronglySorted R' l.
Proof.
  intros Himp. induction 1 as [|a l Hs IH Hall]; constructor; [exact IH|].
  eapply List.Forall_impl; [|exact Hall]. intros b. apply Himp.
Qed.

Lemma list_sum_Permutation (l l' : list nat) :
  Permutation l l' -> list_sum l = list_sum l'.
Proof. induction 1; simpl; lia. Qed.

Lemma list_sum_map_add {A : Type} (f g : A -> nat) (l : list A) :
  list_sum (map (fun x => (f x + g x)%nat) l)
  = (list_sum (map f l) + list_sum (map g l))%nat.
Proof. induction l as [|x l IH]; simpl; lia. Qed.

Section Counting.

Variable A : Type.
Variable eqb : A -> A -> bool.
Variable P : A -> Prop.

(** On the values in question the key equality is equality. *)
Hypothesis eqb_eq : forall x y, P x -> P y -> (eqb x y = true <-> x = y).

Lemma unique_by_In (l : list A) (x : A) : In x (unique_by eqb l) -> In x l.
Proof.
  induction l as [|a l IH]; simpl; [tauto|].
  intros [H|H]; [now left|]. apply filter_In in H. right. now apply IH.
Qed.

Lemma unique_by_complete (l : list A) (x : A) :
  List.Forall P l -> In x l -> In x (unique_by eqb l).
Proof.
  induction l as [|a l IH]; simpl; [tauto|].
  intros HF Hin. inversion HF as [|? ? Ha HF']; subst.
  destruct Hin as [->|Hin]; [now left|].
  assert (Hx : P x) by (rewrite List.Forall_forall in HF'; now apply HF').
  destruct (eqb a x) eqn:E.
  - left. now apply eqb_eq.
  - right. apply filter_In. split; [now apply IH | now rewrite E].
Qed.

Lemma unique_by_NoDup (l : list A) :
  List.Forall P l -> List.NoDup (unique_by eqb l).
Proof.
  induction l as [|a l IH]; intros HF; simpl; [constructor|].
  inversion HF as [|? ? Ha HF']; subst. constructor.
  - intros H. apply filter_In in H. destruct H as [_ H].
    assert (E : eqb a a = true) by now apply eqb_eq.
    rewrite E in H. discriminate.
  - apply List.NoDup_filter. now apply IH.
Qed.

Lemma count_none (keys : list A) (y : A) :
  P y -> List.Forall P keys -> ~ In y keys ->
  list_sum (map (fun k => if eqb k y then 1%nat else 0%nat) keys) = 0%nat.
Proof.
  intros Hy. induction keys as [|a keys IH]; intros HF Hnin; simpl; [reflexivity|].
  inversion HF as [|? ? Ha HF']; subst.
  destruct (eqb a y) eqn:E.
  - exfalso. apply Hnin. left. now apply eqb_eq.
  - apply IH; [exact HF'|]. intros H. apply Hnin. now right.
Qed.

Lemma count_one (keys : list A) (y : A) :
  List.NoDup keys -> List.Forall P keys -> In y keys ->
  list_sum (map (fun k => if eqb k y then 1%nat else 0%nat) keys) = 1%nat.
Proof.
  induction keys as [|a keys IH]; intros Hnd HF Hin; simpl; [destruct Hin|].
  inversion Hnd as [|? ? Hnin Hnd']; subst.
  inversion HF as [|? ? Ha HF']; subst.
  destruct Hin as [->|Hin].
  - assert (E : eqb y y = true) by now apply eqb_eq.
    rewrite E. now rewrite count_none.
  - assert (Hy : P y) by (rewrite List.Forall_forall in HF'; now apply HF').
    destruct (eqb a y) eqn:E.
    + apply eqb_eq in E; [|exact Ha|exact Hy]. subst. contradiction.
    + now apply IH.
Qed.

(** Counting the values of a list by distinct keys that cover it counts
    every value once. *)
Lemma double_count (keys l : list A) :
  List.NoDup keys -> List.Forall P keys -> (forall y, In y l -> In y keys) ->
  list_sum (map (fun k => length (List.filter (eqb k) l)) keys) = length l.
Proof.
  intros Hnd HF. induction l as [|y l IH]; intros Hcover.
  - cbn [List.filter length]. induction keys as [|k keys IHk]; [reflexivity|].
    simpl. inversion Hnd; inversion HF; subst. now apply IHk.
  - rewrite (map_ext _ (fun k => ((if eqb k y then 1 else 0)
                                   + length (List.filter (eqb k) l))%nat)).
    + rewrite list_sum_map_add, count_one, IH; try assumption.
      * reflexivity.
      * intros z Hz. apply Hcover. now right.
      * apply Hcover. now left.
    + intros k. cbn [List.filter]. now destruct (eqb k y).
Qed.

End Counting.

Lemma fold_min_spec (t : Z) (rest : list Z) :
  In (fold_right Z.min t rest) (t :: rest)
  /\ forall x, In x (t :: rest) -> fold_right Z.min t rest <= x.
Proof.
  induction rest as [|a rest [IHin IHle]]; cbn [fold_right].
  - split; [now left|]. intros x [<-|[]]. lia.
  - split.
    + destruct (Z.min_spec a (fold_right Z.min t rest)) as [[_ ->]|[_ ->]].
      * right. now left.
      * destruct IHin as [H|H]; [now left | right; now right].
    + intros x [<-|[<-|H]].
      * specialize (IHle t (or_introl eq_refl)). lia.
      * lia.
      * specialize (IHle x (or_intror H)). lia.
Qed.

Lemma fold_max_spec (t : Z) (rest : list Z) :
  In (fold_right Z.max t rest) (t :: rest)
  /\ forall x, In x (t :: rest) -> x <= fold_right Z.max t rest.
Proof.
  induction rest as [|a rest [IHin IHle]]; cbn [fold_right].
  - split; [now left|]. intros x [<-|[]]. lia.
  - split.
    + destruct (Z.max_spec a (fold_right Z.max t rest)) as [[_ ->]|[_ ->]].
      * destruct IHin as [H|H]; [now left | right; now right].
      * right. now left.
    + intros x [<-|[<-|H]].
      * specialize (IHle t (or_introl eq_refl)). lia.
      * lia.
      * specialize (IHle x (or_intror H)). lia.
Qed.

Lemma stamps_of_In (xs : list (option Z)) (t : Z) :
  In t (stamps_of xs) <-> In (Some t) xs.
Proof.
  unfold stamps_of. rewrite in_flat_map. split.
  - intros [[ns|] [Hx H]]; [|destruct H]. destruct H as [<-|[]]. exact Hx.
  - intros H. exists (Some t). split; [exact H | now left].
Qed.

Lemma count_text_filter (name : string) (os : list pyobj) :
  count_text name (List.filter (fun o => negb (isna o)) os) = count_text name os.
Proof.
  unfold count_text. induction os as [|o os IH]; [reflexivity|].
  cbn [List.filter]. destruct o; cbn [isna negb List.filter length];
    try exact IH; try (destruct (PrimFloat.is_nan _); cbn [negb List.filter]; exact IH).
  destruct (String.eqb _ name); cbn [length]; now rewrite IH.
Qed.

Lemma count_text_pos (name : string) (os : list pyobj) :
  (0 < count_text name os)%nat <-> In (PyStr name) os.
Proof.
  unfold count_text. induction os as [|o os IH]; cbn [List.filter length In].
  - split; [lia | tauto].
  - destruct o; try (rewrite IH; split; [tauto | intros [H|H]; [discriminate | exact H]]).
    destruct (String.eqb s name) eqn:E.
    + apply String.eqb_eq in E. subst. cbn [length]. split; [now left | lia].
    + apply String.eqb_neq in E. rewrite IH. split; [tauto|].
      intros [[= H]|H]; [contradiction | exact H].
Qed.

Lemma is_text_inv (o : pyobj) : is_text o = true -> exists name, o = PyStr name.
Proof. destruct o; try discriminate. now eexists. Qed.

Lemma unique_by_repeat {A : Type} (eqb : A -> A -> bool) (x : A) (n : nat) :
  eqb x x = true -> unique_by eqb (repeat x (S n)) = [x].
Proof.
  intros E. induction n as [|n IH]; [reflexivity|].
  change (unique_by eqb (repeat x (S (S n))))
    with (x :: List.filter (fun y => negb (eqb x y)) (unique_by eqb (repeat x (S n)))).
  rewrite IH. cbn [List.filter]. now rewrite E.
Qed.

Lemma filter_repeat_all {A : Type} (f : A -> bool) (x : A) (n : nat) :
  f x = true -> List.filter f (repeat x n) = repeat x n.
Proof.
  intros E. induction n as [|n IH]; [reflexivity|].
  cbn [repeat List.filter]. now rewrite E, IH.
Qed.

Lemma get_column_take (positions : list nat) (label : string) (df : DataFrame) :
  get_column label (take_rows positions df)
  = option_map (series_take positions) (get_column label df).
Proof. unfold get_column, take_rows. cbn [columns]. apply assoc_map_snd. Qed.

Section CountProperties.

Variable key_eq : pyobj -> pyobj -> bool.

Local Abbreviation value_counts := (value_counts key_eq).

Lemma count_key_text (name : string) (os : list pyobj) :
  (forall a b, key_eq (PyStr a) (PyStr b) = String.eqb a b) ->
  List.Forall (fun o => is_text o = true) os ->
  length (List.filter (key_eq (PyStr name)) os) = count_text name os.
Proof.
  intros Htext HP. unfold count_text.
  induction os as [|o os IH]; [reflexivity|].
  inversion HP as [|? ? Ho HP']; subst.
  destruct (is_text_inv o Ho) as [t ->]. cbn [List.filter].
  rewrite Htext, (String.eqb_sym name t).
  destruct (String.eqb t name); cbn [length]; now rewrite IH.
Qed.

(** X12. The counts of a column of texts: one entry for every text of the
    column, with the number of cells that hold it; missing cells are not
    counted, so the counts add up to the number of cells that hold a text;
    the most frequent text comes first. *)
Theorem value_counts_of_texts (s : series) :
  (forall a b, key_eq (PyStr a) (PyStr b) = String.eqb a b) ->
  forallb (fun o => isna o || is_text o) (to_objects s) = true ->
  List.NoDup (map fst (value_counts s))
  /\ (forall k n,
        In (k, n) (value_counts s) <->
        exists name,
          k = PyStr name /\ n = count_text name (to_objects s) /\ (0 < n)%nat)
  /\ list_sum (map snd (value_counts s))
     = length (List.filter (fun o => negb (isna o)) (to_objects s))
  /\ StronglySorted (fun a b => (snd b <= snd a)%nat) (value_counts s).
Proof.
  intros Htext Hcol. unfold value_counts.
  set (present := List.filter (fun o => negb (isna o)) (to_objects s)).
  set (keys := unique_by key_eq present).
  set (entry := fun k => (k, length (List.filter (key_eq k) present))).
  set (leb := fun a b : pyobj * nat => Nat.leb (snd b) (snd a)).
  pose proof (sort_by_Permutation leb (map entry keys)) as Hperm.
  set (P := fun o => is_text o = true).
  assert (Hdec : forall x y, P x -> P y -> (key_eq x y = true <-> x = y)).
  { intros x y Hx Hy. destruct (is_text_inv x Hx) as [a ->].
    destruct (is_text_inv y Hy) as [b ->]. rewrite Htext, String.eqb_eq.
    split; [now intros -> | now intros [= ->]]. }
  assert (HP : List.Forall P present).
  { apply List.Forall_forall. intros o Ho. apply filter_In in Ho.
    destruct Ho as [Ho Hna]. rewrite forallb_forall in Hcol.
    specialize (Hcol o Ho). unfold P. destruct (isna o); [discriminate | exact Hcol]. }
  assert (HPk : List.Forall P keys).
  { apply List.Forall_forall. intros o Ho. apply unique_by_In in Ho.
    rewrite List.Forall_forall in HP. now apply HP. }
  assert (Hnd : List.NoDup keys) by now apply (unique_by_NoDup _ key_eq P).
  assert (Hcount : forall name,
             length (List.filter (key_eq (PyStr name)) present)
             = count_text name (to_objects s)).
  { intros name. rewrite (count_key_text name present Htext HP).
    apply count_text_filter. }
  assert (Hfst : map fst (map entry keys) = keys).
  { rewrite map_map. now apply map_id_in. }
  split; [|split; [|split]].
  - apply (Permutation_NoDup (l := map fst (map entry keys)));
      [|now rewrite Hfst].
    apply Permutation_map. now apply Permutation_sym.
  - intros k n. split.
    + intros Hin. apply (Permutation_in _ Hperm) in Hin.
      apply in_map_iff in Hin. destruct Hin as [k' [[= <- <-] Hk]].
      pose proof Hk as Hpk. rewrite List.Forall_forall in HPk.
      apply HPk, is_text_inv in Hpk. destruct Hpk as [name ->].
      exists name. split; [reflexivity|]. rewrite Hcount.
      split; [reflexivity|]. apply count_text_pos.
      apply unique_by_In in Hk. apply filter_In in Hk. tauto.
    + intros [name [-> [-> Hpos]]]. apply count_text_pos in Hpos.
      apply (Permutation_in _ (Permutation_sym Hperm)).
      apply in_map_iff. exists (PyStr name). unfold entry.
      split; [now rewrite Hcount|].
      apply (unique_by_complete _ key_eq P Hdec); [exact HP|].
      apply filter_In. split; [exact Hpos | reflexivity].
  - rewrite (list_sum_Permutation _ _ (Permutation_map snd Hperm)).
    rewrite map_map. cbn [entry snd].
    apply (double_count _ key_eq P Hdec); [exact Hnd | exact HPk |].
    intros y Hy. now apply (unique_by_complete _ key_eq P Hdec).
  - assert (Hs : StronglySorted (fun a b => leb a b = true)
                                (sort_by leb (map entry keys))).
    { apply sort_by_sorted; unfold leb.
      - intros a b H. apply Nat.leb_gt in H. apply Nat.leb_le. lia.
      - intros a b c H1 H2. apply Nat.leb_le in H1, H2. apply Nat.leb_le. lia. }
    eapply StronglySorted_weaken; [|exact Hs].
    intros a b H. now apply Nat.leb_le.
Qed.

End CountProperties.

Section SummaryProperties.

Variable key_eq : pyobj -> pyobj -> bool.
Variable isoformat : Z -> string.
Variable other_range : series -> outcome (option string * option string).
Variable nanmin nanmax nanmean nanmedian : list float -> float.

Local Abbreviation value_counts := (value_counts key_eq).
Local Abbreviation counts_of := (counts_of key_eq).
Local Abbreviation date_range_of := (date_range_of isoformat other_range).
Local Abbreviation numeric_summary_of :=
  (numeric_summary_of nanmin nanmax nanmean nanmedian).
Local Abbreviation get_summary_stats :=
  (get_summary_stats key_eq isoformat other_range nanmin nanmax nanmean nanmedian).

Lemma date_range_of_datetime (df : DataFrame) (stamps : list (option Z)) :
  get_column "TIMESTAMP" df = Some (SDatetime stamps) ->
  date_range_of df
  = Ok (Some (option_map (fun e => isoformat (fst e)) (extremes (stamps_of stamps)),
              option_map (fun e => isoformat (snd e)) (extremes (stamps_of stamps)))).
Proof.
  intros H. unfold date_range_of, getitem.
  now rewrite (get_has_column _ _ _ H), H.
Qed.

Lemma summary_fields (df : DataFrame) (st : summary) :
  get_summary_stats df = Ok st ->
  exists range,
    date_range_of df = Ok range
    /\ st = {| vessel_counts := counts_of "VESSEL_NAME" df;
               component_counts := counts_of "COMP_NAME" df;
               mp_name_counts := counts_of "MP_NAME" df;
               date_range := range;
               numeric_stats :=
                 map (fun c => (fst c, numeric_summary_of (snd c)))
                     (List.filter (fun c => is_numeric (dtype_of (snd c))
                                            && negb (mem (fst c) ["COMP_NUMBER"]))
                                  (columns df)) |}.
Proof.
  unfold get_summary_stats. cbn zeta.
  destruct (date_range_of df) as [range|e]; [|discriminate].
  cbn [bind]. intros [= <-]. now exists range.
Qed.

(** X13. The numeric statistics of a well-formed frame have one entry for every
    float64 and int64 column but [COMP_NUMBER], and for no other column; no
    statistic is missing: it is a float that is not NaN, or the integer 0. *)
Theorem numeric_stats_spec (df : DataFrame) (st : summary) :
  wf_frame df = true ->
  get_summary_stats df = Ok st ->
  (forall label,
     In label (map fst (numeric_stats st)) <->
     label <> "COMP_NUMBER"
     /\ exists s, In (label, s) (columns df)
                  /\ (dtype_of s = Float64 \/ dtype_of s = Int64))
  /\ forall label ns stat,
       In (label, ns) (numeric_stats st) ->
       In stat [stat_min ns; stat_max ns; stat_mean ns; stat_median ns] ->
       isna stat = false
       /\ (stat = PyInt 0 \/ exists x, stat = PyFloat x).
Proof.
  intros _ Hrun. destruct (summary_fields df st Hrun) as [range [_ ->]].
  cbn [numeric_stats].
  assert (Hnum : forall s, is_numeric (dtype_of s) = true
                           <-> dtype_of s = Float64 \/ dtype_of s = Int64).
  { intros s. destruct (dtype_of s); cbn; intuition discriminate. }
  assert (Hskip : forall label, negb (mem label ["COMP_NUMBER"]) = true
                                <-> label <> "COMP_NUMBER").
  { intros label. unfold mem. cbn [existsb]. rewrite orb_false_r.
    rewrite negb_true_iff. apply String.eqb_neq. }
  split.
  - intros label. rewrite map_map. cbn [fst]. rewrite in_map_iff. split.
    + intros [[k s] [<- Hin]]. apply filter_In in Hin. cbn [fst snd] in *.
      destruct Hin as [Hin Hc]. apply andb_true_iff in Hc.
      destruct Hc as [Hn Hk]. split; [now apply Hskip|].
      exists s. split; [exact Hin | now apply Hnum].
    + intros [Hne [s [Hin Hk]]]. exists (label, s). split; [reflexivity|].
      apply filter_In. split; [exact Hin|]. cbn [fst snd].
      apply andb_true_iff. split; [now apply Hnum | now apply Hskip].
  - intros label ns stat Hin Hstat. apply in_map_iff in Hin.
    destruct Hin as [[k s] [[= <- <-] _]].
    assert (Hz : forall x, isna (stat_or_zero x) = false
                           /\ (stat_or_zero x = PyInt 0
                               \/ exists y, stat_or_zero x = PyFloat y)).
    { intros x. unfold stat_or_zero.
      destruct (PrimFloat.is_nan x) eqn:E; cbn [isna];
        [split; [reflexivity | now left] | split; [exact E | right; now eexists]]. }
    cbn [numeric_summary_of stat_min stat_max stat_mean stat_median In] in Hstat.
    destruct Hstat as [<-|[<-|[<-|[<-|[]]]]]; apply Hz.
Qed.

(** X14. The date range of a well-formed frame whose [TIMESTAMP] is a datetime
    column: the ISO texts of the earliest and of the latest timestamp, and
    [None] for both when every timestamp is NaT (or there is no row); the
    summary returns. *)
Theorem summary_date_range (df : DataFrame) (stamps : list (option Z)) :
  wf_frame df = true ->
  get_column "TIMESTAMP" df = Some (SDatetime stamps) ->
  exists st,
    get_summary_stats df = Ok st
    /\ ((forall t, ~ In (Some t) stamps) /\ date_range st = Some (None, None)
        \/ exists lo hi,
             In (Some lo) stamps /\ In (Some hi) stamps
             /\ (forall t, In (Some t) stamps -> lo <= t <= hi)
             /\ date_range st = Some (Some (isoformat lo), Some (isoformat hi))).
Proof.
  intros _ H. unfold get_summary_stats. cbn zeta.
  rewrite (date_range_of_datetime df stamps H). cbn [bind].
  eexists. split; [reflexivity|]. cbn [date_range].
  destruct (stamps_of stamps) as [|t rest] eqn:E.
  - left. split; [|reflexivity]. intros t Ht.
    apply stamps_of_In in Ht. rewrite E in Ht. destruct Ht.
  - right. cbn [extremes option_map fst snd].
    destruct (fold_min_spec t rest) as [Hlo Hlo'].
    destruct (fold_max_spec t rest) as [Hhi Hhi'].
    exists (fold_right Z.min t rest), (fold_right Z.max t rest).
    rewrite <- E in Hlo, Hhi, Hlo', Hhi'.
    split; [now apply stamps_of_In|]. split; [now apply stamps_of_In|].
    split; [|reflexivity]. intros x Hx. apply stamps_of_In in Hx.
    split; [now apply Hlo' | now apply Hhi'].
Qed.

End SummaryProperties.

(** ** From the loader and the pipeline to the summary *)

Section Composition.

Variable read_excel : list Byte.byte -> read_result.
Variable repr_float : float -> string.
Variable str_timestamp : Z -> string.
Variable parse_datetime : list (option string) -> string -> option Z.
Variable argsort : series -> outcome (list nat).
Variable key_eq : pyobj -> pyobj -> bool.
Variable isoformat : Z -> string.
Variable other_range : series -> outcome (option string * option string).
Variable nanmin nanmax nanmean nanmedian : list float -> float.

Local Abbreviation load_excel_file := (load_excel_file read_excel).
Local Abbreviation create_timestamp :=
  (create_timestamp repr_float str_timestamp parse_datetime).
Local Abbreviation process_data :=
  (process_data repr_float str_timestamp parse_datetime argsort).
Local Abbreviation value_counts := (value_counts key_eq).
Local Abbreviation get_summary_stats :=
  (get_summary_stats key_eq isoformat other_range nanmin nanmax nanmean nanmedian).

Lemma value_counts_repeat (name : string) (n : nat) :
  key_eq (PyStr name) (PyStr name) = true ->
  value_counts (SObject (repeat (PyStr name) n))
  = if Nat.eqb n 0 then [] else [(PyStr name, n)].
Proof.
  intros E. unfold value_counts. cbn [to_objects].
  rewrite filter_repeat_all by reflexivity.
  destruct n as [|n]; [reflexivity|]. cbn [Nat.eqb].
  rewrite (unique_by_repeat key_eq _ n E). cbn [map].
  rewrite filter_repeat_all by exact E. now rewrite repeat_length.
Qed.

(** X15. The summary of a frame as loaded counts one vessel, the one named by
    the file, once for every row; it counts none when the workbook has no
    row. *)
Theorem loaded_vessel_counts (file_content : list Byte.byte) (filename : string)
  (df : DataFrame) (vessel_name : string) (st : summary) :
  (forall a b, key_eq (PyStr a) (PyStr b) = String.eqb a b) ->
  load_excel_file file_content filename = Loaded df vessel_name ->
  wf_frame df = true ->
  get_summary_stats df = Ok st ->
  vessel_counts st
  = Some (if Nat.eqb (nrows df) 0 then []
          else [(PyStr (vessel_name_of filename), nrows df)]).
Proof.
  intros Htext Hload _ Hrun.
  destruct (summary_fields _ _ _ _ _ _ _ df st Hrun) as [range [_ ->]].
  cbn [vessel_counts]. unfold load_excel_file in Hload. cbn zeta in Hload.
  destruct (read_excel file_content) as [raw|cause]; [|discriminate].
  injection Hload as <- _. unfold counts_of, set_scalar_column.
  rewrite (get_has_column _ _ _ (get_set_same _ _ _)), get_set_same.
  cbn [option_map set_column nrows]. f_equal.
  apply value_counts_repeat. rewrite Htext. apply String.eqb_refl.
Qed.

(** X16. When [DATE] and [TIME] hold values and the pipeline returns, the
    summary of its result returns too, with a date range: the [TIMESTAMP]
    column the pipeline built is a datetime column, sorted or not. *)
Theorem summary_of_processed (df out : DataFrame) :
  wf_frame df = true ->
  without_values "DATE" df = false ->
  without_values "TIME" df = false ->
  process_data df = Ok out ->
  exists st stamps,
    get_column "TIMESTAMP" out = Some (SDatetime stamps)
    /\ length stamps = nrows out
    /\ get_summary_stats out = Ok st
    /\ date_range st
       = Some (option_map (fun e => isoformat (fst e)) (extremes (stamps_of stamps)),
               option_map (fun e => isoformat (snd e)) (extremes (stamps_of stamps))).
Proof.
  intros Hwf Hdate Htime Hrun. pose proof Hwf as Hnd. unfold wf_frame in Hnd.
  apply andb_true_iff in Hnd. destruct Hnd as [Hnd _].
  unfold process_data in Hrun. cbn zeta in Hrun.
  destruct (create_timestamp (clean_data df)) as [mid|e] eqn:Hmid;
    [|discriminate].
  cbn [bind] in Hrun.
  assert (Hboth : has_column "DATE" (clean_data df)
                  && has_column "TIME" (clean_data df) = true)
    by (rewrite !(has_column_clean _ _ Hnd), Hdate, Htime; reflexivity).
  destruct (create_timestamp_ran _ _ _ _ _ Hboth Hmid)
    as [dates [time [_ [_ ->]]]].
  set (stamps := to_datetime parse_datetime
                   (date_time_texts repr_float str_timestamp dates (to_objects time))).
  fold stamps in Hrun.
  set (mid := set_column "TIMESTAMP" stamps _) in *.
  assert (Hkey : get_column "TIMESTAMP" mid = Some stamps) by apply get_set_same.
  rewrite (get_has_column _ _ _ Hkey) in Hrun.
  unfold sort_values, getitem in Hrun. rewrite Hkey in Hrun. cbn [bind] in Hrun.
  destruct (argsort stamps) as [positions|e] eqn:Hsort; [|discriminate].
  cbn [bind] in Hrun. injection Hrun as <-.
  assert (Hout : get_column "TIMESTAMP" (take_rows positions mid)
                 = Some (series_take positions stamps))
    by (now rewrite get_column_take, Hkey).
  unfold stamps, to_datetime in Hout. cbn [series_take] in Hout.
  eexists. eexists. split; [exact Hout|]. split.
  - now rewrite List.length_map.
  - unfold get_summary_stats. cbn zeta.
    rewrite (date_range_of_datetime _ _ _ _ Hout). cbn [bind]. now split.
Qed.

End Composition.

(** ** Time series: the days of the undivided series *)

Lemma sequence_keys {K V : Type} (f : K -> outcome V) (keys : list K)
  (r : list (K * V)) :
  sequence (map (fun k => bind (f k) (fun m => Ok (k, m))) keys) = Ok r ->
  map fst r = keys.
Proof.
  revert r. induction keys as [|k keys IH]; intros r; cbn [map sequence].
  - now intros [= <-].
  - destruct (f k) as [m|e]; cbn [bind]; [|discriminate].
    destruct (sequence _) as [r'|e]; cbn [bind]; [|discriminate].
    intros [= <-]. cbn [map fst]. now rewrite (IH r' eq_refl).
Qed.

Lemma daily_observations_days (ts : list (option Z)) (cells : list pyobj) :
  length ts = length cells ->
  map fst (daily_observations ts cells) = map day_of (stamps_of ts).
Proof.
  unfold daily_observations, stamps_of. revert cells.
  induction ts as [|t ts IH]; intros [|c cells] Hlen; try discriminate;
    [reflexivity|].
  injection Hlen as Hlen. cbn [combine flat_map fst snd].
  rewrite !List.map_app, (IH cells Hlen). now destruct t.
Qed.

Section TimeSeriesDays.

Variable nanmean : list float -> float.
Variable mean_datetime : list pyobj -> pyobj.

Local Abbreviation get_time_series_data :=
  (get_time_series_data nanmean mean_datetime).

(** X17. Without the grouping column the result for a well-formed frame is one
    series under ["all"], with as many values as days, and its days are
    consecutive: every day from the first to the last day that has a row
    with a timestamp, also a day without any row. *)
Theorem time_series_days_are_consecutive (df : DataFrame)
  (column group_by : string) (ts : list (option Z)) (target : series)
  (res : list (pyobj * ts_entry)) :
  wf_frame df = true ->
  get_column "TIMESTAMP" df = Some (SDatetime ts) ->
  get_column column df = Some target ->
  has_column group_by df = false ->
  get_time_series_data df column group_by = Ok res ->
  let days := map day_of (stamps_of ts) in
  exists entry,
    res = [(PyStr "all", entry)]
    /\ length (timestamps entry) = length (values entry)
    /\ (days = [] /\ timestamps entry = []
        \/ exists lo hi,
             In lo days /\ In hi days
             /\ (forall d, In d days -> lo <= d <= hi)
             /\ timestamps entry
                = map (fun k => iso_date_of_day (lo + Z.of_nat k))
                      (seq 0 (Z.to_nat (hi - lo + 1)))).
Proof.
  intros Hwf Hts Hcol Hgroup Hrun days.
  assert (Hdays : map fst (daily_observations ts (to_objects target)) = days).
  { apply daily_observations_days.
    pose proof (wf_frame_get df _ _ Hwf Hts) as H1.
    pose proof (wf_frame_get df _ _ Hwf Hcol) as H2.
    cbn [to_objects] in H1. rewrite List.length_map in H1. congruence. }
  unfold get_time_series_data in Hrun.
  rewrite (get_has_column _ _ _ Hts), (get_has_column _ _ _ Hcol) in Hrun.
  cbn [negb orb] in Hrun. unfold getitem in Hrun.
  rewrite Hts, Hcol in Hrun. cbn [bind datetime_values] in Hrun.
  destruct (binnable ts); cbn [negb] in Hrun; [|discriminate].
  rewrite Hgroup in Hrun.
  destruct (daily_means nanmean mean_datetime (dtype_of target)
              (daily_observations ts (to_objects target)))
    as [grouped|e] eqn:Hmeans; cbn [bind] in Hrun; [|discriminate].
  destruct (String.eqb column "TIMESTAMP"); [discriminate|].
  injection Hrun as <-. eexists. split; [reflexivity|].
  cbn [timestamps values]. split; [now rewrite !List.length_map|].
  unfold daily_means in Hmeans. apply sequence_keys in Hmeans.
  rewrite Hdays in Hmeans.
  rewrite <- (map_map fst iso_date_of_day), Hmeans.
  destruct days as [|d rest]; [now left|]. right.
  destruct (fold_min_spec d rest) as [Hlo Hlo'].
  destruct (fold_max_spec d rest) as [Hhi Hhi'].
  exists (fold_right Z.min d rest), (fold_right Z.max d rest).
  split; [exact Hlo|]. split; [exact Hhi|]. split.
  - intros x Hx. split; [now apply Hlo' | now apply Hhi'].
  - unfold day_range. now rewrite map_map.
Qed.

End TimeSeriesDays.

(** ** The further properties on the sample frames *)

Lemma map_fst_combine_seq {A : Type} (xs : list A) (a : nat) :
  map fst (combine (seq a (length xs)) xs) = seq a (length xs).
Proof.
  revert a. induction xs as [|x xs IH]; intros a; [reflexivity|].
  cbn [length seq combine map fst]. now rewrite IH.
Qed.

(** The sample order is an arrangement of the positions. *)
Lemma sample_argsort_arranges (key : series) (positions : list nat) :
  Sample.argsort key = Ok positions ->
  Permutation positions (seq 0 (series_len key)).
Proof.
  unfold Sample.argsort, series_len.
  destruct key as [xs|xs|xs|xs|xs]; try discriminate; intros [= <-];
    cbn [to_objects]; rewrite List.length_map;
    rewrite <- (map_fst_combine_seq xs 0) at 2;
    apply Permutation_map, sort_by_Permutation.
Qed.

(** The Cleaner on the dated rows: [DATE], one of whose cells is NaT, is
    still a datetime column of three cells. *)
Lemma clean_data_keeps_kinds_witness :
  wf_frame (clean_data Sample.dated) = true
  /\ exists s',
       get_column "DATE" (clean_data Sample.dated) = Some s'
       /\ dtype_of s' = Datetime64
       /\ series_len s' = 3%nat.
Proof.
  destruct (clean_data_keeps_kinds Sample.dated eq_refl) as [Hwf Hkinds].
  split; [exact Hwf|].
  destruct (get_column "DATE" (clean_data Sample.dated)) as [s'|] eqn:Hs';
    [|discriminate Hs'].
  exists s'. split; [reflexivity|].
  destruct (Hkinds "DATE" s' Hs') as [s [Hs [_ [Hlen Hkind]]]].
  change (Some (SDatetime [Some Sample.jan1; None; Some Sample.jan2]) = Some s)
    in Hs.
  injection Hs as <-. rewrite Hkind, Hlen. split; reflexivity.
Defined.

(** The Cleaner on a loaded source: the column without values is gone, the
    missing temperature is zero. *)
Lemma clean_data_spec_witness :
  nodupb (names Sample.loaded) = true
  /\ get_column "UNUSED" (clean_data Sample.loaded) = None
  /\ exists s',
       get_column "TEMP" (clean_data Sample.loaded) = Some s'
       /\ has_na s' = false
       /\ to_objects s' = [PyFloat 10; PyFloat 0; PyFloat 30]%float.
Proof.
  split; [reflexivity|].
  destruct (clean_data_spec Sample.loaded eq_refl) as [Hgone [Hkept _]].
  split.
  - apply (Hgone "UNUSED" (SFloat64 [nan; nan; nan]%float)); reflexivity.
  - destruct (Hkept "TEMP" (SFloat64 [10; nan; 30]%float) eq_refl eq_refl)
      as [s' [Hs' [_ [_ Hfill]]]].
    destruct (Hfill ltac:(discriminate)) as [Hna Hcells].
    exists s'. split; [exact Hs'|]. split; [exact Hna | exact Hcells].
Defined.

(** The extraction on the unified dataset, one of whose timestamps is NaT,
    and on the dataset without that row. *)
Lemma time_series_ignores_null_timestamps_witness :
  binnable [Some (Sample.jan1 + 5); Some (Sample.jan1 + 7); None; Some Sample.jan2]
  = true
  /\ nrows (drop_null_timestamps Sample.unified) = 3%nat
  /\ get_time_series_data Sample.nanmean Sample.mean_datetime Sample.unified
       "TEMP" "VESSEL_NAME"
     = get_time_series_data Sample.nanmean Sample.mean_datetime
         (drop_null_timestamps Sample.unified) "TEMP" "VESSEL_NAME".
Proof.
  split; [reflexivity|]. split; [reflexivity|].
  exact (proj1 (time_series_ignores_null_timestamps Sample.nanmean
                  Sample.mean_datetime Sample.unified "TEMP" "VESSEL_NAME"
                  [Some (Sample.jan1 + 5); Some (Sample.jan1 + 7); None;
                   Some Sample.jan2]
                  eq_refl eq_refl)).
Defined.

(** The pipeline on the dated rows, one of whose dates is NaT: the three
    rows come out, one of them without a date. *)
Lemma process_data_keeps_rows_without_date_witness :
  exists out,
    process_data Sample.repr_float Sample.str_timestamp Sample.parse_datetime
      Sample.argsort Sample.dated = Ok out
    /\ nrows out = 3%nat
    /\ length (List.filter (holds_nat "DATE") (rows out)) = 1%nat.
Proof.
  destruct (process_data Sample.repr_float Sample.str_timestamp
              Sample.parse_datetime Sample.argsort Sample.dated)
    as [out|e] eqn:Hrun; [|discriminate Hrun].
  destruct (process_data_keeps_rows_without_date _ _ _ _ sample_argsort_arranges
              Sample.dated out [Some Sample.jan1; None; Some Sample.jan2]
              (SObject [PyStr "08:00:00"; PyStr "09:30:00"; PyStr "noon"])
              eq_refl eq_refl eq_refl eq_refl eq_refl Hrun) as [Hn [_ Hcount]].
  exists out. split; [reflexivity|]. split; [exact Hn | exact Hcount].
Defined.

(** The synthesizer twice on the log. *)
Lemma create_timestamp_idempotent_witness :
  exists df',
    create_timestamp Sample.repr_float Sample.str_timestamp
      Sample.parse_datetime Sample.logged = Ok df'
    /\ create_timestamp Sample.repr_float Sample.str_timestamp
         Sample.parse_datetime df' = Ok df'.
Proof.
  destruct (create_timestamp Sample.repr_float Sample.str_timestamp
              Sample.parse_datetime Sample.logged) as [df'|e] eqn:Hrun;
    [|discriminate Hrun].
  exists df'. split; [reflexivity|].
  exact (create_timestamp_idempotent _ _ _ _ _ Hrun).
Defined.

(** The pipeline on a source without dates. *)
Lemma process_data_without_dates_witness :
  without_values "DATE" Sample.loaded = true
  /\ process_data Sample.repr_float Sample.str_timestamp Sample.parse_datetime
       Sample.argsort Sample.loaded = Ok (clean_data Sample.loaded).
Proof.
  split; [reflexivity|].
  apply (process_data_without_dates _ _ _ _ Sample.loaded); reflexivity.
Defined.

(** The pipeline on the log: the rows come out in another order. *)
Lemma process_data_arranges_rows_witness :
  exists out mid,
    process_data Sample.repr_float Sample.str_timestamp Sample.parse_datetime
      Sample.argsort Sample.logged = Ok out
    /\ create_timestamp Sample.repr_float Sample.str_timestamp
         Sample.parse_datetime (clean_data Sample.logged) = Ok mid
    /\ nrows out = nrows mid
    /\ Permutation (rows out) (rows mid).
Proof.
  destruct (process_data Sample.repr_float Sample.str_timestamp
              Sample.parse_datetime Sample.argsort Sample.logged)
    as [out|e] eqn:Hrun; [|discriminate Hrun].
  destruct (process_data_arranges_rows _ _ _ _ sample_argsort_arranges
              Sample.logged out eq_refl Hrun) as [mid [Hmid [_ [Hn Hperm]]]].
  exists out, mid. split; [reflexivity|]. split; [exact Hmid|].
  split; [exact Hn | exact Hperm].
Defined.

(** Merging the unified dataset alone. *)
Lemma merge_single_frame_witness :
  wf_frame Sample.unified = true
  /\ merge_dataframes [Sample.unified] = Ok Sample.unified.
Proof.
  split; [reflexivity|]. exact (merge_single_frame Sample.unified eq_refl).
Defined.

(** The sample Filter Spec applied twice. *)
Lemma filter_data_idempotent_witness :
  filter_data Sample.cell_eq Sample.cell_isin
    (filter_data Sample.cell_eq Sample.cell_isin Sample.unified Sample.filters)
    Sample.filters
  = filter_data Sample.cell_eq Sample.cell_isin Sample.unified Sample.filters.
Proof.
  exact (proj1 (filter_data_idempotent Sample.cell_eq Sample.cell_isin
                  Sample.unified Sample.filters eq_refl)).
Defined.

Lemma filter_data_keeps_columns_witness :
  (nrows (filter_data Sample.cell_eq Sample.cell_isin Sample.unified Sample.filters)
   <= nrows Sample.unified)%nat
  /\ names (filter_data Sample.cell_eq Sample.cell_isin Sample.unified Sample.filters)
     = names Sample.unified.
Proof.
  destruct (filter_data_keeps_columns Sample.cell_eq Sample.cell_isin
              Sample.unified Sample.filters eq_refl) as [_ [Hn [Hnames _]]].
  split; [exact Hn | exact Hnames].
Defined.

(** The vessel column among the candidates changes nothing. *)
Lemma correlation_ignores_other_kinds_witness :
  get_correlation_data Sample.pearson Sample.round2 Sample.unified
    ["VESSEL_NAME"; "TEMP"; "LOAD"]
  = get_correlation_data Sample.pearson Sample.round2 Sample.unified
      ["TEMP"; "LOAD"].
Proof.
  exact (correlation_ignores_other_kinds Sample.pearson Sample.round2
           Sample.unified ["VESSEL_NAME"; "TEMP"; "LOAD"] eq_refl).
Defined.

(** The counts of a column of three texts and a missing cell. *)
Lemma value_counts_of_texts_witness :
  In (PyStr "A", 2%nat)
     (value_counts Sample.key_eq (SObject [PyStr "B"; PyNone; PyStr "A"; PyStr "A"]))
  /\ list_sum (map snd (value_counts Sample.key_eq
                          (SObject [PyStr "B"; PyNone; PyStr "A"; PyStr "A"])))
     = 3%nat.
Proof.
  destruct (value_counts_of_texts Sample.key_eq
              (SObject [PyStr "B"; PyNone; PyStr "A"; PyStr "A"])
              (fun a b => eq_refl) eq_refl) as [_ [Hin [Hsum _]]].
  split; [|exact Hsum].
  apply Hin. exists "A". split; [reflexivity|]. split; [reflexivity|].
  cbn. lia.
Defined.

(** The statistics of the loaded source: [TEMP] has an entry, the component
    number has none. *)
Lemma numeric_stats_spec_witness :
  exists st,
    get_summary_stats Sample.key_eq Sample.isoformat Sample.other_range
      Sample.nanmin Sample.nanmax Sample.nanmean Sample.nanmedian Sample.loaded
    = Ok st
    /\ In "TEMP" (map fst (numeric_stats st))
    /\ ~ In "COMP_NUMBER" (map fst (numeric_stats st)).
Proof.
  destruct (get_summary_stats Sample.key_eq Sample.isoformat Sample.other_range
              Sample.nanmin Sample.nanmax Sample.nanmean Sample.nanmedian
              Sample.loaded) as [st|e] eqn:Hrun; [|discriminate Hrun].
  destruct (numeric_stats_spec _ _ _ _ _ _ _ Sample.loaded st eq_refl Hrun)
    as [Hkeys _].
  exists st. split; [reflexivity|]. split.
  - apply Hkeys. split; [discriminate|].
    exists (SFloat64 [10; nan; 30]%float).
    split; [right; left; reflexivity | left; reflexivity].
  - intros H. apply Hkeys in H. destruct H as [Hne _]. now apply Hne.
Defined.

(** The date range of the unified dataset, one of whose timestamps is
    NaT. *)
Lemma summary_date_range_witness :
  exists st,
    get_summary_stats Sample.key_eq Sample.isoformat Sample.other_range
      Sample.nanmin Sample.nanmax Sample.nanmean Sample.nanmedian Sample.unified
    = Ok st
    /\ date_range st
       = Some (Some "2024-01-01T00:00:00", Some "2024-01-02T00:00:00").
Proof.
  destruct (summary_date_range Sample.key_eq Sample.isoformat Sample.other_range
              Sample.nanmin Sample.nanmax Sample.nanmean Sample.nanmedian
              Sample.unified
              [Some (Sample.jan1 + 5); Some (Sample.jan1 + 7); None; Some Sample.jan2]
              eq_refl eq_refl) as [st [Hrun _]].
  exists st. split; [exact Hrun|].
  vm_compute in Hrun. injection Hrun as <-. reflexivity.
Defined.

(** The summary of the sample workbook loaded from a file of vessel
    [Vessel1]. *)
Lemma loaded_vessel_counts_witness :
  load_excel_file Sample.read_excel [Byte.x00] "uploads/Vessel1 CBM_March.xlsx"
  = Loaded (set_scalar_column "VESSEL_NAME" (PyStr "Vessel1") Sample.workbook)
           "Vessel1"
  /\ exists st,
       get_summary_stats Sample.key_eq Sample.isoformat Sample.other_range
         Sample.nanmin Sample.nanmax Sample.nanmean Sample.nanmedian
         (set_scalar_column "VESSEL_NAME" (PyStr "Vessel1") Sample.workbook)
       = Ok st
       /\ vessel_counts st = Some [(PyStr "Vessel1", 2%nat)].
Proof.
  split; [reflexivity|].
  set (df := set_scalar_column "VESSEL_NAME" (PyStr "Vessel1") Sample.workbook).
  destruct (get_summary_stats Sample.key_eq Sample.isoformat Sample.other_range
              Sample.nanmin Sample.nanmax Sample.nanmean Sample.nanmedian df)
    as [st|e] eqn:Hrun; [|discriminate Hrun].
  exists st. split; [reflexivity|].
  exact (loaded_vessel_counts Sample.read_excel Sample.key_eq Sample.isoformat
           Sample.other_range Sample.nanmin Sample.nanmax Sample.nanmean
           Sample.nanmedian [Byte.x00] "uploads/Vessel1 CBM_March.xlsx"
           df "Vessel1" st (fun a b => eq_refl) eq_refl eq_refl Hrun).
Defined.

(** The summary of the processed log. *)
Lemma summary_of_processed_witness :
  exists out st range,
    process_data Sample.repr_float Sample.str_timestamp Sample.parse_datetime
      Sample.argsort Sample.logged = Ok out
    /\ get_summary_stats Sample.key_eq Sample.isoformat Sample.other_range
         Sample.nanmin Sample.nanmax Sample.nanmean Sample.nanmedian out = Ok st
    /\ date_range st = Some range.
Proof.
  destruct (process_data Sample.repr_float Sample.str_timestamp
              Sample.parse_datetime Sample.argsort Sample.logged)
    as [out|e] eqn:Hrun; [|discriminate Hrun].
  destruct (summary_of_processed Sample.repr_float Sample.str_timestamp
              Sample.parse_datetime Sample.argsort Sample.key_eq Sample.isoformat
              Sample.other_range Sample.nanmin Sample.nanmax Sample.nanmean
              Sample.nanmedian Sample.logged out eq_refl eq_refl eq_refl Hrun)
    as [st [stamps [_ [_ [Hst Hrange]]]]].
  exists out, st. eexists. split; [reflexivity|]. split; [exact Hst | exact Hrange].
Defined.

(** The daily series of the rows with a day between them: three days. *)
Lemma time_series_days_are_consecutive_witness :
  exists res entry,
    get_time_series_data Sample.nanmean Sample.mean_datetime Sample.gapped
      "TEMP" "VESSEL_NAME" = Ok res
    /\ res = [(PyStr "all", entry)]
    /\ timestamps entry = ["2024-01-01"; "2024-01-02"; "2024-01-03"].
Proof.
  destruct (get_time_series_data Sample.nanmean Sample.mean_datetime
              Sample.gapped "TEMP" "VESSEL_NAME") as [res|e] eqn:Hrun;
    [|discriminate Hrun].
  destruct (time_series_days_are_consecutive Sample.nanmean Sample.mean_datetime
              Sample.gapped "TEMP" "VESSEL_NAME"
              [Some Sample.jan1; Some (Sample.jan1 + 2 * ns_per_day)]
              (SFloat64 [10; 30]%float) res eq_refl eq_refl eq_refl eq_refl Hrun)
    as [entry [Hres _]].
  exists res, entry. split; [reflexivity|]. split; [exact Hres|].
  vm_compute in Hrun. injection Hrun as Hr. rewrite <- Hr in Hres.
  injection Hres as <-. reflexivity.
Defined.
